(** * winpos: window arrangement across screens and virtual desktops

    A shallow embedding of [winpos.py] and the properties of its layout
    engine: the topology line parser, the size and position resolvers and
    the arrangement run.

    Conventions of the model.
    - A Python [str] is a [string]; characters are code points below 256.
    - A Python [int] is a [Z].
    - An exception is a value of [exn]; a function that can raise returns a
      [result].
    - A JSON value of the configuration is a [value]: null, a boolean, an
      integer or a string.  Floating point numbers and nested containers as
      field values are outside the model: a statement about every rule
      ranges over the rules whose fields are null, booleans, integers or
      strings.
    - External commands go through a [world] that answers each command from
      the history of the run; every command and every log line is recorded
      in a chronological trace. *)

From Stdlib Require Import ZArith List String Ascii Bool Lia.
From Stdlib Require Import Permutation Sorted.
Import ListNotations.

Local Open Scope string_scope.
Local Open Scope list_scope.
Local Open Scope Z_scope.

(** ** Exceptions and results *)

Inductive exn : Type :=
| AssertionError
| ValueError
| KeyError
| IndexError
| TypeError
| AttributeError
| OverflowError
| CalledProcessError (output : string)
| OtherError (what : string).

Inductive result (A : Type) : Type :=
| Ok (a : A)
| Raise (e : exn).

Arguments Ok {A} a.
Arguments Raise {A} e.

Definition rbind {A B : Type} (r : result A) (k : A -> result B) : result B :=
  match r with
  | Ok a => k a
  | Raise e => Raise e
  end.

Notation "'let?' x ':=' r 'in' k" := (rbind r (fun x => k))
  (at level 10, x pattern, r at level 100, k at level 200).

(** ** Python string primitives *)

Module Str.

Definition code (c : ascii) : Z := Z.of_N (N_of_ascii c).

(** [str.isspace] on one character (code points below 256). *)
Definition is_space (c : ascii) : bool :=
  let n := code c in
  ((9 <=? n) && (n <=? 13)) || ((28 <=? n) && (n <=? 32))
  || (n =? 133) || (n =? 160).

(** The white space [int()] skips around a literal: the file separators
    28..31 are not part of it. *)
Definition is_int_space (c : ascii) : bool :=
  let n := code c in
  ((9 <=? n) && (n <=? 13)) || (n =? 32) || (n =? 133) || (n =? 160).

Fixpoint lstrip_by (p : ascii -> bool) (s : string) : string :=
  match s with
  | String c r => if p c then lstrip_by p r else s
  | EmptyString => EmptyString
  end.

Fixpoint rev_onto (acc s : string) : string :=
  match s with
  | String c r => rev_onto (String c acc) r
  | EmptyString => acc
  end.

Definition rev (s : string) : string := rev_onto EmptyString s.

Definition rstrip_by (p : ascii -> bool) (s : string) : string :=
  rev (lstrip_by p (rev s)).

Definition strip_by (p : ascii -> bool) (s : string) : string :=
  rstrip_by p (lstrip_by p s).

(** [s.strip()] *)
Definition strip (s : string) : string := strip_by is_space s.

Fixpoint mem (c : ascii) (chars : string) : bool :=
  match chars with
  | String d r => Ascii.eqb c d || mem c r
  | EmptyString => false
  end.

(** [s.strip(chars)] *)
Definition strip_chars (chars s : string) : string :=
  strip_by (fun c => mem c chars) s.

(** [c in s] for a one character string [c]. *)
Definition contains (c : ascii) (s : string) : bool := mem c s.

Fixpoint starts_with (p s : string) : bool :=
  match p, s with
  | EmptyString, _ => true
  | String a p', String b s' => Ascii.eqb a b && starts_with p' s'
  | String _ _, EmptyString => false
  end.

(** [s.endswith(p)] *)
Definition endswith (s p : string) : bool := starts_with (rev p) (rev s).

(** [s.split(sep)] for a non-empty separator: the occurrences of [sep]
    are found from left to right without overlap.  [skip] counts the
    characters of a separator that was just matched and are still to be
    passed over; [acc] holds the current piece, reversed. *)
Fixpoint split_from (sep : string) (skip : nat) (acc s : string)
  : list string :=
  match s with
  | EmptyString => [rev acc]
  | String c r =>
      match skip with
      | S k => split_from sep k acc r
      | O =>
          if starts_with sep s
          then rev acc :: split_from sep (Nat.pred (String.length sep))
                            EmptyString r
          else split_from sep O (String c acc) r
      end
  end.

Definition split (sep s : string) : list string :=
  split_from sep O EmptyString s.

(** [sep.join(parts)] *)
Fixpoint join (sep : string) (parts : list string) : string :=
  match parts with
  | [] => EmptyString
  | [p] => p
  | p :: rest => (p ++ sep ++ join sep rest)%string
  end.

(** [s.replace(old, new)] for a non-empty [old]. *)
Definition replace (old new s : string) : string :=
  join new (split old s).

(** [s.lower()] *)
Definition lower_char (c : ascii) : ascii :=
  let n := code c in
  if ((65 <=? n) && (n <=? 90))
     || ((192 <=? n) && (n <=? 222) && negb (n =? 215))
  then ascii_of_N (Z.to_N (n + 32))
  else c.

Fixpoint lower (s : string) : string :=
  match s with
  | String c r => String (lower_char c) (lower r)
  | EmptyString => EmptyString
  end.

Definition digit (c : ascii) : option Z :=
  let n := code c in
  if (48 <=? n) && (n <=? 57) then Some (n - 48) else None.

Definition is_digit (c : ascii) : bool :=
  match digit c with Some _ => true | None => false end.

(** The digits of an integer literal after its first digit: single
    underscores may separate digits. *)
Fixpoint int_digits (acc : Z) (after_underscore : bool) (s : string)
  : option Z :=
  match s with
  | EmptyString => if after_underscore then None else Some acc
  | String c r =>
      if Ascii.eqb c "_"
      then if after_underscore then None else int_digits acc true r
      else match digit c with
           | Some d => int_digits (10 * acc + d) false r
           | None => None
           end
  end.

Definition int_literal (s : string) : option Z :=
  match s with
  | String c r =>
      match digit c with
      | Some d => int_digits d false r
      | None => None
      end
  | EmptyString => None
  end.

(** The number of digits of a literal: underscores do not count, leading
    zeros do. *)
Fixpoint count_digits (s : string) : nat :=
  match s with
  | String c r => if Ascii.eqb c "_" then count_digits r else S (count_digits r)
  | EmptyString => O
  end.

(** The most digits [int] converts, [sys.get_int_max_str_digits()]: the
    program leaves it at its default. *)
Definition max_str_digits : Z := 4300.

(** [int(s)]: surrounding white space, an optional sign, a decimal
    literal of at most [max_str_digits] digits; anything else is a
    [ValueError]. *)
Definition to_int (s : string) : result Z :=
  let body := strip_by is_int_space s in
  let signed :=
    match body with
    | String c r =>
        if Ascii.eqb c "-" then (-1, r)
        else if Ascii.eqb c "+" then (1, r)
        else (1, body)
    | EmptyString => (1, body)
    end in
  match int_literal (snd signed) with
  | Some n =>
      if max_str_digits <? Z.of_nat (count_digits (snd signed))
      then Raise ValueError
      else Ok (fst signed * n)
  | None => Raise ValueError
  end.

Fixpoint all_digits (s : string) : bool :=
  match s with
  | String c r => is_digit c && all_digits r
  | EmptyString => true
  end.

(** The text a pattern ending in [$] is matched against: [$] also
    matches just before a final line feed. *)
Definition before_dollar (s : string) : string :=
  match rev s with
  | String c r => if Ascii.eqb c "010" then rev r else s
  | EmptyString => s
  end.

(** [re.match(r'^[0-9]{lo,hi}$', s)] *)
Definition match_digits (lo hi : nat) (s : string) : bool :=
  let d := before_dollar s in
  all_digits d && (lo <=? String.length d)%nat && (String.length d <=? hi)%nat.

(** [re.match(r'^[0-9]{lo,hi}%$', s)] *)
Definition match_percent (lo hi : nat) (s : string) : bool :=
  match rev (before_dollar s) with
  | String c r =>
      let d := rev r in
      Ascii.eqb c "%" && all_digits d && (lo <=? String.length d)%nat
      && (String.length d <=? hi)%nat
  | EmptyString => false
  end.

End Str.

(** ** Integer true division

    [a / b] on Python integers is the binary64 number nearest to the exact
    quotient (ties to even), and [int] of a float truncates it toward zero.
    A finite binary64 number is kept as [mant * 2 ^ expo]. *)

Module Float.

Record t : Type := mk { mant : Z; expo : Z }.

(** The integer [k] with [2 ^ k <= n / b < 2 ^ (k + 1)], for positive
    [n] and [b]. *)
Definition floor_log2_quot (n b : Z) : Z :=
  let k := Z.log2 n - Z.log2 b in
  if b * 2 ^ Z.max k 0 <=? n * 2 ^ Z.max (- k) 0 then k else k - 1.

(** [n / d] rounded to the nearest integer, ties to even. *)
Definition round_half_even (n d : Z) : Z :=
  let q := n / d in
  let r := n mod d in
  if (d <? 2 * r) || ((d =? 2 * r) && Z.odd q) then q + 1 else q.

(** [a / b] *)
Definition true_divide (a b : Z) : result t :=
  if b =? 0 then Raise (OtherError "ZeroDivisionError")
  else if a =? 0 then Ok (mk 0 0)
  else
    let n := Z.abs a in
    let d := Z.abs b in
    let e := Z.max (floor_log2_quot n d - 52) (-1074) in
    let m := round_half_even (n * 2 ^ Z.max (- e) 0) (d * 2 ^ Z.max e 0) in
    if 2 ^ 1024 <=? m * 2 ^ e then Raise OverflowError
    else Ok (mk (Z.sgn a * Z.sgn b * m) e).

(** [int(f)] *)
Definition to_int (f : t) : Z :=
  if 0 <=? expo f then mant f * 2 ^ expo f
  else Z.quot (mant f) (2 ^ (- expo f)).

(** [int(a / b)] *)
Definition int_true_divide (a b : Z) : result Z :=
  let? f := true_divide a b in Ok (to_int f).

End Float.

(** ** Configuration values *)

Inductive value : Type :=
| VNone
| VBool (b : bool)
| VInt (n : Z)
| VStr (s : string).

(** Truth value of [v] in a condition. *)
Definition truthy (v : value) : bool :=
  match v with
  | VNone => false
  | VBool b => b
  | VInt n => negb (n =? 0)
  | VStr s => negb (String.eqb s "")
  end.

(** [isinstance(v, int)], with the integer [v] stands for: a boolean is an
    integer. *)
Definition as_int (v : value) : option Z :=
  match v with
  | VBool b => Some (Z.b2z b)
  | VInt n => Some n
  | _ => None
  end.

(** A Python integer object.  A boolean is an integer: [True] counts as 1
    and [False] as 0 in arithmetic and comparisons, and each keeps its own
    text under [str]. *)
Inductive integer : Type :=
| Int (n : Z)
| Boolean (b : bool).

Definition int_value (i : integer) : Z :=
  match i with
  | Int n => n
  | Boolean b => Z.b2z b
  end.

(** [isinstance(v, int)], with the integer object [v] is. *)
Definition as_integer (v : value) : option integer :=
  match v with
  | VBool b => Some (Boolean b)
  | VInt n => Some (Int n)
  | _ => None
  end.

(** The configuration value an integer object is. *)
Definition value_of (i : integer) : value :=
  match i with
  | Int n => VInt n
  | Boolean b => VBool b
  end.

(** [min(a, b)]: the first argument, unless the second is smaller. *)
Definition py_min (a : integer) (b : Z) : integer :=
  if b <? int_value a then Int b else a.

(** [a > b]: defined between integers and between strings. *)
Definition py_gt (a b : value) : result bool :=
  match as_int a, as_int b with
  | Some x, Some y => Ok (y <? x)
  | _, _ =>
      match a, b with
      | VStr s, VStr u =>
          Ok (match String.compare s u with Gt => true | _ => false end)
      | _, _ => Raise TypeError
      end
  end.

(** A JSON object: keys in document order. *)
Definition dict : Type := list (string * value).

Fixpoint dict_find (k : string) (d : dict) : option value :=
  match d with
  | (k', v) :: rest =>
      match dict_find k rest with
      | Some v' => Some v'
      | None => if String.eqb k k' then Some v else None
      end
  | [] => None
  end.

(** [d.get(k, default)] *)
Definition dict_get (k : string) (default : value) (d : dict) : value :=
  match dict_find k d with
  | Some v => v
  | None => default
  end.

(** [d.update(other)] *)
Definition dict_update (d other : dict) : dict := d ++ other.

(** [d[k]] *)
Definition dict_item (k : string) (d : dict) : result value :=
  match dict_find k d with
  | Some v => Ok v
  | None => Raise KeyError
  end.

(** ** Screens and the topology line parser *)

(** The dictionary [get_screen_data] fills: a key that was not set is
    [None]. *)
Record screen : Type := mk_screen {
  name : option string;
  index : option Z;
  current : option bool;
  x : option Z;
  y : option Z;
  width : option Z;
  width_mm : option Z;
  height : option Z;
  height_mm : option Z
}.

Definition empty_screen : screen :=
  mk_screen None None None None None None None None None.

Definition set_name (v : string) (s : screen) : screen :=
  mk_screen (Some v) (index s) (current s) (x s) (y s)
            (width s) (width_mm s) (height s) (height_mm s).

Definition set_index_current (i : Z) (c : bool) (s : screen) : screen :=
  mk_screen (name s) (Some i) (Some c) (x s) (y s)
            (width s) (width_mm s) (height s) (height_mm s).

Definition set_origin (vx vy : Z) (s : screen) : screen :=
  mk_screen (name s) (index s) (current s) (Some vx) (Some vy)
            (width s) (width_mm s) (height s) (height_mm s).

Definition set_extent (w wmm h hmm : Z) (s : screen) : screen :=
  mk_screen (name s) (index s) (current s) (x s) (y s)
            (Some w) (Some wmm) (Some h) (Some hmm).

(** [not d] for a dictionary [d]: true when no key is set. *)
Definition screen_is_empty (s : screen) : bool :=
  match name s, index s, current s, x s, y s,
        width s, width_mm s, height s, height_mm s with
  | None, None, None, None, None, None, None, None, None => true
  | _, _, _, _, _, _, _, _, _ => false
  end.

Fixpoint map_result {A B : Type} (f : A -> result B) (l : list A)
  : result (list B) :=
  match l with
  | [] => Ok []
  | a :: rest =>
      let? b := f a in
      let? bs := map_result f rest in
      Ok (b :: bs)
  end.

(** [_get_px_mm] followed by the unpacking into two names. *)
Definition get_px_mm (data : string) : result (Z * Z) :=
  let? t := map_result Str.to_int (Str.split "/" data) in
  match t with
  | [px; mm] => Ok (px, mm)
  | _ => Raise ValueError
  end.

Definition item (i : nat) (data : list string) : string := nth i data "".

Definition get_screen_data (screen_data : string) : result (option screen) :=
  let res := empty_screen in
  let data := Str.split "  " (Str.strip screen_data) in
  if negb (Nat.eqb (List.length data) 2) then Ok None
  else
    let res := set_name (item 1 data) res in
    let screen_data := item 0 data in
    let data := Str.split " " (Str.strip screen_data) in
    let? (res, screen_data) :=
      if Nat.eqb (List.length data) 3 then
        let? i := Str.to_int (Str.strip_chars ":" (item 0 data)) in
        Ok (set_index_current i (Str.contains "*" (item 1 data)) res,
            item 2 data)
      else Ok (res, screen_data) in
    let data := Str.split "+" screen_data in
    let? (res, screen_data) :=
      if Nat.eqb (List.length data) 3 then
        let? vx := Str.to_int (item 1 data) in
        let? vy := Str.to_int (item 2 data) in
        Ok (set_origin vx vy res, item 0 data)
      else Ok (res, screen_data) in
    let data := Str.split "x" screen_data in
    let? res :=
      if Nat.eqb (List.length data) 2 then
        let? (w, wmm) := get_px_mm (item 0 data) in
        let? (h, hmm) := get_px_mm (item 1 data) in
        Ok (set_extent w wmm h hmm res)
      else Ok res in
    Ok (Some res).

(** ** External commands, log lines and the run monad *)

Inductive command : Type :=
| xrandr_listactivemonitors
| xdotool_get_num_desktops
| xdotool_set_num_desktops (count : Z)
| pgrep_f (pattern : string)
| xdotool_search (pid : option string) (search_name : option string)
| xdotool_windowmove (window_id : string) (x_pos y_pos : Z)
| xdotool_windowsize (window_id : string) (w h : integer)
| xdotool_set_desktop_for_window (window_id : string) (desktop : value).

(** The text of a log line, by the call of [log] that prints it. *)
Inductive message : Type :=
| msg_enough_desktops (count : Z)
| msg_multiple_processes (search_process : value)
| msg_output (output : string)
| msg_setting_size (w h : integer) (name : value) (window_id : string)
| msg_moving (name : value) (window_id : string) (x_pos y_pos : Z)
| msg_moving_to_desktop (name : value) (window_id : string) (desktop : value)
| msg_invalid_size (source : string)
| msg_only_screens (available : nat) (name : value) (screen : value)
| msg_no_window (name : value).

Inductive event : Type :=
| Call (c : command)
| Log (level : string) (m : message).

Definition trace : Type := list event.

(** What a command returns, given what has happened so far. *)
Definition world : Type := trace -> command -> result string.

Definition M (A : Type) : Type := world -> trace -> result A * trace.

Definition ret {A : Type} (a : A) : M A := fun _ t => (Ok a, t).

Definition raise {A : Type} (e : exn) : M A := fun _ t => (Raise e, t).

Definition bind {A B : Type} (m : M A) (k : A -> M B) : M B :=
  fun w t =>
    match m w t with
    | (Ok a, t') => k a w t'
    | (Raise e, t') => (Raise e, t')
    end.

Definition lift {A : Type} (r : result A) : M A := fun _ t => (r, t).

Notation "x <- m ;; k" := (bind m (fun x => k))
  (at level 61, m at next level, right associativity).
Notation "m ;; k" := (bind m (fun _ => k))
  (at level 61, right associativity).

(** [assert cond] *)
Definition assert (cond : bool) : M unit :=
  if cond then ret tt else raise AssertionError.

(** [subprocess.check_output(...)] *)
Definition check_output (c : command) : M string :=
  fun w t => (w t c, t ++ [Call c]).

(** [log(msg, level)] *)
Definition log (m : message) (level : string) : M unit :=
  fun _ t => (Ok tt, t ++ [Log level m]).

(** [try: body  except subprocess.CalledProcessError as err: handler] *)
Definition except_called_process_error {A : Type}
  (body : M A) (handler : string -> M A) : M A :=
  fun w t =>
    match body w t with
    | (Raise (CalledProcessError output), t') => handler output w t'
    | other => other
    end.

(** An argument of a command line has to be a string. *)
Definition command_arg (v : value) : M string :=
  match v with
  | VStr s => ret s
  | _ => raise TypeError
  end.

(** ** Collecting the active screens *)

(** The key of [res.sort]: [s.get('x', 0)]. *)
Definition sort_key (s : screen) : Z :=
  match x s with
  | Some v => v
  | None => 0
  end.

(** [list.sort(key=...)] is a stable sort; insertion from the right is
    one. *)
Fixpoint insert_by {A : Type} (key : A -> Z) (a : A) (l : list A) : list A :=
  match l with
  | [] => [a]
  | b :: rest =>
      if key a <=? key b then a :: l else b :: insert_by key a rest
  end.

Fixpoint sort_by {A : Type} (key : A -> Z) (l : list A) : list A :=
  match l with
  | [] => []
  | a :: rest => insert_by key a (sort_by key rest)
  end.

(** The loop of [get_active_screens] over the lines of the report. *)
Fixpoint collect_screens (monitors : list string) : result (list screen) :=
  match monitors with
  | [] => Ok []
  | monitor :: rest =>
      let? screen_data := get_screen_data monitor in
      let? res := collect_screens rest in
      match screen_data with
      | None => Ok res
      | Some s => if screen_is_empty s then Ok res else Ok (s :: res)
      end
  end.

Definition linesep : string := String "010" EmptyString.

Definition screens_of_lines (monitors : list string) : result (list screen) :=
  let? res := collect_screens monitors in
  Ok (sort_by sort_key res).

Definition get_active_screens : M (list screen) :=
  output <- check_output xrandr_listactivemonitors ;;
  let monitors := Str.split linesep (Str.strip output) in
  lift (screens_of_lines monitors).

(** ** Desktops and windows *)

Definition set_desktops (count : Z) : M unit :=
  output <- check_output xdotool_get_num_desktops ;;
  desktops_count <- lift (Str.to_int (Str.strip output)) ;;
  if count <=? desktops_count then
    log (msg_enough_desktops count) "info"
  else
    check_output (xdotool_set_num_desktops count) ;; ret tt.

(** The last element of a list of lines, [None] when it is empty text. *)
Definition last_or_none (windows : list string) : option string :=
  match last windows "" with
  | EmptyString => None
  | id => Some id
  end.

(** The body of the [try] of [get_window]: [inl tt] is its early
    [return None], [inr output] the output of the window search. *)
Definition get_window_try (search_name search_process : value)
  : M (unit + string) :=
  found <-
    (if truthy search_process then
       pattern <- command_arg search_process ;;
       output <- check_output (pgrep_f pattern) ;;
       let pids := Str.split linesep (Str.strip output) in
       if (1 <? List.length pids)%nat then
         log (msg_multiple_processes search_process) "error" ;;
         ret (inl tt)
       else ret (inr (Some (item 0 pids)))
     else ret (inr None)) ;;
  match found with
  | inl _ => ret (inl tt)
  | inr pid =>
      let pid_arg :=
        match pid with
        | Some p => if String.eqb p "" then None else Some p
        | None => None
        end in
      name_arg <-
        (if truthy search_name then
           n <- command_arg search_name ;; ret (Some n)
         else ret None) ;;
      output <- check_output (xdotool_search pid_arg name_arg) ;;
      ret (inr output)
  end.

Definition get_window (search_name search_process : value)
  : M (option string) :=
  r <- except_called_process_error
         (get_window_try search_name search_process)
         (fun output => log (msg_output output) "info" ;; ret (inl tt)) ;;
  match r with
  | inl _ => ret None
  | inr output =>
      let windows := Str.split linesep (Str.strip output) in
      ret (last_or_none windows)
  end.

Definition set_window_size (window_id : string) (name : value)
  (w h : integer) : M string :=
  log (msg_setting_size w h name window_id) "info" ;;
  output <- check_output (xdotool_windowsize window_id w h) ;;
  ret (Str.strip output).

Definition set_window_pos (window_id : string) (name : value)
  (x_pos y_pos : Z) : M string :=
  log (msg_moving name window_id x_pos y_pos) "info" ;;
  output <- check_output (xdotool_windowmove window_id x_pos y_pos) ;;
  ret (Str.strip output).

Definition set_window_desktop (window_id : string) (name desktop : value)
  : M string :=
  log (msg_moving_to_desktop name window_id desktop) "info" ;;
  output <- check_output (xdotool_set_desktop_for_window window_id desktop) ;;
  ret (Str.strip output).

(** ** The geometry resolver *)

Definition calc_size (source : value) (target : Z) : M integer :=
  match as_integer source with
  | Some source =>
      let source := if 0 <? int_value source then source else Int 0 in
      ret (py_min source target)
  | None =>
      match source with
      | VStr s =>
          let source := Str.strip s in
          if Str.match_digits 1 4 source then
            n <- lift (Str.to_int source) ;;
            ret (py_min (Int n) target)
          else if Str.match_percent 1 3 source then
            perc <- lift (Str.to_int (Str.replace "%" "" source)) ;;
            let perc := if (0 <? perc) && (perc <=? 100) then perc else 100 in
            size <- lift (Float.int_true_divide (target * perc) 100) ;;
            ret (Int size)
          else
            log (msg_invalid_size source) "error" ;;
            ret (Int 0)
      | _ => raise AttributeError
      end
  end.

Definition in_list (s : string) (l : list string) : bool :=
  existsb (String.eqb s) l.

(** [width] and [height] enter by their integer values only, in
    [screen_width - width] and [screen_height - height]. *)
Definition calc_pos (position : value) (w h screen_width screen_height : Z)
  : M (Z * Z) :=
  match position with
  | VStr position =>
      let pos := Str.split " " position in
      assert (Nat.eqb (List.length pos) 2) ;;
      let vert := Str.lower (item 0 pos) in
      let horiz := Str.lower (item 1 pos) in
      assert (in_list vert ["top"; "center"; "bottom"]
              || Str.endswith vert "%") ;;
      assert (in_list horiz ["left"; "center"; "right"]
              || Str.endswith horiz "%") ;;
      y_pos <-
        (if String.eqb vert "top" then ret 0
         else if String.eqb vert "center" then
           lift (Float.int_true_divide (screen_height - h) 2)
         else if String.eqb vert "bottom" then ret (screen_height - h)
         else
           size <- calc_size (VStr vert) (screen_height - h) ;;
           ret (int_value size)) ;;
      x_pos <-
        (if String.eqb horiz "left" then ret 0
         else if String.eqb horiz "center" then
           lift (Float.int_true_divide (screen_width - w) 2)
         else if String.eqb horiz "right" then ret (screen_width - w)
         else
           size <- calc_size (VStr horiz) (screen_width - w) ;;
           ret (int_value size)) ;;
      ret (x_pos, y_pos)
  | _ => raise AttributeError
  end.

(** ** The arrangement run *)

Definition defaults : dict :=
  [ ("name", VStr "Unknown");
    ("search_name", VStr "");
    ("search_process", VStr "");
    ("screen", VInt 0);
    ("desktop", VInt 2);
    ("width", VInt 0);
    ("height", VInt 0);
    ("align", VStr "top left") ].

(** [l[i]] for an integer [i]: a negative index counts from the end. *)
Definition list_item {A : Type} (l : list A) (i : Z) : result A :=
  let n := Z.of_nat (List.length l) in
  let j := if i <? 0 then i + n else i in
  if (0 <=? j) && (j <? n) then
    match nth_error l (Z.to_nat j) with
    | Some a => Ok a
    | None => Raise IndexError
    end
  else Raise IndexError.

(** [screen[k]] for a key [k] of a screen record. *)
Definition field (v : option Z) : result Z :=
  match v with
  | Some n => Ok n
  | None => Raise KeyError
  end.

Definition arrange_window (window_config : dict) (screens : list screen)
  : M unit :=
  let config := dict_update defaults window_config in
  cfg_name <- lift (dict_item "name" config) ;;
  search_name <- lift (dict_item "search_name" config) ;;
  search_process <- lift (dict_item "search_process" config) ;;
  assert (truthy search_name || truthy search_process) ;;
  cfg_screen <- lift (dict_item "screen" config) ;;
  match as_int cfg_screen with
  | None => raise AssertionError
  | Some screen_index =>
      if Z.of_nat (List.length screens) <=? screen_index then
        log (msg_only_screens (List.length screens) cfg_name cfg_screen)
            "error"
      else
        screen <- lift (list_item screens screen_index) ;;
        win_id <- get_window search_name search_process ;;
        match win_id with
        | None => log (msg_no_window cfg_name) "error"
        | Some win_id =>
            cfg_width <- lift (dict_item "width" config) ;;
            screen_width <- lift (field (width screen)) ;;
            w <- calc_size cfg_width screen_width ;;
            cfg_height <- lift (dict_item "height" config) ;;
            screen_height <- lift (field (height screen)) ;;
            h <- calc_size cfg_height screen_height ;;
            cfg_align <- lift (dict_item "align" config) ;;
            pos <- calc_pos cfg_align (int_value w) (int_value h)
                     screen_width screen_height ;;
            screen_x <- lift (field (x screen)) ;;
            let x_pos := fst pos + screen_x in
            screen_y <- lift (field (y screen)) ;;
            let y_pos := snd pos + screen_y in
            set_window_pos win_id cfg_name x_pos y_pos ;;
            set_window_size win_id cfg_name w h ;;
            cfg_desktop <- lift (dict_item "desktop" config) ;;
            set_window_desktop win_id cfg_name cfg_desktop ;;
            ret tt
        end
  end.

(** [get_config], given what loading the document produced: [None] when
    the file could not be opened, which leaves the empty list. *)
Definition get_config (loaded : option (list dict)) : M (list dict) :=
  let config :=
    match loaded with
    | Some document => document
    | None => []
    end in
  assert (0 <? List.length config)%nat ;;
  ret config.

(** [max(...)] over the values in order: a later value replaces the
    current maximum when it is greater. *)
Fixpoint max_from (best : value) (rest : list value) : result value :=
  match rest with
  | [] => Ok best
  | v :: rest' =>
      let? greater := py_gt v best in
      max_from (if greater then v else best) rest'
  end.

Definition py_max (values : list value) : result value :=
  match values with
  | [] => Raise ValueError
  | v :: rest => max_from v rest
  end.

(** [v + 1] *)
Definition plus_one (v : value) : result Z :=
  match as_int v with
  | Some n => Ok (n + 1)
  | None => Raise TypeError
  end.

Fixpoint for_each {A : Type} (l : list A) (body : A -> M unit) : M unit :=
  match l with
  | [] => ret tt
  | a :: rest => body a ;; for_each rest body
  end.

Definition arrange_windows (loaded : option (list dict)) : M unit :=
  screens <- get_active_screens ;;
  config <- get_config loaded ;;
  max_desktop <-
    lift (py_max (map (dict_get "desktop" (VInt 0)) config)) ;;
  count <- lift (plus_one max_desktop) ;;
  set_desktops count ;;
  for_each config (fun win_conf => arrange_window win_conf screens).

(** ** Vocabulary of the properties *)

(** The three calls that place a window. *)
Definition is_placement (e : event) : bool :=
  match e with
  | Call (xdotool_windowmove _ _ _) => true
  | Call (xdotool_windowsize _ _ _) => true
  | Call (xdotool_set_desktop_for_window _ _) => true
  | _ => false
  end.

Definition no_placement (events : list event) : Prop :=
  Forall (fun e => is_placement e = false) events.

(** A computation that only adds events to the trace, none of them a
    placement call. *)
Definition places_nothing {A : Type} (m : M A) : Prop :=
  forall (W : world) (t : trace),
    exists events, snd (m W t) = t ++ events /\ no_placement events.

(** What move, resize and desktop assignment of a window amount to from
    trace [t], call by call: the first call that fails ends the sequence
    with its exception. *)
Definition placement_outcome (W : world) (t : trace)
  (window_id : string) (name : value) (x_pos y_pos : Z) (w h : integer)
  (desktop : value) : result unit * trace :=
  let move := xdotool_windowmove window_id x_pos y_pos in
  let resize := xdotool_windowsize window_id w h in
  let assign := xdotool_set_desktop_for_window window_id desktop in
  let t1 := t ++ [Log "info" (msg_moving name window_id x_pos y_pos)] in
  match W t1 move with
  | Raise e => (Raise e, t1 ++ [Call move])
  | Ok _ =>
      let t2 := (t1 ++ [Call move])
                  ++ [Log "info" (msg_setting_size w h name window_id)] in
      match W t2 resize with
      | Raise e => (Raise e, t2 ++ [Call resize])
      | Ok _ =>
          let t3 := (t2 ++ [Call resize])
                      ++ [Log "info"
                            (msg_moving_to_desktop name window_id desktop)] in
          match W t3 assign with
          | Raise e => (Raise e, t3 ++ [Call assign])
          | Ok _ => (Ok tt, t3 ++ [Call assign])
          end
      end
  end.

(** The alignment keywords of one axis: [near] is top or left, [far] is
    bottom or right. *)
Inductive anchor : Type := near | middle | far.

Definition vertical_token (a : anchor) : string :=
  match a with
  | near => "top"
  | middle => "center"
  | far => "bottom"
  end.

Definition horizontal_token (a : anchor) : string :=
  match a with
  | near => "left"
  | middle => "center"
  | far => "right"
  end.

(** The offset of an anchored window in [free] pixels of room: the middle
    truncates toward zero. *)
Definition anchor_offset (a : anchor) (free : Z) : Z :=
  match a with
  | near => 0
  | middle => Z.quot free 2
  | far => free
  end.

(** What the token of one axis, in lower case, resolves to with [free]
    pixels of room, from trace [t]: the keyword of an anchor gives the
    offset of the anchor and adds no event (halving is exact for a free
    room below [2 ^ 53] in magnitude); a token that ends in a percent sign
    gives what [calc_size] returns for it. *)
Inductive axis_resolves (keyword : anchor -> string) (token : string)
  (free : Z) (W : world) (t : trace) : Z -> trace -> Prop :=
| axis_anchored (a : anchor) :
    token = keyword a ->
    (a = middle -> Z.abs free < 2 ^ 53) ->
    axis_resolves keyword token free W t (anchor_offset a free) t
| axis_relative (p : string) (r : Z) (t' : trace) :
    token = (p ++ "%")%string ->
    calc_size (VStr token) free W t = (Ok (Int r), t') ->
    axis_resolves keyword token free W t r t'.

(** The setting of a rule: its own value, else the default. *)
Definition setting (k : string) (window_config : dict) : value :=
  dict_get k (dict_get k VNone defaults) window_config.

(** ** Sample reports, worlds and rules *)

Definition sample_report : string :=
  ("Monitors: 2" ++ linesep
   ++ " 0: +*DP-2 3440/820x1440/346+2560+0  DP-2" ++ linesep
   ++ " 1: +DP-4 2560/345x1600/215+0+0  DP-4" ++ linesep)%string.

(** Two monitors, one desktop, one window for every search; every command
    succeeds. *)
Definition sample_world : world :=
  fun _ c =>
    match c with
    | xrandr_listactivemonitors => Ok sample_report
    | xdotool_get_num_desktops => Ok "1"
    | pgrep_f _ => Ok "77"
    | xdotool_search _ _ => Ok "123"
    | _ => Ok ""
    end.


(** A report whose only line has two parts and no geometry. *)
Definition partial_world : world :=
  fun t c =>
    match c with
    | xrandr_listactivemonitors => Ok "a  b"
    | _ => sample_world t c
    end.

Definition sample_screens : list screen :=
  [ mk_screen (Some "DP-4") (Some 1) (Some false) (Some 0) (Some 0)
              (Some 2560) (Some 345) (Some 1600) (Some 215);
    mk_screen (Some "DP-2") (Some 0) (Some true) (Some 2560) (Some 0)
              (Some 3440) (Some 820) (Some 1440) (Some 346) ].

Definition rule_firefox : dict := [("search_name", VStr "Firefox")].

Definition rule_without_search : dict := [("name", VStr "Editor")].

Definition rule_true_width : dict :=
  [("search_name", VStr "Firefox"); ("width", VBool true);
   ("height", VInt 800)].

Definition rule_screen_5 : dict :=
  [("search_name", VStr "Firefox"); ("screen", VInt 5)].

Definition rule_screen_text : dict :=
  [("search_name", VStr "Firefox"); ("screen", VStr "1")].


(** [k] is one of the keys of [defaults]. *)
Definition has_default (k : string) : bool :=
  match dict_find k defaults with
  | Some _ => true
  | None => false
  end.

(** The order of a list sorted by [key]. *)
Definition key_le {A : Type} (key : A -> Z) (a b : A) : Prop :=
  key a <= key b.

(** The stages of a line.  The two parts at the double space are the
    descriptor and the name; the descriptor has tokens at single spaces;
    the geometry is the third of three tokens, else the whole descriptor;
    the extent is the first of three parts of the geometry at [+], else
    the whole geometry; the sizes are the parts of the extent at [x]. *)
Definition line_parts (line : string) : list string :=
  Str.split "  " (Str.strip line).

Definition descriptor_tokens (line : string) : list string :=
  Str.split " " (Str.strip (item 0 (line_parts line))).

Definition geometry_text (line : string) : string :=
  if Nat.eqb (List.length (descriptor_tokens line)) 3
  then item 2 (descriptor_tokens line)
  else item 0 (line_parts line).

Definition geometry_parts (line : string) : list string :=
  Str.split "+" (geometry_text line).

Definition extent_text (line : string) : string :=
  if Nat.eqb (List.length (geometry_parts line)) 3
  then item 0 (geometry_parts line)
  else geometry_text line.

Definition extent_parts (line : string) : list string :=
  Str.split "x" (extent_text line).

(** The integer a text stands for, when [int] converts it. *)
Definition int_of_text (s : string) : option Z :=
  match Str.to_int s with
  | Ok n => Some n
  | Raise _ => None
  end.

Definition is_int_text (s : string) : bool :=
  match int_of_text s with
  | Some _ => true
  | None => false
  end.

(** The texts of a line that are converted with [int]: the index of a
    descriptor of three tokens, the two coordinates of a geometry of three
    parts, and what the two sizes of an extent hold between their
    slashes. *)
Definition converted_texts (line : string) : list string :=
  (if Nat.eqb (List.length (descriptor_tokens line)) 3
   then [Str.strip_chars ":" (item 0 (descriptor_tokens line))]
   else [])
  ++ (if Nat.eqb (List.length (geometry_parts line)) 3
      then [item 1 (geometry_parts line); item 2 (geometry_parts line)]
      else [])
  ++ (if Nat.eqb (List.length (extent_parts line)) 2
      then Str.split "/" (item 0 (extent_parts line))
           ++ Str.split "/" (item 1 (extent_parts line))
      else []).

(** Each of the two sizes of an extent is a pair at the slash. *)
Definition sizes_paired (line : string) : bool :=
  if Nat.eqb (List.length (extent_parts line)) 2
  then Nat.eqb (List.length (Str.split "/" (item 0 (extent_parts line)))) 2
       && Nat.eqb (List.length (Str.split "/" (item 1 (extent_parts line))))
            2
  else true.

(** Every text the stages of the line convert is an integer literal, and
    its sizes are pairs. *)
Definition well_formed (line : string) : bool :=
  forallb is_int_text (converted_texts line) && sizes_paired line.

(** The record of a well formed line: the fields of the stages that
    match; the others are left unset. *)
Definition record_of (line : string) : screen :=
  let tokens := descriptor_tokens line in
  let geometry := geometry_parts line in
  let extent := extent_parts line in
  let described := Nat.eqb (List.length tokens) 3 in
  let placed := Nat.eqb (List.length geometry) 3 in
  let sized := Nat.eqb (List.length extent) 2 in
  let size (i j : nat) :=
    int_of_text (item j (Str.split "/" (item i extent))) in
  mk_screen
    (Some (item 1 (line_parts line)))
    (if described then int_of_text (Str.strip_chars ":" (item 0 tokens))
     else None)
    (if described then Some (Str.contains "*" (item 1 tokens)) else None)
    (if placed then int_of_text (item 1 geometry) else None)
    (if placed then int_of_text (item 2 geometry) else None)
    (if sized then size 0%nat 0%nat else None)
    (if sized then size 0%nat 1%nat else None)
    (if sized then size 1%nat 0%nat else None)
    (if sized then size 1%nat 1%nat else None).

(** The records of the lines of a report, in the order of the lines: one
    for each line the parser does not answer with null. *)
Definition records_of_lines (monitors : list string) : list screen :=
  flat_map (fun line =>
              match get_screen_data line with
              | Ok (Some s) => [s]
              | _ => []
              end) monitors.

(** Every line of a report parses without an exception. *)
Definition lines_parse (monitors : list string) : Prop :=
  forall line, In line monitors -> exists r, get_screen_data line = Ok r.

(** ** Vocabulary of further properties *)

Fixpoint none_of (p : ascii -> bool) (s : string) : bool :=
  match s with
  | String c r => negb (p c) && none_of p r
  | EmptyString => true
  end.

Definition is_word (s : string) : bool :=
  none_of Str.is_space s && negb (String.eqb s "").

Definition is_number (s : string) : bool :=
  Str.all_digits s && negb (String.eqb s "").

(** A decimal number [int] converts: at most 4300 digits. *)
Definition is_literal (s : string) : bool :=
  is_number s && (String.length s <=? 4300)%nat.

(** A size written as a number: one to four digits, white space around
    them aside. *)
Definition is_digit_text (s : string) : Prop :=
  exists d, is_number d = true /\ (String.length d <= 4)%nat
            /\ Str.strip s = d.

(** A size written as a percentage: one to three digits and a percent
    sign, white space around them aside. *)
Definition is_percentage (s : string) : Prop :=
  exists d, is_number d = true /\ (String.length d <= 3)%nat
            /\ Str.strip s = (d ++ "%")%string.

(** [<pixels>/<millimetres>] *)
Definition size_token (px mm : string) : string :=
  (px ++ "/" ++ mm)%string.

(** [<width>/<mm>x<height>/<mm>+<x>+<y>] *)
Definition geometry_token (w wmm h hmm vx vy : string) : string :=
  ((size_token w wmm ++ "x" ++ size_token h hmm) ++ "+" ++ vx ++ "+" ++ vy)
    %string.

(** A line of the report:
    [<index>: <flags> <geometry>  <name>]. *)
Definition monitor_line (index flags w wmm h hmm vx vy name : string)
  : string :=
  (((index ++ ":") ++ " " ++ flags ++ " "
    ++ geometry_token w wmm h hmm vx vy) ++ "  " ++ name)%string.

(** A window of extent [w] by [h] at [(x_pos, y_pos)] lies inside the
    screen [s]. *)
Definition inside_screen (s : screen) (x_pos y_pos : Z) (w h : integer)
  : Prop :=
  exists sx sy sw sh,
    x s = Some sx /\ y s = Some sy
    /\ width s = Some sw /\ height s = Some sh
    /\ 0 <= int_value w /\ 0 <= int_value h
    /\ sx <= x_pos /\ x_pos + int_value w <= sx + sw
    /\ sy <= y_pos /\ y_pos + int_value h <= sy + sh.

(** [placement_shape], with a property of the geometry that is placed. *)
Definition placement_shape_with (P : Z -> Z -> integer -> integer -> Prop)
  (W : world) (name desktop : value) (t : trace)
  (out : result unit * trace) : Prop :=
  exists events,
    no_placement events
    /\ ((exists r, out = (r, t ++ events))
        \/ exists window_id x_pos y_pos w h,
             P x_pos y_pos w h
             /\ out = placement_outcome W (t ++ events) window_id
                        name x_pos y_pos w h desktop).

(** The output of a command that prints one word per line. *)
Definition lines_text (lines : list string) : string :=
  (Str.join linesep lines ++ linesep)%string.

Definition all_words (lines : list string) : bool := forallb is_word lines.

(** Every search prints three window ids. *)
Definition three_windows_world : world :=
  fun _ _ => Ok (lines_text ["41"; "42"; "43"]).

(** Every process search prints two process ids. *)
Definition two_pids_world : world :=
  fun _ _ => Ok (lines_text ["7"; "8"]).

(** The desktop a rule is counted with when the desktops are ensured. *)
Definition counted_desktop (window_config : dict) : value :=
  dict_get "desktop" (VInt 0) window_config.

(** A report whose second line has an index that is not a number. *)
Definition broken_report_world : world :=
  fun t c =>
    match c with
    | xrandr_listactivemonitors =>
        Ok (" 0: +*DP-2 3440/820x1440/346+2560+0  DP-2" ++ linesep
            ++ " X: +DP-4 2560/345x1600/215+0+0  DP-4" ++ linesep)%string
    | _ => sample_world t c
    end.

Definition rule_screen_minus_3 : dict :=
  [("search_name", VStr "Firefox"); ("screen", VInt (-3))].

Definition rule_desktop_text : dict :=
  [("search_name", VStr "Firefox"); ("desktop", VStr "2")].

Definition rule_desktop_4 : dict :=
  [("search_process", VStr "vim"); ("desktop", VInt 4)].

Definition partial_screens : list screen :=
  [mk_screen (Some "b") None None None None None None None None].

(** One process for every process search, three windows for every window
    search. *)
Definition process_world : world :=
  fun _ c =>
    match c with
    | pgrep_f _ => Ok (lines_text ["77"])
    | _ => Ok (lines_text ["41"; "42"; "43"])
    end.

(** * Properties *)

(** ** Integer true division *)
Lemma pow2_pos (k : Z) : 0 <= k -> 0 < 2 ^ k.
Proof. intros; apply Z.pow_pos_nonneg; lia. Qed.

Lemma floor_log2_quot_lower (n b k : Z) :
  0 < n -> 0 < b -> 0 <= k -> k <= Float.floor_log2_quot n b ->
  b * 2 ^ k <= n.
Proof.
  intros Hn Hb Hk Hle.
  assert (HK : b * 2 ^ Float.floor_log2_quot n b <= n).
  { unfold Float.floor_log2_quot in *.
    pose proof (Z.log2_spec n Hn) as [Hn1 _].
    pose proof (Z.log2_spec b Hb) as [_ Hb2].
    pose proof (Z.log2_nonneg b) as Hlb.
    set (k0 := Z.log2 n - Z.log2 b) in *.
    destruct (b * 2 ^ Z.max k0 0 <=? n * 2 ^ Z.max (- k0) 0) eqn:E.
    - apply Z.leb_le in E.
      rewrite Z.max_l in E by lia. rewrite (Z.max_r (- k0)) in E by lia.
      simpl in E. lia.
    - pose proof (pow2_pos (k0 - 1) ltac:(lia)) as Hp.
      replace (Z.log2 n) with (Z.succ (Z.log2 b) + (k0 - 1)) in Hn1
        by (unfold k0; lia).
      rewrite Z.pow_add_r in Hn1 by lia.
      nia. }
  assert (2 ^ k <= 2 ^ Float.floor_log2_quot n b)
    by (apply Z.pow_le_mono_r; lia).
  nia.
Qed.

Lemma round_half_even_le (n d bound : Z) :
  0 < d -> n <= d * bound -> Float.round_half_even n d <= bound.
Proof.
  intros Hd Hn. unfold Float.round_half_even.
  pose proof (Z.div_mod n d ltac:(lia)) as Hdm.
  pose proof (Z.mod_pos_bound n d Hd) as Hr.
  destruct ((d <? 2 * (n mod d)) || ((d =? 2 * (n mod d)) && Z.odd (n / d)))
    eqn:E.
  - assert (0 < n mod d).
    { apply orb_true_iff in E as [E|E].
      - apply Z.ltb_lt in E. lia.
      - apply andb_true_iff in E as [E _]. apply Z.eqb_eq in E. lia. }
    nia.
  - nia.
Qed.

Lemma round_half_even_nonneg (n d : Z) :
  0 < d -> 0 <= n -> 0 <= Float.round_half_even n d.
Proof.
  intros Hd Hn. unfold Float.round_half_even.
  pose proof (Z.div_pos n d Hn Hd).
  destruct (_ || _); lia.
Qed.

Lemma round_half_even_exact (q d : Z) :
  0 < d -> Float.round_half_even (d * q) d = q.
Proof.
  intros Hd. unfold Float.round_half_even.
  rewrite (Z.mul_comm d q), Z.div_mul, Z.mod_mul by lia.
  replace (d <? 2 * 0) with false by (symmetry; apply Z.ltb_ge; lia).
  replace (d =? 2 * 0) with false by (symmetry; apply Z.eqb_neq; lia).
  reflexivity.
Qed.

(** [int(a / b)] stays between 0 and [bound] when the exact quotient does
    and [bound] is below [2 ^ 53]. *)
Lemma int_true_divide_bounded (a b bound : Z) :
  0 < b -> 0 <= a -> a <= b * bound -> bound < 2 ^ 53 ->
  exists r, Float.int_true_divide a b = Ok r /\ 0 <= r <= bound.
Proof.
  intros Hb Ha Hab Hbound.
  unfold Float.int_true_divide, Float.true_divide.
  destruct (b =? 0) eqn:Eb; [apply Z.eqb_eq in Eb; lia|].
  destruct (a =? 0) eqn:Ea.
  { exists 0. split; [reflexivity|]. nia. }
  apply Z.eqb_neq in Ea.
  rewrite (Z.abs_eq a), (Z.abs_eq b) by lia.
  rewrite (Z.sgn_pos a), (Z.sgn_pos b) by lia.
  set (e := Z.max (Float.floor_log2_quot a b - 52) (-1074)).
  assert (He : e <= 0).
  { destruct (Z_le_gt_dec e 0) as [|Hgt]; [assumption|exfalso].
    assert (Hk : 53 <= Float.floor_log2_quot a b) by (unfold e in Hgt; lia).
    pose proof (floor_log2_quot_lower a b 53 ltac:(lia) Hb ltac:(lia) Hk).
    nia. }
  rewrite (Z.max_l (- e)), (Z.max_r e) by lia.
  rewrite Z.pow_0_r, Z.mul_1_r.
  set (m := Float.round_half_even (a * 2 ^ (- e)) b).
  pose proof (pow2_pos (- e) ltac:(lia)) as Hp.
  assert (Hm1 : 0 <= m) by (apply round_half_even_nonneg; nia).
  assert (Hm2 : m <= bound * 2 ^ (- e))
    by (apply round_half_even_le; [lia | nia]).
  assert (Hov : (2 ^ 1024 <=? m * 2 ^ e) = false).
  { apply Z.leb_gt.
    destruct (Z.eq_dec e 0) as [->|Hne].
    - simpl in *. lia.
    - rewrite (Z.pow_neg_r 2 e) by lia. lia. }
  rewrite Hov. cbn [rbind].
  unfold Float.to_int; cbn [Float.mant Float.expo].
  replace (1 * 1 * m) with m by lia.
  destruct (0 <=? e) eqn:E0.
  - apply Z.leb_le in E0. assert (e = 0) as -> by lia.
    exists (m * 2 ^ 0). split; [reflexivity|]. simpl in *. lia.
  - exists (Z.quot m (2 ^ (- e))). split; [reflexivity|].
    rewrite Z.quot_div_nonneg by lia.
    split; [apply Z.div_pos; lia|].
    apply Z.div_le_upper_bound; [lia|]. lia.
Qed.

(** Halving is exact below [2 ^ 53]: [int(a / 2)] truncates toward zero. *)
Lemma int_true_divide_2 (a : Z) :
  Z.abs a < 2 ^ 53 -> Float.int_true_divide a 2 = Ok (Z.quot a 2).
Proof.
  intros Ha.
  unfold Float.int_true_divide, Float.true_divide.
  replace (2 =? 0) with false by reflexivity.
  destruct (a =? 0) eqn:Ea.
  { apply Z.eqb_eq in Ea. subst a. reflexivity. }
  apply Z.eqb_neq in Ea.
  change (Z.abs 2) with 2. change (Z.sgn 2) with 1.
  set (n := Z.abs a) in *.
  assert (Hn : 0 < n) by (unfold n; lia).
  set (e := Z.max (Float.floor_log2_quot n 2 - 52) (-1074)).
  assert (He : e <= -1).
  { destruct (Z_le_gt_dec e (-1)) as [|Hgt]; [assumption|exfalso].
    assert (Hk : 52 <= Float.floor_log2_quot n 2) by (unfold e in Hgt; lia).
    pose proof (floor_log2_quot_lower n 2 52 Hn ltac:(lia) ltac:(lia) Hk).
    lia. }
  rewrite (Z.max_l (- e)), (Z.max_r e) by lia.
  rewrite Z.pow_0_r, Z.mul_1_r.
  pose proof (pow2_pos (- e - 1) ltac:(lia)) as Hp.
  assert (Hpow : 2 ^ (- e) = 2 * 2 ^ (- e - 1)).
  { rewrite <- Z.pow_succ_r by lia. f_equal. lia. }
  replace (n * 2 ^ (- e)) with (2 * (n * 2 ^ (- e - 1))) by (rewrite Hpow; lia).
  rewrite round_half_even_exact by lia.
  rewrite (Z.pow_neg_r 2 e) by lia. rewrite Z.mul_0_r.
  replace (2 ^ 1024 <=? 0) with false by reflexivity.
  cbn [rbind]. unfold Float.to_int; cbn [Float.mant Float.expo].
  replace (0 <=? e) with false by (symmetry; apply Z.leb_gt; lia).
  f_equal. rewrite Hpow.
  replace (Z.sgn a * 1 * (n * 2 ^ (- e - 1))) with (a * 2 ^ (- e - 1))
    by (unfold n; rewrite <- (Z.sgn_abs a) at 1; lia).
  rewrite Z.quot_mul_cancel_r by lia. reflexivity.
Qed.

(** Rounding to the nearest integer moves a quotient by at most a half. *)
Lemma round_half_even_near (n d : Z) :
  0 < d ->
  2 * n - d <= 2 * d * Float.round_half_even n d <= 2 * n + d.
Proof.
  intros Hd. unfold Float.round_half_even.
  pose proof (Z.div_mod n d ltac:(lia)) as Hdm.
  pose proof (Z.mod_pos_bound n d Hd) as Hr.
  destruct ((d <? 2 * (n mod d)) || ((d =? 2 * (n mod d)) && Z.odd (n / d)))
    eqn:E.
  - assert (d <= 2 * (n mod d)).
    { apply orb_true_iff in E as [E|E].
      - apply Z.ltb_lt in E. lia.
      - apply andb_true_iff in E as [E _]. apply Z.eqb_eq in E. lia. }
    nia.
  - assert (2 * (n mod d) <= d).
    { apply orb_false_iff in E as [E _]. apply Z.ltb_ge in E. lia. }
    nia.
Qed.

(** Below [2 ^ 47] hundredths are exact: [int(a / 100)] is the floor of
    the quotient. *)
Lemma int_true_divide_100 (a : Z) :
  0 <= a < 100 * 2 ^ 47 -> Float.int_true_divide a 100 = Ok (a / 100).
Proof.
  intros Ha.
  unfold Float.int_true_divide, Float.true_divide.
  replace (100 =? 0) with false by reflexivity.
  destruct (a =? 0) eqn:Ea.
  { apply Z.eqb_eq in Ea. subst a. reflexivity. }
  apply Z.eqb_neq in Ea.
  change (Z.abs 100) with 100. change (Z.sgn 100) with 1.
  rewrite (Z.abs_eq a), (Z.sgn_pos a) by lia.
  set (e := Z.max (Float.floor_log2_quot a 100 - 52) (-1074)).
  assert (He : e <= -6).
  { destruct (Z_le_gt_dec e (-6)) as [|Hgt]; [assumption|exfalso].
    assert (Hk : 47 <= Float.floor_log2_quot a 100) by (unfold e in Hgt; lia).
    pose proof (floor_log2_quot_lower a 100 47 ltac:(lia) ltac:(lia)
                  ltac:(lia) Hk).
    lia. }
  rewrite (Z.max_l (- e)), (Z.max_r e) by lia.
  rewrite Z.pow_0_r, Z.mul_1_r.
  set (P := 2 ^ (- e)).
  assert (HP : 64 <= P).
  { unfold P. change 64 with (2 ^ 6). apply Z.pow_le_mono_r; lia. }
  pose proof (round_half_even_near (a * P) 100 ltac:(lia)) as Hm.
  set (m := Float.round_half_even (a * P) 100) in *.
  rewrite (Z.pow_neg_r 2 e) by lia. rewrite Z.mul_0_r.
  replace (2 ^ 1024 <=? 0) with false by reflexivity.
  cbn [rbind]. unfold Float.to_int; cbn [Float.mant Float.expo].
  replace (0 <=? e) with false by (symmetry; apply Z.leb_gt; lia).
  fold P. replace (1 * 1 * m) with m by lia.
  pose proof (Z.div_mod a 100 ltac:(lia)) as Hdm.
  pose proof (Z.mod_pos_bound a 100 ltac:(lia)) as Hr.
  set (Q := a / 100) in *.
  assert (HQ : 0 <= Q) by (apply Z.div_pos; lia).
  assert (Hlo : Q * P <= m) by nia.
  assert (Hhi : m < (Q + 1) * P) by nia.
  f_equal. rewrite Z.quot_div_nonneg by nia.
  symmetry. apply (Z.div_unique m P Q (m - P * Q)); nia.
Qed.

(** ** Strings: reversal, digits and the two size patterns *)
Lemma str_append_nil (s : string) : (s ++ "")%string = s.
Proof. induction s; simpl; congruence. Qed.

Lemma str_append_assoc (s t u : string) :
  ((s ++ t) ++ u)%string = (s ++ (t ++ u))%string.
Proof. induction s; simpl; congruence. Qed.

Lemma str_rev_onto (s acc : string) :
  Str.rev_onto acc s = (Str.rev s ++ acc)%string.
Proof.
  unfold Str.rev. revert acc.
  induction s as [|c s IH]; intros acc; simpl; [reflexivity|].
  rewrite IH, (IH (String c "")), str_append_assoc. reflexivity.
Qed.

Lemma str_rev_cons (c : ascii) (s : string) :
  Str.rev (String c s) = (Str.rev s ++ String c "")%string.
Proof. unfold Str.rev at 1. simpl. apply str_rev_onto. Qed.

Lemma str_rev_app (s t : string) :
  Str.rev (s ++ t) = (Str.rev t ++ Str.rev s)%string.
Proof.
  induction s as [|c s IH]; simpl.
  - symmetry. apply str_append_nil.
  - rewrite !str_rev_cons, IH, str_append_assoc. reflexivity.
Qed.

Lemma str_rev_involutive (s : string) : Str.rev (Str.rev s) = s.
Proof.
  induction s as [|c s IH]; [reflexivity|].
  rewrite str_rev_cons, str_rev_app, IH. reflexivity.
Qed.

Lemma all_digits_app (s t : string) :
  Str.all_digits (s ++ t) = Str.all_digits s && Str.all_digits t.
Proof.
  induction s as [|c s IH]; simpl; [reflexivity|].
  rewrite IH. apply andb_assoc.
Qed.

Lemma all_digits_rev (s : string) :
  Str.all_digits (Str.rev s) = Str.all_digits s.
Proof.
  induction s as [|c s IH]; [reflexivity|].
  rewrite str_rev_cons, all_digits_app, IH. simpl.
  rewrite andb_true_r. apply andb_comm.
Qed.

Lemma digit_range (c : ascii) (d : Z) :
  Str.digit c = Some d -> 0 <= d <= 9 /\ Str.code c = d + 48.
Proof.
  unfold Str.digit.
  destruct (Z.leb_spec 48 (Str.code c)), (Z.leb_spec (Str.code c) 57);
    simpl; intros [= <-]; lia.
Qed.

Lemma is_digit_inv (c : ascii) :
  Str.is_digit c = true -> exists d, Str.digit c = Some d /\ 0 <= d <= 9.
Proof.
  unfold Str.is_digit. destruct (Str.digit c) as [d|] eqn:E; [|discriminate].
  intros _. exists d. split; [reflexivity|]. eapply digit_range; eauto.
Qed.

Lemma is_digit_not (c k : ascii) :
  Str.is_digit c = true -> Str.is_digit k = false -> Ascii.eqb c k = false.
Proof.
  intros Hc Hk. destruct (Ascii.eqb_spec c k); [congruence|reflexivity].
Qed.

Lemma is_digit_not_space (c : ascii) :
  Str.is_digit c = true -> Str.is_int_space c = false.
Proof.
  intros (d & Hd & Hr)%is_digit_inv.
  apply digit_range in Hd as [_ Hc].
  unfold Str.is_int_space. rewrite Hc.
  repeat match goal with
         | |- context [?a <=? ?b] => destruct (Z.leb_spec a b); try lia
         | |- context [?a =? ?b] => destruct (Z.eqb_spec a b); try lia
         end; reflexivity.
Qed.

Lemma lstrip_digits (d : string) :
  Str.all_digits d = true -> Str.lstrip_by Str.is_int_space d = d.
Proof.
  destruct d as [|c d]; [reflexivity|]. simpl.
  intros [Hc _]%andb_true_iff.
  rewrite (is_digit_not_space c Hc). reflexivity.
Qed.

Lemma int_digits_digits (d : string) (acc : Z) :
  Str.all_digits d = true -> 0 <= acc ->
  exists n, Str.int_digits acc false d = Some n /\ 0 <= n.
Proof.
  revert acc. induction d as [|c d IH]; intros acc Hd Hacc;
    cbn [Str.int_digits Str.all_digits] in *.
  - eauto.
  - apply andb_true_iff in Hd as [Hc Hd].
    rewrite (is_digit_not c "_" Hc eq_refl).
    destruct (is_digit_inv c Hc) as (v & -> & Hv).
    apply IH; [assumption|lia].
Qed.

Lemma count_digits_digits (d : string) :
  Str.all_digits d = true -> Str.count_digits d = String.length d.
Proof.
  induction d as [|c d IH]; [reflexivity|].
  cbn [Str.all_digits Str.count_digits String.length].
  intros [Hc Hd]%andb_true_iff.
  rewrite (is_digit_not c "_" Hc eq_refl), IH by assumption. reflexivity.
Qed.

(** [int] of a non-empty run of at most 4300 digits, with or without a
    final line feed, is a non-negative integer. *)
Lemma to_int_digits (d tail : string) :
  Str.all_digits d = true -> d <> "" -> (String.length d <= 4300)%nat ->
  tail = "" \/ tail = linesep ->
  exists n, Str.to_int (d ++ tail) = Ok n /\ 0 <= n.
Proof.
  intros Hd Hne Hlen Htail.
  pose proof (count_digits_digits d Hd) as Hcount.
  assert (Hbody : Str.strip_by Str.is_int_space (d ++ tail) = d).
  { unfold Str.strip_by, Str.rstrip_by.
    assert (Hl : Str.lstrip_by Str.is_int_space (d ++ tail)
                 = (d ++ tail)%string).
    { destruct d as [|c d]; [congruence|]. simpl in *.
      apply andb_true_iff in Hd as [Hc _].
      rewrite (is_digit_not_space c Hc). reflexivity. }
    rewrite Hl, str_rev_app.
    assert (Hr : Str.lstrip_by Str.is_int_space (Str.rev tail ++ Str.rev d)
                 = Str.rev d).
    { destruct Htail as [-> | ->]; simpl;
        apply lstrip_digits; rewrite all_digits_rev; assumption. }
    rewrite Hr. apply str_rev_involutive. }
  unfold Str.to_int. rewrite Hbody.
  assert (Hmax : (Str.max_str_digits <? Z.of_nat (Str.count_digits d))
                 = false).
  { apply Z.ltb_ge. rewrite Hcount. unfold Str.max_str_digits. lia. }
  destruct d as [|c d]; [congruence|]. simpl in Hd.
  apply andb_true_iff in Hd as [Hc Hd].
  rewrite (is_digit_not c "-" Hc eq_refl), (is_digit_not c "+" Hc eq_refl).
  cbn [fst snd]. rewrite Hmax. cbn [Str.int_literal].
  destruct (is_digit_inv c Hc) as (v & -> & Hv).
  destruct (int_digits_digits d v Hd ltac:(lia)) as (n & -> & Hn).
  exists n. split; [f_equal; lia|assumption].
Qed.

Lemma before_dollar_shape (s : string) :
  s = Str.before_dollar s \/ s = (Str.before_dollar s ++ linesep)%string.
Proof.
  unfold Str.before_dollar.
  destruct (Str.rev s) as [|c r] eqn:E; [left; reflexivity|].
  destruct (Ascii.eqb_spec c "010") as [->|]; [right|left; reflexivity].
  rewrite <- (str_rev_involutive s), E, str_rev_cons. reflexivity.
Qed.

Lemma length_nonempty (d : string) :
  (1 <=? String.length d)%nat = true -> d <> "".
Proof. destruct d; [discriminate|congruence]. Qed.

Lemma match_digits_to_int (hi : nat) (s : string) :
  (hi <= 4300)%nat ->
  Str.match_digits 1 hi s = true ->
  exists n, Str.to_int s = Ok n /\ 0 <= n.
Proof.
  unfold Str.match_digits.
  intros Hhi [[Hd Hlo]%andb_true_iff Hl%Nat.leb_le]%andb_true_iff.
  destruct (before_dollar_shape s) as [E|E]; rewrite E.
  - rewrite <- (str_append_nil (Str.before_dollar s)).
    apply to_int_digits; [assumption|auto using length_nonempty|lia|auto].
  - apply to_int_digits; [assumption|auto using length_nonempty|lia|auto].
Qed.

Lemma split_percent_digits (d t acc : string) :
  Str.all_digits d = true ->
  Str.split_from "%" O acc (d ++ String "%" t)
  = Str.rev (Str.rev_onto acc d) :: Str.split_from "%" O "" t.
Proof.
  revert acc. induction d as [|c d IH]; intros acc Hd.
  - reflexivity.
  - cbn [Str.all_digits] in Hd. apply andb_true_iff in Hd as [Hc Hd].
    cbn [String.append Str.split_from Str.starts_with Str.rev_onto].
    rewrite Ascii.eqb_sym, (is_digit_not c "%" Hc eq_refl).
    cbn [andb]. apply IH; assumption.
Qed.

Lemma match_percent_to_int (hi : nat) (s : string) :
  (hi <= 4300)%nat ->
  Str.match_percent 1 hi s = true ->
  exists n, Str.to_int (Str.replace "%" "" s) = Ok n /\ 0 <= n.
Proof.
  unfold Str.match_percent. intros Hhi.
  destruct (Str.rev (Str.before_dollar s)) as [|c r] eqn:E; [discriminate|].
  intros [[[Hc Hd]%andb_true_iff Hlo]%andb_true_iff Hl%Nat.leb_le]
           %andb_true_iff.
  apply Ascii.eqb_eq in Hc. subst c.
  assert (Hb : Str.before_dollar s = (Str.rev r ++ "%")%string).
  { rewrite <- (str_rev_involutive (Str.before_dollar s)), E, str_rev_cons.
    reflexivity. }
  assert (Hrep : forall t, t = "" \/ t = linesep ->
            Str.replace "%" "" (Str.rev r ++ String "%" t)
            = (Str.rev r ++ t)%string).
  { intros t Ht. unfold Str.replace, Str.split.
    rewrite split_percent_digits by assumption.
    rewrite str_rev_onto, str_append_nil, str_rev_involutive.
    destruct Ht as [-> | ->]; reflexivity. }
  destruct (before_dollar_shape s) as [Es|Es]; rewrite Es, Hb.
  - rewrite Hrep by auto.
    apply to_int_digits; [assumption|auto using length_nonempty|lia|auto].
  - rewrite str_append_assoc. simpl.
    rewrite (Hrep linesep) by auto.
    apply to_int_digits; [assumption|auto using length_nonempty|lia|auto].
Qed.

Lemma none_of_app (p : ascii -> bool) (s u : string) :
  none_of p (s ++ u) = none_of p s && none_of p u.
Proof.
  induction s as [|c s IH]; simpl; [reflexivity|].
  rewrite IH. apply andb_assoc.
Qed.

Lemma none_of_rev (p : ascii -> bool) (s : string) :
  none_of p (Str.rev s) = none_of p s.
Proof.
  induction s as [|c s IH]; [reflexivity|].
  rewrite str_rev_cons, none_of_app, IH. simpl.
  rewrite andb_true_r. apply andb_comm.
Qed.

Lemma none_of_weaken (p q : ascii -> bool) (s : string) :
  (forall c, p c = false -> q c = false) ->
  none_of p s = true -> none_of q s = true.
Proof.
  intros Hpq. induction s as [|c s IH]; simpl; [reflexivity|].
  intros [Hc Hs]%andb_true_iff. apply negb_true_iff in Hc.
  rewrite (Hpq c Hc). simpl. auto.
Qed.

Lemma none_of_mem (c : ascii) (s : string) :
  none_of (Ascii.eqb c) s = true -> Str.mem c s = false.
Proof.
  induction s as [|d s IH]; simpl; [reflexivity|].
  intros [Hd Hs]%andb_true_iff. apply negb_true_iff in Hd.
  rewrite Hd. simpl. auto.
Qed.

Lemma mem_app (c : ascii) (s u : string) :
  Str.mem c (s ++ u) = Str.mem c s || Str.mem c u.
Proof.
  induction s as [|d s IH]; simpl; [reflexivity|].
  rewrite IH. apply orb_assoc.
Qed.

Lemma lstrip_by_head (p : ascii -> bool) (c : ascii) (s : string) :
  p c = false -> Str.lstrip_by p (String c s) = String c s.
Proof. intros H. simpl. rewrite H. reflexivity. Qed.

(** Stripping leaves a text alone that starts and ends with characters
    that are kept. *)
Lemma strip_by_between (p : ascii -> bool) (a mid b : string) :
  none_of p a = true -> a <> "" -> none_of p b = true -> b <> "" ->
  Str.strip_by p (a ++ mid ++ b) = (a ++ mid ++ b)%string.
Proof.
  intros Ha Hane Hb Hbne. unfold Str.strip_by, Str.rstrip_by.
  assert (Hl : Str.lstrip_by p (a ++ mid ++ b) = (a ++ mid ++ b)%string).
  { destruct a as [|c a]; [congruence|]. simpl in Ha.
    apply andb_true_iff in Ha as [Hc _]. apply negb_true_iff in Hc.
    apply lstrip_by_head. exact Hc. }
  rewrite Hl, !str_rev_app.
  assert (Hr : forall u, Str.lstrip_by p (Str.rev b ++ u)
                         = (Str.rev b ++ u)%string).
  { intros u. rewrite <- (none_of_rev p b) in Hb.
    destruct (Str.rev b) as [|c r] eqn:E.
    - exfalso. apply Hbne. rewrite <- (str_rev_involutive b), E. reflexivity.
    - simpl in Hb. apply andb_true_iff in Hb as [Hc _].
      apply negb_true_iff in Hc. apply lstrip_by_head. exact Hc. }
  rewrite str_append_assoc, Hr, !str_rev_app, !str_rev_involutive.
  apply str_append_assoc.
Qed.

Lemma strip_by_word (p : ascii -> bool) (a : string) :
  none_of p a = true -> Str.strip_by p a = a.
Proof.
  intros Ha. destruct a as [|c a]; [reflexivity|].
  unfold Str.strip_by, Str.rstrip_by.
  assert (Hc : p c = false).
  { simpl in Ha. apply andb_true_iff in Ha as [Hc _].
    apply negb_true_iff in Hc. exact Hc. }
  rewrite (lstrip_by_head p c a Hc).
  rewrite <- (none_of_rev p (String c a)) in Ha.
  destruct (Str.rev (String c a)) as [|d r] eqn:E.
  - rewrite <- (str_rev_involutive (String c a)), E. reflexivity.
  - simpl in Ha. apply andb_true_iff in Ha as [Hd _].
    apply negb_true_iff in Hd. rewrite (lstrip_by_head p d r Hd), <- E.
    apply str_rev_involutive.
Qed.

(** Splitting at a one character separator. *)
Lemma split_from_char (c : ascii) (a acc : string) :
  Str.mem c a = false ->
  (forall b, Str.split_from (String c "") O acc (a ++ String c b)
             = Str.rev (Str.rev_onto acc a)
               :: Str.split_from (String c "") O "" b)
  /\ Str.split_from (String c "") O acc a = [Str.rev (Str.rev_onto acc a)].
Proof.
  revert acc. induction a as [|d a IH]; intros acc Hm.
  - split; [intros b|reflexivity].
    cbn [String.append Str.split_from Str.starts_with Str.rev_onto].
    rewrite Ascii.eqb_refl. reflexivity.
  - cbn [Str.mem] in Hm. apply orb_false_iff in Hm as [Hd Hm].
    destruct (IH (String d acc) Hm) as [IH1 IH2].
    split; [intros b|];
      cbn [String.append Str.split_from Str.starts_with Str.rev_onto];
      rewrite Hd; cbn [andb]; auto.
Qed.

Lemma split_char_cons (c : ascii) (a b : string) :
  Str.mem c a = false ->
  Str.split (String c "") (a ++ String c b) = a :: Str.split (String c "") b.
Proof.
  intros Hm. unfold Str.split.
  rewrite (proj1 (split_from_char c a "" Hm)).
  rewrite str_rev_onto, str_append_nil, str_rev_involutive. reflexivity.
Qed.

Lemma split_char_last (c : ascii) (a : string) :
  Str.mem c a = false -> Str.split (String c "") a = [a].
Proof.
  intros Hm. unfold Str.split.
  rewrite (proj2 (split_from_char c a "" Hm)).
  rewrite str_rev_onto, str_append_nil, str_rev_involutive. reflexivity.
Qed.

Lemma is_digit_no_space (c : ascii) :
  Str.is_digit c = true -> Str.is_space c = false.
Proof.
  intros (d & Hd & Hr)%is_digit_inv.
  apply digit_range in Hd as [_ Hc].
  unfold Str.is_space. rewrite Hc.
  repeat match goal with
         | |- context [?a <=? ?b] => destruct (Z.leb_spec a b); try lia
         | |- context [?a =? ?b] => destruct (Z.eqb_spec a b); try lia
         end; reflexivity.
Qed.

Lemma digits_none_of (p : ascii -> bool) (d : string) :
  (forall c, Str.is_digit c = true -> p c = false) ->
  Str.all_digits d = true -> none_of p d = true.
Proof.
  intros Hp. induction d as [|c d IH]; simpl; [reflexivity|].
  intros [Hc Hd]%andb_true_iff. rewrite (Hp c Hc). simpl. auto.
Qed.

Lemma digits_mem (c : ascii) (d : string) :
  Str.is_digit c = false -> Str.all_digits d = true -> Str.mem c d = false.
Proof.
  intros Hc Hd. apply none_of_mem.
  apply (digits_none_of _ d); [|exact Hd].
  intros k Hk. rewrite Ascii.eqb_sym. apply is_digit_not; assumption.
Qed.

Lemma word_no_blank (s : string) :
  none_of Str.is_space s = true -> Str.mem " " s = false.
Proof.
  intros H. apply none_of_mem.
  apply (none_of_weaken Str.is_space); [|exact H].
  intros c Hc. destruct (Ascii.eqb_spec " " c) as [<-|]; [|reflexivity].
  discriminate.
Qed.

(** Splitting at the double space. *)
Lemma split2_word (tok rest acc : string) :
  none_of Str.is_space tok = true ->
  Str.split_from "  " O acc (tok ++ rest)
  = Str.split_from "  " O (Str.rev_onto acc tok) rest.
Proof.
  revert acc. induction tok as [|c tok IH]; intros acc Ht; [reflexivity|].
  cbn [none_of] in Ht. apply andb_true_iff in Ht as [Hc Ht].
  apply negb_true_iff in Hc.
  cbn [String.append Str.split_from Str.starts_with Str.rev_onto].
  assert (Hb : Ascii.eqb " " c = false).
  { destruct (Ascii.eqb_spec " " c) as [<-|]; [discriminate|reflexivity]. }
  rewrite Hb. cbn [andb]. apply IH. exact Ht.
Qed.

Lemma split2_single (tok rest acc : string) :
  none_of Str.is_space tok = true -> tok <> "" ->
  Str.split_from "  " O acc (String " " (tok ++ rest))
  = Str.split_from "  " O (String " " acc) (tok ++ rest).
Proof.
  intros Ht Hne. destruct tok as [|c tok]; [congruence|].
  cbn [none_of] in Ht. apply andb_true_iff in Ht as [Hc _].
  apply negb_true_iff in Hc.
  assert (Hb : Ascii.eqb " " c = false).
  { destruct (Ascii.eqb_spec " " c) as [<-|]; [discriminate|reflexivity]. }
  cbn [String.append Str.split_from Str.starts_with].
  rewrite Ascii.eqb_refl, Hb. reflexivity.
Qed.

Lemma split2_double (rest acc : string) :
  Str.split_from "  " O acc (String " " (String " " rest))
  = Str.rev acc :: Str.split_from "  " O "" rest.
Proof. reflexivity. Qed.

Lemma split2_line (t1 t2 t3 name : string) :
  none_of Str.is_space t1 = true ->
  is_word t2 = true -> is_word t3 = true -> is_word name = true ->
  Str.split "  " ((t1 ++ " " ++ t2 ++ " " ++ t3) ++ "  " ++ name)
  = [(t1 ++ " " ++ t2 ++ " " ++ t3)%string; name].
Proof.
  unfold is_word.
  intros H1 [H2 N2]%andb_true_iff [H3 N3]%andb_true_iff
    [Hn Nn]%andb_true_iff.
  apply negb_true_iff, String.eqb_neq in N2, N3, Nn.
  unfold Str.split. rewrite !str_append_assoc.
  rewrite split2_word by assumption. cbn [String.append].
  rewrite split2_single by assumption.
  rewrite split2_word by assumption. cbn [String.append].
  rewrite split2_single by assumption.
  rewrite split2_word by assumption. cbn [String.append].
  rewrite split2_double.
  rewrite <- (str_append_nil name) at 1.
  rewrite split2_word by assumption. cbn [Str.split_from].
  rewrite !str_rev_onto. cbn [String.append].
  rewrite !str_append_nil.
  f_equal; [|rewrite str_rev_involutive; reflexivity].
  repeat first [ rewrite str_rev_cons | rewrite str_rev_app
               | rewrite str_rev_involutive ].
  rewrite !str_append_assoc. reflexivity.
Qed.

Lemma is_number_inv (d : string) :
  is_number d = true -> Str.all_digits d = true /\ d <> "".
Proof.
  unfold is_number. intros [H N]%andb_true_iff.
  apply negb_true_iff, String.eqb_neq in N. auto.
Qed.

Lemma number_to_int (d : string) :
  is_number d = true -> (String.length d <= 4300)%nat ->
  exists n, Str.to_int d = Ok n /\ 0 <= n.
Proof.
  intros [H N]%is_number_inv Hlen. rewrite <- (str_append_nil d).
  apply to_int_digits; auto.
Qed.

Lemma is_literal_inv (d : string) :
  is_literal d = true -> is_number d = true /\ (String.length d <= 4300)%nat.
Proof.
  unfold is_literal. intros [H L%Nat.leb_le]%andb_true_iff. auto.
Qed.

Lemma literal_to_int (d : string) :
  is_literal d = true -> exists n, Str.to_int d = Ok n /\ 0 <= n.
Proof. intros [H L]%is_literal_inv. apply number_to_int; assumption. Qed.

Lemma strip_colon (index : string) :
  is_number index = true ->
  Str.strip_chars ":" (index ++ ":") = index.
Proof.
  intros [Hd Hne]%is_number_inv.
  unfold Str.strip_chars, Str.strip_by, Str.rstrip_by.
  assert (Hk : forall d, Str.all_digits d = true ->
                 Str.lstrip_by (fun c => Str.mem c ":") d = d).
  { intros [|c d]; [reflexivity|]. simpl.
    intros [Hc _]%andb_true_iff.
    rewrite (is_digit_not c ":" Hc eq_refl). reflexivity. }
  assert (Hl : Str.lstrip_by (fun c => Str.mem c ":") (index ++ ":")
               = (index ++ ":")%string).
  { destruct index as [|c d]; [congruence|]. simpl in *.
    apply andb_true_iff in Hd as [Hc _].
    rewrite (is_digit_not c ":" Hc eq_refl). reflexivity. }
  rewrite Hl, str_rev_app. cbn [Str.rev Str.rev_onto String.append].
  cbn [Str.lstrip_by Str.mem]. rewrite Ascii.eqb_refl. cbn [orb].
  rewrite Hk by (rewrite all_digits_rev; exact Hd).
  apply str_rev_involutive.
Qed.

Lemma get_px_mm_size_token (px mm : string) :
  is_literal px = true -> is_literal mm = true ->
  exists vpx vmm,
    Str.to_int px = Ok vpx /\ Str.to_int mm = Ok vmm
    /\ get_px_mm (size_token px mm) = Ok (vpx, vmm).
Proof.
  intros Hp Hm.
  destruct (literal_to_int px Hp) as (vpx & Epx & _).
  destruct (literal_to_int mm Hm) as (vmm & Emm & _).
  apply is_literal_inv in Hp as [Hp _]. apply is_literal_inv in Hm as [Hm _].
  apply is_number_inv in Hp as [Hp _]. apply is_number_inv in Hm as [Hm _].
  exists vpx, vmm. split; [assumption|]. split; [assumption|].
  unfold get_px_mm, size_token.
  change ("/" ++ mm)%string with (String "/" mm).
  rewrite split_char_cons by (apply digits_mem; [reflexivity|assumption]).
  rewrite split_char_last by (apply digits_mem; [reflexivity|assumption]).
  cbn [map_result]. rewrite Epx, Emm. reflexivity.
Qed.

Ltac digits_mem_all c :=
  repeat match goal with
         | H : Str.all_digits ?d = true |- context [Str.mem c ?d] =>
             rewrite (digits_mem c d eq_refl H)
         end.

Lemma percent_not_digits (s : string) :
  Str.match_percent 1 3 s = true -> Str.match_digits 1 4 s = false.
Proof.
  unfold Str.match_percent, Str.match_digits.
  destruct (Str.rev (Str.before_dollar s)) as [|c r] eqn:E; [discriminate|].
  intros [[[Hc _]%andb_true_iff _]%andb_true_iff _]%andb_true_iff.
  apply Ascii.eqb_eq in Hc. subst c.
  rewrite <- (str_rev_involutive (Str.before_dollar s)), E, str_rev_cons.
  rewrite all_digits_app. cbn. rewrite andb_false_r. reflexivity.
Qed.

Lemma percent_text_matches (d : string) :
  is_number d = true -> (String.length d <= 3)%nat ->
  Str.strip (d ++ "%") = (d ++ "%")%string
  /\ Str.match_percent 1 3 (d ++ "%") = true
  /\ Str.replace "%" "" (d ++ "%") = d.
Proof.
  intros [Hd Hne]%is_number_inv Hlen.
  assert (Hrev : Str.rev (d ++ "%") = String "%" (Str.rev d)).
  { rewrite str_rev_app. reflexivity. }
  assert (Hbd : Str.before_dollar (d ++ "%") = (d ++ "%")%string).
  { unfold Str.before_dollar. rewrite Hrev. reflexivity. }
  split; [|split].
  - apply strip_by_word. rewrite none_of_app.
    rewrite (digits_none_of _ d is_digit_no_space Hd). reflexivity.
  - unfold Str.match_percent. rewrite Hbd, Hrev.
    rewrite str_rev_involutive, Hd.
    change (Ascii.eqb "%" "%") with true. cbn [andb].
    apply andb_true_iff. split.
    + destruct d; [congruence|reflexivity].
    + apply Nat.leb_le. exact Hlen.
  - unfold Str.replace, Str.split.
    change (d ++ "%")%string with (d ++ String "%" "")%string.
    rewrite split_percent_digits by assumption.
    rewrite str_rev_onto, str_append_nil, str_rev_involutive.
    cbn. apply str_append_nil.
Qed.

(** ** Running a computation *)
Lemma bind_run {A B : Type} (m : M A) (k : A -> M B) (W : world) (t : trace) :
  bind m k W t
  = match m W t with
    | (Ok a, t') => k a W t'
    | (Raise e, t') => (Raise e, t')
    end.
Proof. reflexivity. Qed.

Lemma bind_lift_ok {A B : Type} (a : A) (k : A -> M B) :
  bind (lift (Ok a)) k = k a.
Proof. reflexivity. Qed.

Lemma bind_assert {B : Type} (cond : bool) (k : M B) (W : world) (t : trace) :
  (assert cond ;; k) W t
  = if cond then k W t else (Raise AssertionError, t).
Proof. destruct cond; reflexivity. Qed.

(** ** The size resolver *)
Lemma py_min_int (n target : Z) :
  py_min (Int n) target = Int (Z.min n target).
Proof.
  unfold py_min. cbn [int_value].
  destruct (Z.ltb_spec target n); f_equal; lia.
Qed.

Lemma calc_size_int (n target : Z) (W : world) (t : trace) :
  calc_size (VInt n) target W t
  = (Ok (Int (Z.min (if 0 <? n then n else 0) target)), t).
Proof.
  unfold calc_size. cbn [as_integer int_value ret].
  destruct (0 <? n); rewrite py_min_int; reflexivity.
Qed.

(** [True] stays [True] when the target has room for one pixel. *)
Lemma calc_size_bool (b : bool) (target : Z) (W : world) (t : trace) :
  calc_size (VBool b) target W t
  = (Ok (if b && (1 <=? target) then Boolean true else Int (Z.min 0 target)),
     t).
Proof.
  unfold calc_size, py_min, ret. cbn [as_integer int_value].
  destruct b; cbn [Z.b2z andb].
  - change (0 <? 1) with true. cbn iota. cbn [int_value Z.b2z].
    destruct (Z.ltb_spec target 1), (Z.leb_spec 1 target); try lia;
      [do 3 f_equal; lia|reflexivity].
  - change (0 <? 0) with false. cbn iota. cbn [int_value].
    destruct (Z.ltb_spec target 0); do 3 f_equal; lia.
Qed.

(** An integer source, boolean or not, resolves to its value clamped
    between 0 and the target. *)
Lemma calc_size_integer (source : value) (n target : Z)
  (W : world) (t : trace) :
  as_int source = Some n ->
  exists r,
    calc_size source target W t = (Ok r, t)
    /\ int_value r = Z.min (if 0 <? n then n else 0) target.
Proof.
  destruct source as [|b|m|s]; intros [= <-].
  - rewrite calc_size_bool. eexists. split; [reflexivity|].
    destruct b; cbn [Z.b2z Z.ltb Z.compare andb];
      [destruct (Z.leb_spec 1 target)|]; cbn [int_value Z.b2z]; lia.
  - rewrite calc_size_int. eexists. split; reflexivity.
Qed.

Lemma percent_coerced (perc : Z) :
  1 <= (if (0 <? perc) && (perc <=? 100) then perc else 100) <= 100.
Proof.
  destruct (Z.ltb_spec 0 perc), (Z.leb_spec perc 100); simpl; lia.
Qed.

(** The three ways of a string source: a number, a percentage, or an
    invalid size, which is logged and resolves to 0. *)
Lemma calc_size_str_cases (s : string) (target : Z) (W : world) (t : trace) :
  (Str.match_digits 1 4 (Str.strip s) = true
   /\ exists n, 0 <= n
        /\ calc_size (VStr s) target W t = (Ok (Int (Z.min n target)), t))
  \/ (Str.match_digits 1 4 (Str.strip s) = false
      /\ Str.match_percent 1 3 (Str.strip s) = true
      /\ exists perc, 1 <= perc <= 100
           /\ calc_size (VStr s) target W t
              = match Float.int_true_divide (target * perc) 100 with
                | Ok size => (Ok (Int size), t)
                | Raise e => (Raise e, t)
                end)
  \/ (Str.match_digits 1 4 (Str.strip s) = false
      /\ Str.match_percent 1 3 (Str.strip s) = false
      /\ calc_size (VStr s) target W t
         = (Ok (Int 0),
            t ++ [Log "error" (msg_invalid_size (Str.strip s))])).
Proof.
  unfold calc_size. cbn [as_integer].
  set (src := Str.strip s).
  destruct (Str.match_digits 1 4 src) eqn:Ed.
  - left. split; [reflexivity|].
    destruct (match_digits_to_int 4 src ltac:(lia) Ed) as (n & Hn & Hn0).
    exists n. split; [assumption|].
    unfold bind, lift, ret. rewrite Hn, py_min_int. reflexivity.
  - right. destruct (Str.match_percent 1 3 src) eqn:Ep.
    + left. split; [reflexivity|]. split; [reflexivity|].
      destruct (match_percent_to_int 3 src ltac:(lia) Ep) as (p & Hp & _).
      exists (if (0 <? p) && (p <=? 100) then p else 100).
      split; [apply percent_coerced|].
      unfold bind, lift, ret. rewrite Hp.
      destruct (Float.int_true_divide _ 100); reflexivity.
    + right. split; [reflexivity|]. split; reflexivity.
Qed.

(** A string source against a target from 0 to below [2 ^ 53]. *)
Lemma calc_size_str_within (s : string) (target : Z) (W : world) (t : trace) :
  0 <= target < 2 ^ 53 ->
  exists r t',
    calc_size (VStr s) target W t = (Ok (Int r), t') /\ 0 <= r <= target.
Proof.
  intros Ht.
  destruct (calc_size_str_cases s target W t)
    as [(_ & n & Hn & ->)|[(_ & _ & perc & Hp & ->)|(_ & _ & ->)]].
  - eexists _, _. split; [reflexivity|lia].
  - destruct (int_true_divide_bounded (target * perc) 100 target)
      as (r & -> & Hb); [lia|nia|nia|lia|].
    eauto.
  - eexists _, _. split; [reflexivity|lia].
Qed.

(** What comes back from stripping neither starts nor ends with white
    space, so a pattern that ends in [$] is matched against all of it. *)
Lemma lstrip_by_kept (p : ascii -> bool) (s : string) (c : ascii) (r : string) :
  Str.lstrip_by p s = String c r -> p c = false.
Proof.
  induction s as [|a s IH]; cbn [Str.lstrip_by]; [discriminate|].
  destruct (p a) eqn:E; [exact IH|]. intros [= <- _]. exact E.
Qed.

Lemma before_dollar_strip (s : string) :
  Str.before_dollar (Str.strip s) = Str.strip s.
Proof.
  unfold Str.before_dollar.
  destruct (Str.rev (Str.strip s)) as [|c r] eqn:E; [reflexivity|].
  unfold Str.strip, Str.strip_by, Str.rstrip_by in E.
  rewrite str_rev_involutive in E.
  apply lstrip_by_kept in E.
  destruct (Ascii.eqb_spec c "010") as [->|]; [discriminate|reflexivity].
Qed.

Lemma digit_text_matches (s : string) :
  is_digit_text s <-> Str.match_digits 1 4 (Str.strip s) = true.
Proof.
  unfold Str.match_digits. rewrite before_dollar_strip. split.
  - intros (d & [Hd Hne]%is_number_inv & Hlen & ->).
    rewrite Hd. cbn [andb]. apply andb_true_iff. split.
    + destruct d; [congruence|reflexivity].
    + apply Nat.leb_le. exact Hlen.
  - intros [[Hd Hlo]%andb_true_iff Hhi%Nat.leb_le]%andb_true_iff.
    exists (Str.strip s). split; [|split; [assumption|reflexivity]].
    unfold is_number. rewrite Hd. cbn [andb].
    destruct (Str.strip s); [discriminate|reflexivity].
Qed.

Lemma percentage_matches (s : string) :
  is_percentage s <-> Str.match_percent 1 3 (Str.strip s) = true.
Proof.
  split.
  - intros (d & Hd & Hlen & ->).
    apply (percent_text_matches d Hd Hlen).
  - unfold Str.match_percent. rewrite before_dollar_strip.
    destruct (Str.rev (Str.strip s)) as [|c r] eqn:E; [discriminate|].
    intros [[[Hc Hd]%andb_true_iff Hlo]%andb_true_iff Hhi%Nat.leb_le]
             %andb_true_iff.
    apply Ascii.eqb_eq in Hc. subst c.
    exists (Str.rev r). split; [|split; [assumption|]].
    + unfold is_number. rewrite Hd. cbn [andb].
      destruct (Str.rev r); [discriminate|reflexivity].
    + rewrite <- (str_rev_involutive (Str.strip s)), E, str_rev_cons.
      reflexivity.
Qed.

(** C4, as the code has it: for every integer or string source and every
    target extent that is not negative, the target extent being below
    [2 ^ 53] when the source is a percentage, [calc_size] returns a value
    from 0 to the target extent. *)
Theorem calc_size_within_target
  (source : value) (target : Z) (W : world) (t : trace) :
  as_int source <> None \/ (exists s, source = VStr s) ->
  0 <= target ->
  (forall s, source = VStr s -> is_percentage s -> target < 2 ^ 53) ->
  exists r t',
    calc_size source target W t = (Ok r, t') /\ 0 <= int_value r <= target.
Proof.
  intros Hs Ht Hp.
  destruct source as [|b|n|s];
    [destruct Hs as [Hs|(s & Hs)]; [contradiction|discriminate]| | |].
  - destruct (calc_size_integer (VBool b) (Z.b2z b) target W t eq_refl)
      as (r & -> & Hr).
    exists r, t. split; [reflexivity|].
    rewrite Hr. destruct (0 <? Z.b2z b) eqn:E; [apply Z.ltb_lt in E|]; lia.
  - rewrite calc_size_int. eexists _, _. split; [reflexivity|].
    cbn [int_value]. destruct (0 <? n) eqn:E; [apply Z.ltb_lt in E|]; lia.
  - destruct (calc_size_str_cases s target W t)
      as [(_ & n & Hn & ->)|[(_ & Ep & perc & Hperc & ->)|(_ & _ & ->)]].
    + eexists _, _. split; [reflexivity|]. cbn [int_value]. lia.
    + apply percentage_matches in Ep.
      specialize (Hp s eq_refl Ep).
      destruct (int_true_divide_bounded (target * perc) 100 target)
        as (r & -> & Hb); [lia|nia|nia|lia|].
      eexists _, _. split; [reflexivity|exact Hb].
    + eexists _, _. split; [reflexivity|]. cbn [int_value]. lia.
Qed.

Lemma calc_size_within_target_witness :
  (as_int (VStr "50%") <> None \/ exists s, VStr "50%" = VStr s)
  /\ 0 <= 2560
  /\ is_percentage "50%"
  /\ exists r t',
       calc_size (VStr "50%") 2560 sample_world [] = (Ok r, t')
       /\ 0 <= int_value r <= 2560.
Proof.
  split; [right; exists "50%"; reflexivity|]. split; [lia|].
  split; [exists "50"; repeat split; simpl; lia|].
  apply (calc_size_within_target (VStr "50%") 2560 sample_world []);
    [right; exists "50%"; reflexivity|lia|intros; reflexivity].
Defined.

(** C4 fails for a percentage of a target extent from [2 ^ 53] on: the
    float quotient of [calc_size("100%", 2 ^ 53 + 3)] rounds to
    [2 ^ 53 + 4], above the target. *)
Lemma calc_size_above_target :
  calc_size (VStr "100%") (2 ^ 53 + 3) sample_world []
  = (Ok (Int (2 ^ 53 + 4)), [])
  /\ 0 <= 2 ^ 53 + 3 < 2 ^ 53 + 4.
Proof. split; [vm_compute; reflexivity|split; vm_compute; congruence]. Qed.

Lemma clamp_again (n target : Z) :
  let r := Z.min (if 0 <? n then n else 0) target in
  Z.min (if 0 <? r then r else 0) target = r.
Proof.
  intros r. subst r.
  destruct (Z.ltb_spec 0 n);
    match goal with
    | |- context [0 <? ?m] => destruct (Z.ltb_spec 0 m)
    end; lia.
Qed.

(** C10, as the code has it: [calc_size] returns, and applied again to
    its own result it returns that result, for every integer source and
    every number given as text at every target extent, and for every other
    string source at every target extent that is not negative, below
    [2 ^ 53] when the source is a percentage. *)
Theorem calc_size_reapplied
  (source : value) (target : Z) (W : world) (t : trace) :
  as_int source <> None \/ (exists s, source = VStr s) ->
  (forall s, source = VStr s -> is_digit_text s \/ 0 <= target) ->
  (forall s, source = VStr s -> is_percentage s -> target < 2 ^ 53) ->
  exists r t',
    calc_size source target W t = (Ok r, t')
    /\ calc_size (value_of r) target W t' = (Ok r, t').
Proof.
  intros Hs Hd Hp.
  destruct source as [|b|n|s];
    [destruct Hs as [Hs|(s & Hs)]; [contradiction|discriminate]| | |].
  - rewrite calc_size_bool. eexists _, _. split; [reflexivity|].
    destruct b; cbn [andb];
      [destruct (Z.leb_spec 1 target) as [H1|H1]|]; cbn [value_of].
    + rewrite calc_size_bool. cbn [andb].
      apply Z.leb_le in H1. rewrite H1. reflexivity.
    + rewrite calc_size_int. do 3 f_equal.
      destruct (Z.ltb_spec 0 (Z.min 0 target)); lia.
    + rewrite calc_size_int. do 3 f_equal.
      destruct (Z.ltb_spec 0 (Z.min 0 target)); lia.
  - rewrite calc_size_int. eexists _, _. split; [reflexivity|].
    cbn [value_of]. rewrite calc_size_int. do 3 f_equal. apply clamp_again.
  - destruct (calc_size_str_cases s target W t)
      as [(_ & n & Hn & ->)|[(Ed & Ep & perc & Hperc & ->)|(Ed & _ & ->)]].
    + eexists _, _. split; [reflexivity|].
      cbn [value_of]. rewrite calc_size_int. do 3 f_equal.
      destruct (Z.ltb_spec 0 (Z.min n target)); lia.
    + assert (Ht : 0 <= target).
      { destruct (Hd s eq_refl) as [Hdt|]; [|assumption].
        apply digit_text_matches in Hdt. congruence. }
      apply percentage_matches in Ep.
      specialize (Hp s eq_refl Ep).
      destruct (int_true_divide_bounded (target * perc) 100 target)
        as (r & -> & Hb); [lia|nia|nia|lia|].
      eexists _, _. split; [reflexivity|].
      cbn [value_of]. rewrite calc_size_int. do 3 f_equal.
      destruct (Z.ltb_spec 0 r); lia.
    + assert (Ht : 0 <= target).
      { destruct (Hd s eq_refl) as [Hdt|]; [|assumption].
        apply digit_text_matches in Hdt. congruence. }
      eexists _, _. split; [reflexivity|].
      cbn [value_of]. rewrite calc_size_int. do 3 f_equal.
      cbn. lia.
Qed.

Lemma calc_size_reapplied_witness :
  (as_int (VStr "50%") <> None \/ exists s, VStr "50%" = VStr s)
  /\ 0 <= 2560
  /\ is_percentage "50%"
  /\ exists r t',
       calc_size (VStr "50%") 2560 sample_world [] = (Ok r, t')
       /\ calc_size (value_of r) 2560 sample_world t' = (Ok r, t').
Proof.
  split; [right; exists "50%"; reflexivity|]. split; [lia|].
  split; [exists "50"; repeat split; simpl; lia|].
  apply (calc_size_reapplied (VStr "50%") 2560 sample_world []);
    [right; exists "50%"; reflexivity|intros; right; lia
    |intros; reflexivity].
Defined.

(** C10 fails for a percentage of a target extent from [2 ^ 53] on:
    [calc_size("100%", 2 ^ 53 + 3)] is [2 ^ 53 + 4], and
    [calc_size(2 ^ 53 + 4, 2 ^ 53 + 3)] is [2 ^ 53 + 3]. *)
Lemma calc_size_not_idempotent :
  calc_size (VStr "100%") (2 ^ 53 + 3) sample_world []
  = (Ok (Int (2 ^ 53 + 4)), [])
  /\ calc_size (VInt (2 ^ 53 + 4)) (2 ^ 53 + 3) sample_world []
     = (Ok (Int (2 ^ 53 + 3)), [])
  /\ 2 ^ 53 + 4 <> 2 ^ 53 + 3.
Proof.
  split; [vm_compute; reflexivity|].
  split; [vm_compute; reflexivity|vm_compute; congruence].
Qed.

(** ** The position resolver *)
Lemma anchor_middle_floor (free : Z) :
  0 <= free -> anchor_offset middle free = free / 2.
Proof. intros H. apply Z.quot_div_nonneg; lia. Qed.

Lemma endswith_percent (p : string) : Str.endswith (p ++ "%") "%" = true.
Proof.
  unfold Str.endswith. rewrite str_rev_app. reflexivity.
Qed.

Lemma percent_token_not (p k : string) :
  Str.endswith k "%" = false -> String.eqb (p ++ "%") k = false.
Proof.
  intros Hk. destruct (String.eqb_spec (p ++ "%") k) as [E|]; [|reflexivity].
  rewrite <- E, endswith_percent in Hk. discriminate.
Qed.

Lemma split_two_tokens (a b : string) :
  Str.mem " " a = false -> Str.mem " " b = false ->
  Str.split " " (a ++ " " ++ b) = [a; b].
Proof.
  intros Ha Hb. change (a ++ " " ++ b)%string with (a ++ String " " b)%string.
  rewrite split_char_cons, split_char_last by assumption. reflexivity.
Qed.

(** One axis of [calc_pos]: the token passes the assertion, and the offset
    is computed as [axis_resolves] has it. *)
Lemma axis_resolves_run (keyword : anchor -> string) (token : string)
  (free : Z) (W : world) (t : trace) (r : Z) (t' : trace) :
  keyword = vertical_token \/ keyword = horizontal_token ->
  axis_resolves keyword token free W t r t' ->
  in_list token [keyword near; keyword middle; keyword far]
  || Str.endswith token "%" = true
  /\ (if String.eqb token (keyword near) then ret 0
      else if String.eqb token (keyword middle) then
        lift (Float.int_true_divide free 2)
      else if String.eqb token (keyword far) then ret free
      else size <- calc_size (VStr token) free ;; ret (int_value size)) W t
     = (Ok r, t').
Proof.
  intros Hk [a -> Hm|p r' t'' -> Hr].
  - split; [destruct Hk as [-> | ->], a; reflexivity|].
    destruct Hk as [-> | ->], a; cbn; try reflexivity;
      unfold lift; rewrite int_true_divide_2 by auto; reflexivity.
  - split; [rewrite endswith_percent; apply orb_true_r|].
    rewrite !percent_token_not by (destruct Hk as [-> | ->]; reflexivity).
    rewrite bind_run, Hr. reflexivity.
Qed.

(** C5, as the code has it: for an alignment of two tokens, the vertical
    one first, each axis resolves by its own token, case aside and
    whatever the token of the other axis is: top or left to 0, bottom or
    right to the free room of the axis, center to half the free room
    truncated toward zero (for a free room below [2 ^ 53] in magnitude),
    and a token that ends in a percent sign to what [calc_size] makes of
    it in the free room. *)
Theorem calc_pos_keywords
  (a b : string) (w h screen_width screen_height : Z)
  (W : world) (t t1 t' : trace) (x_pos y_pos : Z) :
  Str.mem " " a = false -> Str.mem " " b = false ->
  axis_resolves vertical_token (Str.lower a) (screen_height - h) W t
    y_pos t1 ->
  axis_resolves horizontal_token (Str.lower b) (screen_width - w) W t1
    x_pos t' ->
  calc_pos (VStr (a ++ " " ++ b)) w h screen_width screen_height W t
  = (Ok (x_pos, y_pos), t').
Proof.
  intros Ha Hb Hy Hx.
  destruct (axis_resolves_run _ _ _ _ _ _ _ (or_introl eq_refl) Hy)
    as [Vy Ey].
  destruct (axis_resolves_run _ _ _ _ _ _ _ (or_intror eq_refl) Hx)
    as [Vx Ex].
  cbn [vertical_token horizontal_token] in Vy, Ey, Vx, Ex.
  unfold calc_pos. rewrite split_two_tokens by assumption.
  cbn [List.length Nat.eqb item nth].
  rewrite !bind_assert, Vy, Vx. cbn [Nat.eqb].
  rewrite bind_run, Ey, bind_run, Ex. reflexivity.
Qed.

Lemma calc_pos_keywords_witness :
  Str.mem " " "Bottom" = false /\ Str.mem " " "50%" = false
  /\ calc_pos (VStr ("Bottom" ++ " " ++ "50%")) 1280 800 2560 1600
       sample_world []
     = (Ok (640, anchor_offset far (1600 - 800)), []).
Proof.
  split; [reflexivity|]. split; [reflexivity|].
  apply (calc_pos_keywords "Bottom" "50%" 1280 800 2560 1600
           sample_world [] [] [] 640 (anchor_offset far (1600 - 800)));
    [reflexivity|reflexivity| |].
  - apply (axis_anchored vertical_token _ _ _ _ far);
      [reflexivity|discriminate].
  - apply (axis_relative horizontal_token _ _ _ _ "50" 640 []);
      [reflexivity|vm_compute; reflexivity].
Defined.

(** C5 fails for a centered window wider than the screen: the code
    truncates [-1.5] to [-1], floor division gives [-2]. *)
Lemma calc_pos_center_truncates :
  calc_pos (VStr "center center") 3 0 0 0 sample_world [] = (Ok (-1, 0), [])
  /\ (-1, 0) <> ((0 - 3) / 2, (0 - 0) / 2).
Proof. split; [vm_compute; reflexivity|vm_compute; discriminate]. Qed.

Example top_left_is_origin (w h sw sh : Z) (W : world) (t : trace) :
  calc_pos (VStr "top left") w h sw sh W t = (Ok (0, 0), t).
Proof. reflexivity. Qed.

Example center_center_halves (w h sw sh : Z) (W : world) (t : trace) :
  0 <= sw - w < 2 ^ 53 -> 0 <= sh - h < 2 ^ 53 ->
  calc_pos (VStr "center center") w h sw sh W t
  = (Ok ((sw - w) / 2, (sh - h) / 2), t).
Proof.
  intros Hw Hh. unfold calc_pos.
  cbv -[Float.int_true_divide Z.sub Z.div Z.add].
  rewrite !int_true_divide_2 by lia.
  rewrite !Z.quot_div_nonneg by lia. reflexivity.
Qed.

(** ** Rules: settings and the loop over the rules *)
Lemma dict_find_app (k : string) (d other : dict) :
  dict_find k (d ++ other)
  = match dict_find k other with
    | Some v => Some v
    | None => dict_find k d
    end.
Proof.
  induction d as [|[k' v] d IH]; simpl.
  - destruct (dict_find k other); reflexivity.
  - rewrite IH. destruct (dict_find k other); reflexivity.
Qed.

Lemma dict_item_setting (k : string) (window_config : dict) :
  has_default k = true ->
  dict_item k (dict_update defaults window_config)
  = Ok (setting k window_config).
Proof.
  unfold has_default, dict_item, dict_update, setting, dict_get.
  rewrite dict_find_app.
  destruct (dict_find k window_config); [reflexivity|].
  destruct (dict_find k defaults); [reflexivity|discriminate].
Qed.

Lemma for_each_app {A : Type} (l1 l2 : list A) (body : A -> M unit)
  (W : world) (t : trace) :
  for_each (l1 ++ l2) body W t
  = match for_each l1 body W t with
    | (Ok _, t1) => for_each l2 body W t1
    | (Raise e, t1) => (Raise e, t1)
    end.
Proof.
  revert t. induction l1 as [|a l1 IH]; intros t; simpl.
  - reflexivity.
  - rewrite !bind_run.
    destruct (body a W t) as [[[]|e] t1]; [apply IH|reflexivity].
Qed.

Ltac settings :=
  unfold arrange_window;
  rewrite !dict_item_setting by reflexivity.

(** C1, as the code has it: a rule with neither [search_name] nor
    [search_process] fails its assertion before any external call; the
    exception is not caught, so the loop over the rules ends there with
    [AssertionError] and the rules after it are not processed. *)
Theorem arrange_window_without_search
  (window_config : dict) (before after : list dict) (screens : list screen)
  (W : world) (t t1 : trace) :
  truthy (setting "search_name" window_config) = false ->
  truthy (setting "search_process" window_config) = false ->
  for_each before (fun c => arrange_window c screens) W t = (Ok tt, t1) ->
  arrange_window window_config screens W t1 = (Raise AssertionError, t1)
  /\ for_each (before ++ window_config :: after)
       (fun c => arrange_window c screens) W t
     = (Raise AssertionError, t1).
Proof.
  intros Hn Hp Hb.
  assert (Hw : arrange_window window_config screens W t1
               = (Raise AssertionError, t1)).
  { settings. cbv [bind lift]. rewrite Hn, Hp. reflexivity. }
  split; [exact Hw|].
  rewrite for_each_app, Hb. simpl. rewrite bind_run, Hw. reflexivity.
Qed.

Lemma arrange_window_without_search_witness :
  truthy (setting "search_name" rule_without_search) = false
  /\ truthy (setting "search_process" rule_without_search) = false
  /\ for_each [] (fun c => arrange_window c sample_screens) sample_world []
     = (Ok tt, [])
  /\ arrange_window rule_without_search sample_screens sample_world []
     = (Raise AssertionError, [])
  /\ for_each ([] ++ rule_without_search :: [rule_firefox])
       (fun c => arrange_window c sample_screens) sample_world []
     = (Raise AssertionError, []).
Proof.
  split; [reflexivity|]. split; [reflexivity|]. split; [reflexivity|].
  apply (arrange_window_without_search rule_without_search []
           [rule_firefox] sample_screens sample_world [] []); reflexivity.
Defined.

(** C1 fails on the run: after a rule without search criterion the next
    rule is not processed and the run ends with the exception. *)
Lemma run_stops_at_rule_without_search :
  arrange_windows (Some [rule_without_search; rule_firefox]) sample_world []
  = (Raise AssertionError,
     [Call xrandr_listactivemonitors; Call xdotool_get_num_desktops;
      Log "info" (msg_enough_desktops 1)]).
Proof. vm_compute. reflexivity. Qed.

(** ** Placing a window *)
Lemma no_placement_app (l1 l2 : list event) :
  no_placement l1 -> no_placement l2 -> no_placement (l1 ++ l2).
Proof. intros; apply Forall_app; auto. Qed.

Lemma places_nothing_ret {A : Type} (a : A) : places_nothing (ret a).
Proof.
  intros W t. exists []. split; [symmetry; apply app_nil_r|constructor].
Qed.

Lemma places_nothing_raise {A : Type} (e : exn) :
  places_nothing (@raise A e).
Proof.
  intros W t. exists []. split; [symmetry; apply app_nil_r|constructor].
Qed.

Lemma places_nothing_lift {A : Type} (r : result A) : places_nothing (lift r).
Proof.
  intros W t. exists []. split; [symmetry; apply app_nil_r|constructor].
Qed.

Lemma places_nothing_assert (cond : bool) : places_nothing (assert cond).
Proof.
  destruct cond; [apply places_nothing_ret|apply places_nothing_raise].
Qed.

Lemma places_nothing_log (m : message) (level : string) :
  places_nothing (log m level).
Proof.
  intros W t. exists [Log level m]. split; [reflexivity|].
  repeat constructor.
Qed.

Lemma places_nothing_check_output (c : command) :
  is_placement (Call c) = false -> places_nothing (check_output c).
Proof.
  intros Hc W t. exists [Call c]. split; [reflexivity|].
  repeat constructor. exact Hc.
Qed.

Lemma places_nothing_bind {A B : Type} (m : M A) (k : A -> M B) :
  places_nothing m -> (forall a, places_nothing (k a)) ->
  places_nothing (bind m k).
Proof.
  intros Hm Hk W t. rewrite bind_run.
  destruct (Hm W t) as (ev1 & E1 & N1).
  destruct (m W t) as [[a|e] t1]; simpl in E1; subst t1.
  - destruct (Hk a W (t ++ ev1)) as (ev2 & E2 & N2).
    exists (ev1 ++ ev2). rewrite E2, app_assoc.
    split; [reflexivity|apply no_placement_app; assumption].
  - exists ev1. split; [reflexivity|assumption].
Qed.

Lemma places_nothing_except {A : Type} (body : M A) (handler : string -> M A) :
  places_nothing body -> (forall output, places_nothing (handler output)) ->
  places_nothing (except_called_process_error body handler).
Proof.
  intros Hb Hh W t. unfold except_called_process_error.
  destruct (Hb W t) as (ev1 & E1 & N1).
  destruct (body W t) as [[a|e] t1]; simpl in E1; subst t1;
    try (exists ev1; split; [reflexivity|assumption]).
  destruct e; try (exists ev1; split; [reflexivity|assumption]).
  destruct (Hh output W (t ++ ev1)) as (ev2 & E2 & N2).
  exists (ev1 ++ ev2). rewrite E2, app_assoc.
  split; [reflexivity|apply no_placement_app; assumption].
Qed.

Ltac quiet_step :=
  first
    [ apply places_nothing_ret
    | apply places_nothing_raise
    | apply places_nothing_lift
    | apply places_nothing_assert
    | apply places_nothing_log
    | apply places_nothing_check_output; reflexivity
    | apply places_nothing_bind; [|intros]
    | apply places_nothing_except; [|intros]
    | match goal with
      | |- places_nothing (if ?b then _ else _) => destruct b
      | |- places_nothing (match ?x with _ => _ end) => destruct x
      end ].

Lemma places_nothing_get_window (search_name search_process : value) :
  places_nothing (get_window search_name search_process).
Proof.
  unfold get_window, get_window_try, command_arg. repeat quiet_step.
Qed.

Lemma places_nothing_calc_size (source : value) (target : Z) :
  places_nothing (calc_size source target).
Proof. unfold calc_size. repeat quiet_step. Qed.

Lemma places_nothing_calc_pos (position : value) (w h sw sh : Z) :
  places_nothing (calc_pos position w h sw sh).
Proof.
  unfold calc_pos.
  repeat first [apply places_nothing_calc_size | quiet_step].
Qed.

Lemma places_nothing_run {A : Type} (m : M A) (W : world) (t : trace)
  (r : result A) (t' : trace) :
  places_nothing m -> m W t = (r, t') ->
  exists events, t' = t ++ events /\ no_placement events.
Proof.
  intros Hm E. destruct (Hm W t) as (ev & E1 & N1).
  rewrite E in E1. eauto.
Qed.

Lemma placement_run (W : world) (t : trace) (window_id : string)
  (name : value) (x_pos y_pos : Z) (w h : integer) (desktop : value) :
  (set_window_pos window_id name x_pos y_pos ;;
   set_window_size window_id name w h ;;
   set_window_desktop window_id name desktop ;;
   ret tt) W t
  = placement_outcome W t window_id name x_pos y_pos w h desktop.
Proof.
  unfold placement_outcome, set_window_pos, set_window_size,
    set_window_desktop.
  cbv [bind log check_output ret].
  repeat match goal with
         | |- context [W ?t ?c] => destruct (W t c)
         end; reflexivity.
Qed.





(** A boolean size keeps its text: [True] is what the resize is called
    with. *)
Example true_width_is_passed_on :
  arrange_window rule_true_width sample_screens sample_world []
  = (Ok tt,
     [Call (xdotool_search None (Some "Firefox"));
      Log "info" (msg_moving (VStr "Unknown") "123" 0 0);
      Call (xdotool_windowmove "123" 0 0);
      Log "info"
        (msg_setting_size (Boolean true) (Int 800) (VStr "Unknown") "123");
      Call (xdotool_windowsize "123" (Boolean true) (Int 800));
      Log "info" (msg_moving_to_desktop (VStr "Unknown") "123" (VInt 2));
      Call (xdotool_set_desktop_for_window "123" (VInt 2))]).
Proof. vm_compute. reflexivity. Qed.

(** ** The screen index of a rule *)

(** C6, as the code has it: for a rule with a search criterion, an integer
    screen index at or above the number of screens is reported, no command
    is issued and the loop goes on with the next rule; a screen value that
    is not an integer fails the assertion, which ends the loop. *)
Theorem arrange_window_screen_index
  (window_config : dict) (screens : list screen) (W : world) (t : trace) :
  truthy (setting "search_name" window_config)
  || truthy (setting "search_process" window_config) = true ->
  (forall i,
      as_int (setting "screen" window_config) = Some i ->
      Z.of_nat (List.length screens) <= i ->
      let skipped :=
        t ++ [Log "error"
                (msg_only_screens (List.length screens)
                   (setting "name" window_config)
                   (setting "screen" window_config))] in
      arrange_window window_config screens W t = (Ok tt, skipped)
      /\ forall rest,
           for_each (window_config :: rest)
             (fun c => arrange_window c screens) W t
           = for_each rest (fun c => arrange_window c screens) W skipped)
  /\ (as_int (setting "screen" window_config) = None ->
      arrange_window window_config screens W t = (Raise AssertionError, t)
      /\ forall rest,
           for_each (window_config :: rest)
             (fun c => arrange_window c screens) W t
           = (Raise AssertionError, t)).
Proof.
  intros Hs. split.
  - intros i Hi Hle skipped.
    assert (Hw : arrange_window window_config screens W t = (Ok tt, skipped)).
    { settings. rewrite !bind_lift_ok, Hs, Hi.
      apply Z.leb_le in Hle. rewrite bind_run. cbn [assert ret].
      rewrite Hle. reflexivity. }
    split; [exact Hw|]. intros rest. cbn [for_each].
    rewrite bind_run, Hw. reflexivity.
  - intros Hi.
    assert (Hw : arrange_window window_config screens W t
                 = (Raise AssertionError, t)).
    { settings. rewrite !bind_lift_ok, Hs, Hi. reflexivity. }
    split; [exact Hw|]. intros rest. cbn [for_each].
    rewrite bind_run, Hw. reflexivity.
Qed.

Lemma arrange_window_screen_index_witness :
  truthy (setting "search_name" rule_screen_5)
  || truthy (setting "search_process" rule_screen_5) = true
  /\ arrange_window rule_screen_5 sample_screens sample_world []
     = (Ok tt,
        [Log "error" (msg_only_screens 2 (VStr "Unknown") (VInt 5))]).
Proof.
  split; [reflexivity|].
  apply (proj1 (arrange_window_screen_index rule_screen_5 sample_screens
                  sample_world [] eq_refl) 5); [reflexivity|].
  simpl. lia.
Defined.

(** C6 fails for a screen value that is not an integer: the run ends with
    [AssertionError]. *)
Lemma run_stops_at_text_screen :
  arrange_windows (Some [rule_screen_text; rule_firefox]) sample_world []
  = (Raise AssertionError,
     [Call xrandr_listactivemonitors; Call xdotool_get_num_desktops;
      Log "info" (msg_enough_desktops 1)]).
Proof. vm_compute. reflexivity. Qed.

(** ** The topology line parser *)
Lemma to_int_raises (s : string) (e : exn) :
  Str.to_int s = Raise e -> e = ValueError.
Proof.
  unfold Str.to_int.
  destruct (Str.int_literal _); [destruct (_ <? _)|]; congruence.
Qed.

Lemma map_to_int_raises (l : list string) (e : exn) :
  map_result Str.to_int l = Raise e -> e = ValueError.
Proof.
  induction l as [|a l IH]; simpl; [discriminate|].
  destruct (Str.to_int a) eqn:Ea; simpl.
  - destruct (map_result Str.to_int l); simpl; [discriminate|].
    intros [= <-]. apply IH. reflexivity.
  - intros [= <-]. eapply to_int_raises; eassumption.
Qed.

Lemma get_px_mm_raises (s : string) (e : exn) :
  get_px_mm s = Raise e -> e = ValueError.
Proof.
  unfold get_px_mm.
  destruct (map_result Str.to_int (Str.split "/" s)) as [l|e'] eqn:E; simpl.
  - destruct l as [|a [|b [|c l]]]; congruence.
  - intros [= <-]. eapply map_to_int_raises; eassumption.
Qed.

(** What a line can parse to. *)
Lemma get_screen_data_cases (line : string) :
  let parts := Str.split "  " (Str.strip line) in
  match get_screen_data line with
  | Ok None => List.length parts <> 2%nat
  | Ok (Some s) =>
      List.length parts = 2%nat /\ name s = Some (item 1 parts)
  | Raise e => List.length parts = 2%nat /\ e = ValueError
  end.
Proof.
  intros parts. unfold get_screen_data. fold parts.
  destruct (Nat.eqb_spec (List.length parts) 2) as [E|E]; cbn [negb];
    [|exact E].
  repeat match goal with
         | |- context [Nat.eqb ?a ?b] => destruct (Nat.eqb a b)
         | |- context [Str.to_int ?s] =>
             let H := fresh "H" in
             destruct (Str.to_int s) eqn:H;
             [|apply to_int_raises in H; subst]
         | |- context [get_px_mm ?s] =>
             let H := fresh "H" in
             destruct (get_px_mm s) as [[? ?]|?] eqn:H;
             [|apply get_px_mm_raises in H; subst]
         | _ => progress cbn [rbind]
         end; auto.
Qed.

Lemma int_text_cases (s : string) :
  (exists n, Str.to_int s = Ok n /\ int_of_text s = Some n
             /\ is_int_text s = true)
  \/ (Str.to_int s = Raise ValueError /\ is_int_text s = false).
Proof.
  unfold is_int_text, int_of_text.
  destruct (Str.to_int s) as [n|e] eqn:E; [left; eauto|right].
  apply to_int_raises in E. subst e. auto.
Qed.

Lemma get_px_mm_cases (s : string) :
  let parts := Str.split "/" s in
  (forallb is_int_text parts = true
   /\ Nat.eqb (List.length parts) 2 = true
   /\ exists px mm,
        int_of_text (item 0 parts) = Some px
        /\ int_of_text (item 1 parts) = Some mm
        /\ get_px_mm s = Ok (px, mm))
  \/ (forallb is_int_text parts && Nat.eqb (List.length parts) 2 = false
      /\ get_px_mm s = Raise ValueError).
Proof.
  intros parts. unfold get_px_mm. fold parts.
  destruct parts as [|a [|b [|c rest]]]; cbn [map_result forallb List.length].
  - right. split; reflexivity.
  - right. split; [apply andb_false_r|].
    destruct (int_text_cases a) as [(n & -> & _)| [-> _]]; reflexivity.
  - destruct (int_text_cases a) as [(n & -> & Ia & ->)| [-> ->]];
      [|right; split; reflexivity].
    destruct (int_text_cases b) as [(m & -> & Ib & ->)| [-> ->]];
      [|right; split; reflexivity].
    left. split; [reflexivity|]. split; [reflexivity|].
    exists n, m. cbn [item nth rbind]. auto.
  - right. split; [cbn [Nat.eqb]; apply andb_false_r|].
    destruct (Str.to_int a) eqn:Ea; cbn [rbind];
      [|apply to_int_raises in Ea; subst; reflexivity].
    destruct (Str.to_int b) eqn:Eb; cbn [rbind];
      [|apply to_int_raises in Eb; subst; reflexivity].
    destruct (Str.to_int c) eqn:Ec; cbn [rbind];
      [|apply to_int_raises in Ec; subst; reflexivity].
    destruct (map_result Str.to_int rest) eqn:Er; cbn [rbind];
      [reflexivity|apply map_to_int_raises in Er; subst; reflexivity].
Qed.

Ltac stage_conversions :=
  repeat match goal with
         | |- context [Str.to_int ?x] =>
             let Hi := fresh "Hi" in
             let Hb := fresh "Hb" in
             destruct (int_text_cases x) as [(? & -> & Hi & Hb)|[-> Hb]];
             cbn [rbind]; rewrite ?Hi, Hb; cbn [andb];
             [|reflexivity]
         end.

(** A line of two parts: an exception when a converted text is not an
    integer literal or a size is not a pair, else the record of the
    stages that match. *)
Lemma get_screen_data_stages (line : string) :
  List.length (line_parts line) = 2%nat ->
  get_screen_data line
  = if well_formed line then Ok (Some (record_of line))
    else Raise ValueError.
Proof.
  intros Hp. unfold get_screen_data. fold (line_parts line).
  rewrite Hp. cbn [Nat.eqb negb].
  fold (descriptor_tokens line).
  unfold well_formed, converted_texts, sizes_paired, record_of.
  unfold extent_parts, extent_text, geometry_parts, geometry_text.
  set (tokens := descriptor_tokens line).
  set (desc := item 0 (line_parts line)).
  destruct (Nat.eqb (List.length tokens) 3); cbv iota;
    cbn [app forallb]; stage_conversions; cbn [rbind];
    match goal with
    | |- context [Str.split "+" ?g] => set (geometry := Str.split "+" g)
    end;
    (destruct (Nat.eqb (List.length geometry) 3); cbv iota;
     cbn [app forallb]; stage_conversions; cbn [rbind];
     match goal with
     | |- context [Str.split "x" ?e] => set (extent := Str.split "x" e)
     end;
     (destruct (Nat.eqb (List.length extent) 2); cbv iota;
      [|reflexivity];
      rewrite forallb_app;
      destruct (get_px_mm_cases (item 0 extent))
        as [(F0 & L0 & w & wmm & Iw & Iwmm & ->)|[B0 ->]]; cbn [rbind];
      [rewrite F0, L0, Iw, Iwmm; cbn [andb]
      |apply andb_false_iff in B0 as [-> | ->];
       rewrite ?andb_false_r; reflexivity];
      destruct (get_px_mm_cases (item 1 extent))
        as [(F1 & L1 & h & hmm & Ih & Ihmm & ->)|[B1 ->]]; cbn [rbind];
      [rewrite F1, L1, Ih, Ihmm; reflexivity
      |apply andb_false_iff in B1 as [-> | ->];
       rewrite ?andb_false_r; reflexivity])).
Qed.

(** ** Collecting and ordering the screens *)
Section StableSort.

Context {A : Type} (key : A -> Z).

Lemma insert_by_perm (a : A) (l : list A) :
  Permutation (a :: l) (insert_by key a l).
Proof.
  induction l as [|b l IH]; simpl; [reflexivity|].
  destruct (key a <=? key b); [reflexivity|].
  rewrite perm_swap. constructor. exact IH.
Qed.

Lemma sort_by_perm (l : list A) : Permutation l (sort_by key l).
Proof.
  induction l as [|a l IH]; simpl; [constructor|].
  rewrite <- insert_by_perm. constructor. exact IH.
Qed.

Lemma insert_by_sorted (a : A) (l : list A) :
  StronglySorted (key_le key) l ->
  StronglySorted (key_le key) (insert_by key a l).
Proof.
  induction 1 as [|b l Hs IH Hb]; simpl.
  - repeat constructor.
  - destruct (Z.leb_spec (key a) (key b)) as [Hab|Hab].
    + constructor; [constructor; assumption|].
      constructor; [exact Hab|].
      eapply Forall_impl; [|exact Hb]. unfold key_le. intros c Hc. lia.
    + constructor; [exact IH|].
      eapply Permutation_Forall; [apply insert_by_perm|].
      constructor; [unfold key_le; lia|exact Hb].
Qed.

Lemma sort_by_sorted (l : list A) : StronglySorted (key_le key) (sort_by key l).
Proof.
  induction l as [|a l IH]; simpl; [constructor|].
  apply insert_by_sorted, IH.
Qed.

(** Insertion goes past strictly smaller keys only, so records of equal
    key keep their order. *)
Lemma insert_by_stable (k : Z) (a : A) (l : list A) :
  filter (fun b => key b =? k) (insert_by key a l)
  = filter (fun b => key b =? k) (a :: l).
Proof.
  induction l as [|b l IH]; [reflexivity|].
  cbn [insert_by].
  destruct (Z.leb_spec (key a) (key b)) as [Hab|Hab]; [reflexivity|].
  cbn [filter] in *. rewrite IH.
  destruct (Z.eqb_spec (key a) k), (Z.eqb_spec (key b) k);
    try reflexivity; lia.
Qed.

Lemma sort_by_stable (k : Z) (l : list A) :
  filter (fun b => key b =? k) (sort_by key l)
  = filter (fun b => key b =? k) l.
Proof.
  induction l as [|a l IH]; [reflexivity|].
  cbn [sort_by]. rewrite insert_by_stable. cbn [filter]. rewrite IH.
  reflexivity.
Qed.

End StableSort.

Lemma parsed_not_empty (line : string) (s : screen) :
  get_screen_data line = Ok (Some s) -> screen_is_empty s = false.
Proof.
  intros E. pose proof (get_screen_data_cases line) as H.
  cbv zeta in H. rewrite E in H. destruct H as [_ Hn].
  unfold screen_is_empty. rewrite Hn. reflexivity.
Qed.

Lemma collect_screens_total (monitors : list string) :
  lines_parse monitors -> exists res, collect_screens monitors = Ok res.
Proof.
  induction monitors as [|line rest IH]; intros Hp; simpl; [eauto|].
  destruct (Hp line (or_introl eq_refl)) as (r & ->).
  destruct IH as (res & ->).
  { intros l Hl. apply Hp. right. exact Hl. }
  simpl. destruct r as [s|]; [destruct (screen_is_empty s)|]; eauto.
Qed.

Lemma collect_screens_parse (monitors : list string) (res : list screen) :
  collect_screens monitors = Ok res -> lines_parse monitors.
Proof.
  revert res. induction monitors as [|line rest IH]; intros res E l Hl.
  - destruct Hl.
  - simpl in E. destruct (get_screen_data line) as [r|] eqn:El; [|discriminate].
    simpl in E. destruct (collect_screens rest) as [res'|]; [|discriminate].
    destruct Hl as [<-|Hl]; [eauto|]. eapply IH; eauto.
Qed.

Lemma collect_screens_members (monitors : list string) (res : list screen) :
  collect_screens monitors = Ok res ->
  forall s, In s res
            <-> exists line, In line monitors
                             /\ get_screen_data line = Ok (Some s).
Proof.
  revert res. induction monitors as [|line rest IH]; intros res E s.
  - injection E as <-. split; [intros []|intros (l & [] & _)].
  - simpl in E.
    destruct (get_screen_data line) as [r|] eqn:El; [|discriminate].
    simpl in E.
    destruct (collect_screens rest) as [res'|]; [|discriminate].
    specialize (IH res' eq_refl s). simpl in E.
    assert (Hres : res = match r with Some s' => s' :: res' | None => res' end).
    { destruct r as [s'|]; [|congruence].
      rewrite (parsed_not_empty line s' El) in E. congruence. }
    subst res. clear E.
    split.
    + intros Hin.
      destruct r as [s'|].
      * destruct Hin as [<-|Hin].
        -- exists line. split; [left; reflexivity|assumption].
        -- apply IH in Hin as (l & Hl & Hs). exists l.
           split; [right|]; assumption.
      * apply IH in Hin as (l & Hl & Hs). exists l. split; [right|]; assumption.
    + intros (l & [<-|Hl] & Hs).
      * rewrite El in Hs. injection Hs as ->. left. reflexivity.
      * assert (In s res') by (apply IH; eauto).
        destruct r; [right|]; assumption.
Qed.

Lemma collect_screens_permutation (l1 l2 : list string) :
  Permutation l1 l2 ->
  forall res1, collect_screens l1 = Ok res1 ->
  exists res2, collect_screens l2 = Ok res2 /\ Permutation res1 res2.
Proof.
  induction 1 as [|a l1 l2 Hp IH|a b l|l1 l2 l3 H12 IH12 H23 IH23];
    intros res1 E.
  - exists res1. split; [assumption|reflexivity].
  - simpl in *.
    destruct (get_screen_data a) as [r|]; [|discriminate]. simpl in *.
    destruct (collect_screens l1) as [r1|]; [|discriminate].
    destruct (IH r1 eq_refl) as (r2 & -> & P). simpl in *.
    destruct r as [s|]; [destruct (screen_is_empty s)|];
      injection E as <-; eexists; split; try reflexivity; auto.
  - simpl in *.
    destruct (get_screen_data b) as [rb|]; [|discriminate]. simpl in *.
    destruct (get_screen_data a) as [ra|]; [|discriminate]. simpl in *.
    destruct (collect_screens l) as [r|]; [|discriminate]. simpl in *.
    destruct rb as [sb|]; [destruct (screen_is_empty sb)|];
      destruct ra as [sa|]; try destruct (screen_is_empty sa);
      simpl in *; injection E as <-; eexists; split; try reflexivity;
      auto using perm_swap.
  - destruct (IH12 res1 E) as (r2 & E2 & P12).
    destruct (IH23 r2 E2) as (r3 & E3 & P23).
    exists r3. split; [assumption|]. etransitivity; eassumption.
Qed.

Lemma collect_screens_raises (monitors : list string) :
  (exists line e, In line monitors /\ get_screen_data line = Raise e) ->
  collect_screens monitors = Raise ValueError.
Proof.
  induction monitors as [|a rest IH]; intros (line & e & Hin & He);
    [destruct Hin|].
  cbn [collect_screens].
  pose proof (get_screen_data_cases a) as Ha. cbv zeta in Ha.
  destruct (get_screen_data a) as [r|e'] eqn:Ea.
  - cbn [rbind]. rewrite IH; [reflexivity|].
    destruct Hin as [<-|Hin]; [congruence|eauto].
  - destruct Ha as [_ ->]. reflexivity.
Qed.

(** C3, as the code has it: when every line of the report parses, the
    screen list holds exactly the records the parser returned for the
    lines, each with its name, whether or not width and height are set. *)
Theorem get_active_screens_members
  (W : world) (t : trace) (output : string) :
  W t xrandr_listactivemonitors = Ok output ->
  lines_parse (Str.split linesep (Str.strip output)) ->
  exists res,
    get_active_screens W t = (Ok res, t ++ [Call xrandr_listactivemonitors])
    /\ (forall s, In s res
                  <-> exists line,
                        In line (Str.split linesep (Str.strip output))
                        /\ get_screen_data line = Ok (Some s))
    /\ (forall s, In s res -> name s <> None).
Proof.
  intros Hw Hp.
  destruct (collect_screens_total _ Hp) as (collected & Ec).
  exists (sort_by sort_key collected).
  assert (Hm : forall s, In s (sort_by sort_key collected)
                <-> exists line,
                      In line (Str.split linesep (Str.strip output))
                      /\ get_screen_data line = Ok (Some s)).
  { intros s. rewrite <- (collect_screens_members _ _ Ec s).
    split; apply Permutation_in;
      [symmetry|]; apply sort_by_perm. }
  split; [|split; [exact Hm|]].
  - unfold get_active_screens, check_output. rewrite bind_run, Hw.
    unfold lift, screens_of_lines. rewrite Ec. reflexivity.
  - intros s (line & _ & Hs)%Hm.
    pose proof (get_screen_data_cases line) as H. cbv zeta in H.
    rewrite Hs in H. destruct H as [_ ->]. discriminate.
Qed.

Lemma sample_report_parses :
  lines_parse (Str.split linesep (Str.strip sample_report)).
Proof.
  intros line Hl. vm_compute in Hl.
  repeat (destruct Hl as [<-|Hl]; [vm_compute; eauto|]). destruct Hl.
Qed.

Lemma get_active_screens_members_witness :
  sample_world [] xrandr_listactivemonitors = Ok sample_report
  /\ exists res,
       get_active_screens sample_world []
       = (Ok res, [] ++ [Call xrandr_listactivemonitors])
       /\ (forall s, In s res
                     <-> exists line,
                           In line (Str.split linesep (Str.strip sample_report))
                           /\ get_screen_data line = Ok (Some s))
       /\ (forall s, In s res -> name s <> None).
Proof.
  split; [reflexivity|].
  apply (get_active_screens_members sample_world [] sample_report eq_refl).
  exact sample_report_parses.
Defined.

(** C3 fails on a line with two parts and no geometry: its record, without
    width and height, is in the screen list. *)
Lemma partial_record_enters :
  get_active_screens partial_world []
  = (Ok [mk_screen (Some "b") None None None None None None None None],
     [Call xrandr_listactivemonitors]).
Proof. vm_compute. reflexivity. Qed.

(** C8, as the code has it: a line that does not split in two at the
    double space parses to null.  A line that does raises [ValueError]
    when a text that one of its stages converts is not an integer literal,
    or a size is not a pair at the slash; else it parses to the record of
    the stages that match, which carries the echoed name and leaves the
    fields of the other stages unset.  The collection of the screens
    keeps every record, partial or not, and does not catch the exception:
    it ends the collection and the run. *)
Theorem get_screen_data_outcomes (line : string) :
  (List.length (line_parts line) <> 2%nat -> get_screen_data line = Ok None)
  /\ (List.length (line_parts line) = 2%nat -> well_formed line = false ->
      get_screen_data line = Raise ValueError)
  /\ (List.length (line_parts line) = 2%nat -> well_formed line = true ->
      get_screen_data line = Ok (Some (record_of line))
      /\ name (record_of line) = Some (item 1 (line_parts line)))
  /\ (forall (W : world) (t : trace) (output : string),
         W t xrandr_listactivemonitors = Ok output ->
         In line (Str.split linesep (Str.strip output)) ->
         (get_screen_data line = Raise ValueError ->
          get_active_screens W t
          = (Raise ValueError, t ++ [Call xrandr_listactivemonitors])
          /\ forall loaded,
               arrange_windows loaded W t
               = (Raise ValueError, t ++ [Call xrandr_listactivemonitors]))
         /\ (lines_parse (Str.split linesep (Str.strip output)) ->
             forall s,
               get_screen_data line = Ok (Some s) ->
               exists res,
                 get_active_screens W t
                 = (Ok res, t ++ [Call xrandr_listactivemonitors])
                 /\ In s res)).
Proof.
  split; [|split; [|split; [|]]].
  - intros Hp. unfold get_screen_data. fold (line_parts line).
    apply Nat.eqb_neq in Hp. rewrite Hp. reflexivity.
  - intros Hp Hw. rewrite (get_screen_data_stages line Hp), Hw. reflexivity.
  - intros Hp Hw. rewrite (get_screen_data_stages line Hp), Hw.
    split; reflexivity.
  - intros W t output Hout Hin. split.
    + intros Hr.
      assert (Hs : get_active_screens W t
                   = (Raise ValueError,
                      t ++ [Call xrandr_listactivemonitors])).
      { unfold get_active_screens, check_output. rewrite bind_run, Hout.
        unfold lift, screens_of_lines.
        rewrite collect_screens_raises by eauto. reflexivity. }
      split; [exact Hs|]. intros loaded.
      unfold arrange_windows. rewrite bind_run, Hs. reflexivity.
    + intros Hp s Hs.
      destruct (collect_screens_total _ Hp) as (collected & Ec).
      exists (sort_by sort_key collected). split.
      * unfold get_active_screens, check_output. rewrite bind_run, Hout.
        unfold lift, screens_of_lines. rewrite Ec. reflexivity.
      * apply (Permutation_in _ (sort_by_perm sort_key collected)).
        apply (collect_screens_members _ _ Ec). eauto.
Qed.

(** C8 fails on a three token descriptor whose index is not a number:
    [int('a')] raises. *)
Lemma get_screen_data_raises :
  get_screen_data "a: b c  d" = Raise ValueError.
Proof. vm_compute. reflexivity. Qed.

(** A line without geometry parses to a record that has its name only. *)
Example partial_record :
  well_formed "a  b" = true
  /\ get_screen_data "a  b"
     = Ok (Some (mk_screen (Some "b") None None None None None None None
                   None)).
Proof. split; vm_compute; reflexivity. Qed.

Lemma screens_of_lines_permutation (l1 l2 : list string) (res1 : list screen) :
  Permutation l1 l2 -> screens_of_lines l1 = Ok res1 ->
  exists res2,
    screens_of_lines l2 = Ok res2
    /\ Permutation res1 res2
    /\ StronglySorted (key_le sort_key) res2.
Proof.
  unfold screens_of_lines. intros Hp E.
  destruct (collect_screens l1) as [c1|] eqn:E1; [|discriminate].
  injection E as <-.
  destruct (collect_screens_permutation l1 l2 Hp c1 E1) as (c2 & -> & P).
  exists (sort_by sort_key c2). simpl.
  split; [reflexivity|]. split; [|apply sort_by_sorted].
  rewrite <- (sort_by_perm sort_key c1), <- (sort_by_perm sort_key c2).
  exact P.
Qed.

Lemma collect_screens_records (monitors : list string) (res : list screen) :
  collect_screens monitors = Ok res -> res = records_of_lines monitors.
Proof.
  revert res. induction monitors as [|line rest IH]; intros res E.
  - injection E as <-. reflexivity.
  - cbn [collect_screens] in E.
    change (records_of_lines (line :: rest))
      with (match get_screen_data line with
            | Ok (Some s) => [s]
            | _ => []
            end ++ records_of_lines rest).
    destruct (get_screen_data line) as [r|] eqn:El; [|discriminate].
    cbn [rbind] in E.
    destruct (collect_screens rest) as [res'|]; [|discriminate].
    cbn [rbind] in E. rewrite <- (IH res' eq_refl).
    destruct r as [s|]; [|injection E as <-; reflexivity].
    rewrite (parsed_not_empty line s El) in E.
    injection E as <-. reflexivity.
Qed.

(** C9: when every line of the report parses, the screen list holds the
    records of the lines, a record for each line that is not dropped,
    sorted by the field [x] in ascending order, a record without [x]
    standing at 0; records of equal [x] keep the order of their lines in
    the report; and a report with the same lines in any other order gives
    a list of the same records, sorted as well. *)
Theorem get_active_screens_sorted
  (W : world) (t : trace) (output : string) :
  W t xrandr_listactivemonitors = Ok output ->
  lines_parse (Str.split linesep (Str.strip output)) ->
  let place := fun s : screen => match x s with Some v => v | None => 0 end in
  let lines := Str.split linesep (Str.strip output) in
  exists res,
    get_active_screens W t = (Ok res, t ++ [Call xrandr_listactivemonitors])
    /\ StronglySorted (fun a b => place a <= place b) res
    /\ Permutation (records_of_lines lines) res
    /\ (forall k, filter (fun s => place s =? k) res
                  = filter (fun s => place s =? k) (records_of_lines lines))
    /\ (forall (W' : world) (t' : trace) (output' : string),
          W' t' xrandr_listactivemonitors = Ok output' ->
          Permutation lines (Str.split linesep (Str.strip output')) ->
          exists res',
            get_active_screens W' t'
            = (Ok res', t' ++ [Call xrandr_listactivemonitors])
            /\ Permutation res res'
            /\ StronglySorted (fun a b => place a <= place b) res').
Proof.
  intros Hw Hp place lines.
  destruct (collect_screens_total _ Hp) as (collected & Ec).
  pose proof (collect_screens_records _ _ Ec) as Er. fold lines in Er.
  exists (sort_by sort_key collected).
  split; [|split; [|split; [|split]]].
  - unfold get_active_screens, check_output. rewrite bind_run, Hw.
    unfold lift, screens_of_lines. rewrite Ec. reflexivity.
  - exact (sort_by_sorted sort_key collected).
  - rewrite <- Er. apply sort_by_perm.
  - intros k. rewrite <- Er. exact (sort_by_stable sort_key k collected).
  - intros W' t' output' Hw' Hperm.
    destruct (screens_of_lines_permutation lines _ (sort_by sort_key collected)
                Hperm)
      as (res' & E' & P' & S').
    { unfold screens_of_lines, lines. rewrite Ec. reflexivity. }
    exists res'. split; [|split; [exact P'|exact S']].
    unfold get_active_screens, check_output. rewrite bind_run, Hw'.
    unfold lift. rewrite E'. reflexivity.
Qed.

Lemma get_active_screens_sorted_witness :
  sample_world [] xrandr_listactivemonitors = Ok sample_report
  /\ lines_parse (Str.split linesep (Str.strip sample_report))
  /\ exists res,
       get_active_screens sample_world []
       = (Ok res, [] ++ [Call xrandr_listactivemonitors])
       /\ StronglySorted
            (fun a b =>
               match x a with Some v => v | None => 0 end
               <= match x b with Some v => v | None => 0 end) res
       /\ Permutation
            (records_of_lines (Str.split linesep (Str.strip sample_report)))
            res.
Proof.
  split; [reflexivity|]. split; [exact sample_report_parses|].
  destruct (get_active_screens_sorted sample_world [] sample_report
              eq_refl sample_report_parses) as (res & E & S & P & _).
  exists res. split; [exact E|]. split; [exact S|exact P].
Defined.

(** Two monitors reported from right to left come out from left to
    right. *)
Example sample_screens_collected :
  get_active_screens sample_world []
  = (Ok sample_screens, [Call xrandr_listactivemonitors]).
Proof. vm_compute. reflexivity. Qed.

(** ** Desktops *)

Lemma set_desktops_grow_only
  (count : Z) (W : world) (t : trace) (output : string) (n : Z) :
  W t xdotool_get_num_desktops = Ok output ->
  Str.to_int (Str.strip output) = Ok n ->
  set_desktops count W t
  = let t1 := t ++ [Call xdotool_get_num_desktops] in
    if count <=? n then (Ok tt, t1 ++ [Log "info" (msg_enough_desktops count)])
    else
      match W t1 (xdotool_set_num_desktops count) with
      | Ok _ => (Ok tt, t1 ++ [Call (xdotool_set_num_desktops count)])
      | Raise e => (Raise e, t1 ++ [Call (xdotool_set_num_desktops count)])
      end.
Proof.
  intros Hw Hn. unfold set_desktops, check_output.
  rewrite bind_run, Hw. unfold lift. rewrite bind_run, Hn.
  cbv zeta. destruct (count <=? n); [reflexivity|].
  rewrite bind_run. destruct (W _ _); reflexivity.
Qed.

(** C7 on a rule that names no desktop: with one desktop in place the run
    asks for no more, and the window is sent to desktop 2. *)
Lemma default_desktop_not_ensured :
  arrange_windows (Some [rule_firefox]) sample_world []
  = (Ok tt,
     [Call xrandr_listactivemonitors; Call xdotool_get_num_desktops;
      Log "info" (msg_enough_desktops 1);
      Call (xdotool_search None (Some "Firefox"));
      Log "info" (msg_moving (VStr "Unknown") "123" 0 0);
      Call (xdotool_windowmove "123" 0 0);
      Log "info" (msg_setting_size (Int 0) (Int 0) (VStr "Unknown") "123");
      Call (xdotool_windowsize "123" (Int 0) (Int 0));
      Log "info" (msg_moving_to_desktop (VStr "Unknown") "123" (VInt 2));
      Call (xdotool_set_desktop_for_window "123" (VInt 2))]).
Proof. vm_compute. reflexivity. Qed.

(** ** The scenarios of the specification *)

Example scenario_half_width_center_right :
  arrange_window
    [("search_name", VStr "Firefox"); ("width", VStr "50%");
     ("height", VInt 800); ("align", VStr "center right")]
    sample_screens sample_world []
  = (Ok tt,
     [Call (xdotool_search None (Some "Firefox"));
      Log "info" (msg_moving (VStr "Unknown") "123" 1280 400);
      Call (xdotool_windowmove "123" 1280 400);
      Log "info"
        (msg_setting_size (Int 1280) (Int 800) (VStr "Unknown") "123");
      Call (xdotool_windowsize "123" (Int 1280) (Int 800));
      Log "info" (msg_moving_to_desktop (VStr "Unknown") "123" (VInt 2));
      Call (xdotool_set_desktop_for_window "123" (VInt 2))]).
Proof. vm_compute. reflexivity. Qed.

Example scenario_percentage_out_of_range (W : world) (t : trace) :
  calc_size (VStr "150%") 1000 W t = (Ok (Int 1000), t).
Proof. vm_compute. reflexivity. Qed.

(** * Further properties *)

(** X1: a line of the documented form, with decimal numbers of at most
    4300 digits each, a flags word and a name word, parses to a complete
    record: the echoed name, the numbers of the line, and [current] set
    exactly when the flags hold an asterisk. *)
Theorem get_screen_data_well_formed
  (index flags w wmm h hmm vx vy name : string) :
  is_literal index = true -> is_word flags = true ->
  is_literal w = true -> is_literal wmm = true ->
  is_literal h = true -> is_literal hmm = true ->
  is_literal vx = true -> is_literal vy = true ->
  is_word name = true ->
  exists i pw pwmm ph phmm px py,
    Str.to_int index = Ok i
    /\ Str.to_int w = Ok pw /\ Str.to_int wmm = Ok pwmm
    /\ Str.to_int h = Ok ph /\ Str.to_int hmm = Ok phmm
    /\ Str.to_int vx = Ok px /\ Str.to_int vy = Ok py
    /\ get_screen_data (monitor_line index flags w wmm h hmm vx vy name)
       = Ok (Some (mk_screen (Some name) (Some i)
                     (Some (Str.contains "*" flags)) (Some px) (Some py)
                     (Some pw) (Some pwmm) (Some ph) (Some phmm))).
Proof.
  intros Li Hf Lw Lwmm Lh Lhmm Lx Ly Hn.
  destruct (literal_to_int index Li) as (i & Ei & _).
  destruct (literal_to_int vx Lx) as (px & Ex & _).
  destruct (literal_to_int vy Ly) as (py & Ey & _).
  destruct (get_px_mm_size_token w wmm Lw Lwmm)
    as (pw & pwmm & Ew & Ewmm & Esw).
  destruct (get_px_mm_size_token h hmm Lh Lhmm)
    as (ph & phmm & Eh & Ehmm & Esh).
  exists i, pw, pwmm, ph, phmm, px, py.
  repeat (split; [assumption|]).
  destruct (is_literal_inv _ Li) as [Hi _], (is_literal_inv _ Lw) as [Hw _],
    (is_literal_inv _ Lwmm) as [Hwmm _], (is_literal_inv _ Lh) as [Hh _],
    (is_literal_inv _ Lhmm) as [Hhmm _], (is_literal_inv _ Lx) as [Hx _],
    (is_literal_inv _ Ly) as [Hy _].
  destruct (is_number_inv _ Hi) as [Di Ni], (is_number_inv _ Hw) as [Dw Nw],
    (is_number_inv _ Hwmm) as [Dwmm Nwmm], (is_number_inv _ Hh) as [Dh Nh],
    (is_number_inv _ Hhmm) as [Dhmm Nhmm], (is_number_inv _ Hx) as [Dx Nx],
    (is_number_inv _ Hy) as [Dy Ny].
  pose proof Hf as Hf'. pose proof Hn as Hn'.
  unfold is_word in Hf', Hn'.
  apply andb_true_iff in Hf' as [Sf Nf], Hn' as [Sn Nn].
  apply negb_true_iff, String.eqb_neq in Nf, Nn.
  set (geom := geometry_token w wmm h hmm vx vy).
  set (t1 := (index ++ ":")%string).
  assert (S1 : none_of Str.is_space t1 = true).
  { unfold t1. rewrite none_of_app.
    rewrite (digits_none_of _ index is_digit_no_space Di). reflexivity. }
  assert (N1 : t1 <> "") by (unfold t1; destruct index; discriminate).
  assert (Sg : none_of Str.is_space geom = true).
  { unfold geom, geometry_token, size_token.
    rewrite !none_of_app.
    rewrite (digits_none_of _ w is_digit_no_space Dw),
      (digits_none_of _ wmm is_digit_no_space Dwmm),
      (digits_none_of _ h is_digit_no_space Dh),
      (digits_none_of _ hmm is_digit_no_space Dhmm),
      (digits_none_of _ vx is_digit_no_space Dx),
      (digits_none_of _ vy is_digit_no_space Dy).
    reflexivity. }
  assert (Ng : geom <> "").
  { unfold geom, geometry_token, size_token. destruct w; [congruence|].
    discriminate. }
  assert (Wg : is_word geom = true).
  { unfold is_word. rewrite Sg. destruct geom; [congruence|reflexivity]. }
  unfold get_screen_data, monitor_line. fold geom t1.
  assert (Eline :
            Str.strip ((t1 ++ " " ++ flags ++ " " ++ geom) ++ "  " ++ name)
            = ((t1 ++ " " ++ flags ++ " " ++ geom) ++ "  " ++ name)%string).
  { rewrite !str_append_assoc.
    replace (" " ++ flags ++ " " ++ geom ++ "  " ++ name)%string
      with ((" " ++ flags ++ " " ++ geom ++ "  ") ++ name)%string
      by (rewrite !str_append_assoc; reflexivity).
    apply strip_by_between; assumption. }
  rewrite Eline, split2_line by assumption.
  cbn [List.length Nat.eqb negb item nth].
  assert (Edesc : Str.strip (t1 ++ " " ++ flags ++ " " ++ geom)
                  = (t1 ++ " " ++ flags ++ " " ++ geom)%string).
  { replace (" " ++ flags ++ " " ++ geom)%string
      with ((" " ++ flags ++ " ") ++ geom)%string
      by (rewrite !str_append_assoc; reflexivity).
    apply strip_by_between; assumption. }
  rewrite Edesc.
  change (" " ++ flags ++ " " ++ geom)%string
    with (String " " (flags ++ String " " geom)).
  rewrite !split_char_cons, split_char_last
    by (apply word_no_blank; assumption).
  cbn [List.length Nat.eqb item nth].
  unfold t1 at 1. rewrite strip_colon, Ei by assumption. cbn [rbind].
  (* the geometry token *)
  assert (Eg : Str.split "+" geom
               = [(size_token w wmm ++ "x" ++ size_token h hmm)%string;
                  vx; vy]).
  { unfold geom, geometry_token.
    change ("+" ++ vx ++ "+" ++ vy)%string
      with (String "+" (vx ++ String "+" vy)).
    rewrite !split_char_cons, split_char_last;
      try (apply digits_mem; [reflexivity|assumption]); [reflexivity|].
    unfold size_token. rewrite !mem_app.
    digits_mem_all "+"%char. reflexivity. }
  rewrite Eg. cbn [List.length Nat.eqb item nth].
  rewrite Ex, Ey. cbn [rbind].
  assert (Es : Str.split "x" (size_token w wmm ++ "x" ++ size_token h hmm)
               = [size_token w wmm; size_token h hmm]).
  { change ("x" ++ size_token h hmm)%string
      with (String "x" (size_token h hmm)).
    rewrite split_char_cons, split_char_last; [reflexivity| |];
      unfold size_token; rewrite !mem_app;
      digits_mem_all "x"%char; reflexivity. }
  rewrite Es. cbn [List.length Nat.eqb item nth].
  rewrite Esw, Esh. reflexivity.
Qed.

(** X2: for a source of one to three digits followed by [%] and a target
    extent from 0 to below [2 ^ 47], [calc_size] returns the floor of
    target times percent over 100, a percent outside 1..100 counting as
    100, and logs nothing. *)
Theorem calc_size_percentage
  (d : string) (target : Z) (W : world) (t : trace) :
  is_number d = true -> (String.length d <= 3)%nat ->
  0 <= target < 2 ^ 47 ->
  exists p,
    Str.to_int d = Ok p
    /\ calc_size (VStr (d ++ "%")) target W t
       = (Ok (Int (target * (if (0 <? p) && (p <=? 100) then p else 100)
                   / 100)),
          t).
Proof.
  intros Hd Hlen Ht.
  destruct (percent_text_matches d Hd Hlen) as (Es & Em & Er).
  destruct (number_to_int d Hd ltac:(lia)) as (p & Ep & _).
  exists p. split; [exact Ep|].
  unfold calc_size. cbn [as_integer]. rewrite Es.
  rewrite (percent_not_digits _ Em), Em, Er.
  unfold bind, lift. rewrite Ep.
  pose proof (percent_coerced p) as Hc.
  set (perc := if (0 <? p) && (p <=? 100) then p else 100) in *.
  rewrite int_true_divide_100 by nia. reflexivity.
Qed.

Lemma calc_size_percentage_witness :
  is_number "50" = true /\ (String.length "50" <= 3)%nat
  /\ 0 <= 2560 < 2 ^ 47
  /\ exists p,
       Str.to_int "50" = Ok p
       /\ calc_size (VStr ("50" ++ "%")) 2560 sample_world []
          = (Ok (Int (2560 * (if (0 <? p) && (p <=? 100) then p else 100)
                      / 100)),
             []).
Proof.
  split; [reflexivity|]. split; [simpl; lia|].
  split; [split; [lia|reflexivity]|].
  apply (calc_size_percentage "50" 2560 sample_world []);
    [reflexivity|simpl; lia|split; [lia|reflexivity]].
Defined.

Lemma calc_size_bounds
  (source : value) (target : Z) (W : world) (t : trace)
  (r : integer) (t' : trace) :
  0 <= target < 2 ^ 53 ->
  calc_size source target W t = (Ok r, t') -> 0 <= int_value r <= target.
Proof.
  intros Ht E. destruct source as [|b|n|s].
  - discriminate.
  - destruct (calc_size_integer (VBool b) _ target W t eq_refl)
      as (r' & E' & Hr).
    rewrite E in E'. injection E' as ->. rewrite Hr.
    destruct b; cbn; lia.
  - rewrite calc_size_int in E. injection E as <- _. cbn [int_value].
    destruct (Z.ltb_spec 0 n); lia.
  - destruct (calc_size_str_within s target W t Ht) as (r' & t'' & E' & Hr).
    rewrite E in E'. injection E' as -> _. exact Hr.
Qed.

(** The offset on one axis: the keyword of the near edge, center, the
    keyword of the far edge, or a percentage of the free room. *)
Lemma axis_offset_within
  (token near_kw far_kw : string) (free : Z) (W : world) (t : trace)
  (r : Z) (t' : trace) :
  0 <= free < 2 ^ 53 ->
  (if String.eqb token near_kw then ret 0
   else if String.eqb token "center" then
     lift (Float.int_true_divide free 2)
   else if String.eqb token far_kw then ret free
   else size <- calc_size (VStr token) free ;; ret (int_value size)) W t
  = (Ok r, t') ->
  0 <= r <= free.
Proof.
  intros Hf.
  destruct (String.eqb token near_kw); [intros [= <- _]; lia|].
  destruct (String.eqb token "center").
  { unfold lift. rewrite int_true_divide_2 by lia. intros [= <- _].
    rewrite Z.quot_div_nonneg by lia.
    split; [apply Z.div_pos; lia|].
    apply Z.div_le_upper_bound; lia. }
  destruct (String.eqb token far_kw); [intros [= <- _]; lia|].
  rewrite bind_run.
  destruct (calc_size (VStr token) free W t) as [[size|e] t1] eqn:E;
    [|discriminate].
  intros [= <- _]. eapply calc_size_bounds; eassumption.
Qed.

Lemma calc_pos_offsets
  (position : value) (w h screen_width screen_height : Z)
  (W : world) (t : trace) (x_pos y_pos : Z) (t' : trace) :
  0 <= screen_width - w < 2 ^ 53 ->
  0 <= screen_height - h < 2 ^ 53 ->
  calc_pos position w h screen_width screen_height W t
  = (Ok (x_pos, y_pos), t') ->
  0 <= x_pos <= screen_width - w /\ 0 <= y_pos <= screen_height - h.
Proof.
  intros Hw Hh. unfold calc_pos.
  destruct position as [| | |p]; try discriminate.
  rewrite !bind_assert.
  repeat match goal with
         | |- (if ?b then _ else _) = _ -> _ =>
             destruct b; [|discriminate]
         end.
  rewrite bind_run.
  match goal with
  | |- (let (_, _) := ?X in _) = _ -> _ =>
      destruct X as [[yv|e] t4] eqn:Ey; [|discriminate]
  end.
  apply axis_offset_within in Ey; [|exact Hh].
  rewrite bind_run.
  match goal with
  | |- (let (_, _) := ?X in _) = _ -> _ =>
      destruct X as [[xv|e] t5] eqn:Ex; [|discriminate]
  end.
  apply axis_offset_within in Ex; [|exact Hw].
  cbn [ret]. intros [= <- <- _]. split; assumption.
Qed.

(** X4: whenever [calc_pos] returns, for any alignment text, the offsets
    lie between 0 and the free room of their axis, the free room being
    from 0 to below [2 ^ 53]. *)
Theorem calc_pos_within_free_room
  (position : value) (w h screen_width screen_height : Z)
  (W : world) (t : trace) (x_pos y_pos : Z) (t' : trace) :
  0 <= screen_width - w < 2 ^ 53 ->
  0 <= screen_height - h < 2 ^ 53 ->
  calc_pos position w h screen_width screen_height W t
  = (Ok (x_pos, y_pos), t') ->
  0 <= x_pos <= screen_width - w /\ 0 <= y_pos <= screen_height - h.
Proof. apply calc_pos_offsets. Qed.

Lemma calc_pos_within_free_room_witness :
  0 <= 2560 - 1280 < 2 ^ 53
  /\ 0 <= 1600 - 800 < 2 ^ 53
  /\ calc_pos (VStr "30% 70%") 1280 800 2560 1600 sample_world []
     = (Ok (896, 240), [])
  /\ 0 <= 896 <= 2560 - 1280 /\ 0 <= 240 <= 1600 - 800.
Proof.
  split; [split; [lia|reflexivity]|].
  split; [split; [lia|reflexivity]|].
  split; [vm_compute; reflexivity|].
  apply (calc_pos_within_free_room (VStr "30% 70%") 1280 800 2560 1600
           sample_world [] 896 240 []);
    [split; [lia|reflexivity]|split; [lia|reflexivity]
    |vm_compute; reflexivity].
Defined.

Section PlacementShapeWith.

Variable P : Z -> Z -> integer -> integer -> Prop.
Variable W : world.
Variables name desktop : value.

Lemma with_quiet (m : M unit) (t : trace) :
  places_nothing m -> placement_shape_with P W name desktop t (m W t).
Proof.
  intros Hm. destruct (Hm W t) as (ev & E & N).
  exists ev. split; [assumption|left].
  exists (fst (m W t)). rewrite <- E. apply surjective_pairing.
Qed.

Lemma with_extend (events : list event) (t : trace)
  (out : result unit * trace) :
  no_placement events ->
  placement_shape_with P W name desktop (t ++ events) out ->
  placement_shape_with P W name desktop t out.
Proof.
  intros N (ev & N' & H). exists (events ++ ev).
  split; [apply no_placement_app; assumption|].
  rewrite app_assoc. exact H.
Qed.

Lemma with_bind_post {A : Type} (Q : A -> Prop) (m : M A) (k : A -> M unit)
  (t : trace) :
  places_nothing m ->
  (forall a t', m W t = (Ok a, t') -> Q a) ->
  (forall a t', Q a -> placement_shape_with P W name desktop t' (k a W t')) ->
  placement_shape_with P W name desktop t (bind m k W t).
Proof.
  intros Hm HQ Hk. rewrite bind_run.
  destruct (m W t) as [[a|e] t'] eqn:E;
    destruct (places_nothing_run _ _ _ _ _ Hm E) as (ev & -> & N);
    apply (with_extend ev); try assumption.
  - apply Hk. eapply HQ. reflexivity.
  - exists []. split; [constructor|left]. exists (Raise e).
    rewrite app_nil_r. reflexivity.
Qed.

Lemma with_bind {A : Type} (m : M A) (k : A -> M unit) (t : trace) :
  places_nothing m ->
  (forall a t', placement_shape_with P W name desktop t' (k a W t')) ->
  placement_shape_with P W name desktop t (bind m k W t).
Proof.
  intros Hm Hk. apply (with_bind_post (fun _ => True)); auto.
Qed.

Lemma with_placement (t : trace) (window_id : string)
  (x_pos y_pos : Z) (w h : integer) :
  P x_pos y_pos w h ->
  placement_shape_with P W name desktop t
    (placement_outcome W t window_id name x_pos y_pos w h desktop).
Proof.
  intros HP. exists []. split; [constructor|right].
  exists window_id, x_pos, y_pos, w, h. rewrite app_nil_r. auto.
Qed.

End PlacementShapeWith.

Lemma list_item_in {A : Type} (l : list A) (i : Z) (a : A) :
  list_item l i = Ok a -> In a l.
Proof.
  unfold list_item. destruct (_ && _); [|discriminate].
  destruct (nth_error l _) as [b|] eqn:E; [|discriminate].
  intros [= <-]. eapply nth_error_In. exact E.
Qed.

(** X5: on screens whose extents are from 0 to below [2 ^ 53], a rule
    that places its window places it inside the screen its index selects:
    the size is not negative and the rectangle at the moved position lies
    within the rectangle of the screen. *)
Theorem arrange_window_inside_screen
  (window_config : dict) (screens : list screen) (W : world) (t : trace) :
  (forall s v, In s screens -> width s = Some v -> 0 <= v < 2 ^ 53) ->
  (forall s v, In s screens -> height s = Some v -> 0 <= v < 2 ^ 53) ->
  exists events,
    no_placement events
    /\ ((exists r, arrange_window window_config screens W t
                   = (r, t ++ events))
        \/ exists window_id x_pos y_pos w h,
             (exists i s,
                 as_int (setting "screen" window_config) = Some i
                 /\ list_item screens i = Ok s
                 /\ inside_screen s x_pos y_pos w h)
             /\ arrange_window window_config screens W t
                = placement_outcome W (t ++ events) window_id
                    (setting "name" window_config) x_pos y_pos w h
                    (setting "desktop" window_config)).
Proof.
  intros Hwidth Hheight.
  set (P := fun x_pos y_pos w h =>
              exists i s,
                as_int (setting "screen" window_config) = Some i
                /\ list_item screens i = Ok s
                /\ inside_screen s x_pos y_pos w h).
  change (placement_shape_with P W (setting "name" window_config)
            (setting "desktop" window_config) t
            (arrange_window window_config screens W t)).
  settings. rewrite ?bind_lift_ok.
  apply with_bind; [apply places_nothing_assert|intros _ t0].
  rewrite ?bind_lift_ok.
  destruct (as_int (setting "screen" window_config)) as [i|] eqn:Ei;
    [|apply with_quiet, places_nothing_raise].
  destruct (Z.of_nat (Datatypes.length screens) <=? i);
    [apply with_quiet, places_nothing_log|].
  destruct (list_item screens i) as [s|e] eqn:Es;
    [rewrite ?bind_lift_ok|apply with_quiet; repeat quiet_step].
  pose proof (list_item_in _ _ _ Es) as Hin.
  apply with_bind; [apply places_nothing_get_window|intros [id|] t1];
    [|apply with_quiet, places_nothing_log].
  rewrite ?bind_lift_ok.
  destruct (width s) as [sw|] eqn:Ew; cbn [field];
    [rewrite ?bind_lift_ok|apply with_quiet; repeat quiet_step].
  pose proof (Hwidth s sw Hin Ew) as Hsw.
  apply (with_bind_post _ _ _ _ (fun w => 0 <= int_value w <= sw));
    [apply places_nothing_calc_size
    |intros w t2 E; eapply calc_size_bounds; eassumption
    |intros w t2 Hw].
  rewrite ?bind_lift_ok.
  destruct (height s) as [sh|] eqn:Eh; cbn [field];
    [rewrite ?bind_lift_ok|apply with_quiet; repeat quiet_step].
  pose proof (Hheight s sh Hin Eh) as Hsh.
  apply (with_bind_post _ _ _ _ (fun h => 0 <= int_value h <= sh));
    [apply places_nothing_calc_size
    |intros h t3 E; eapply calc_size_bounds; eassumption
    |intros h t3 Hh].
  rewrite ?bind_lift_ok.
  apply (with_bind_post _ _ _ _
           (fun pos => 0 <= fst pos <= sw - int_value w
                       /\ 0 <= snd pos <= sh - int_value h));
    [apply places_nothing_calc_pos
    |intros [xp yp] t4 E;
     eapply calc_pos_offsets; [| |exact E]; lia
    |intros pos t4 [Hx Hy]].
  destruct (x s) as [sx|] eqn:Ex; cbn [field];
    [rewrite ?bind_lift_ok|apply with_quiet; repeat quiet_step].
  destruct (y s) as [sy|] eqn:Ey; cbn [field];
    [rewrite ?bind_lift_ok|apply with_quiet; repeat quiet_step].
  match goal with
  | |- placement_shape_with _ _ ?n ?d ?t' _ =>
      refine (eq_ind_r (placement_shape_with P W n d t')
                (with_placement P W n d t' id (fst pos + sx) (snd pos + sy)
                   w h _)
                (placement_run W t' id n _ _ _ _ d))
  end.
  exists i, s. split; [reflexivity|]. split; [exact Es|].
  exists sx, sy, sw, sh. repeat split; try assumption; lia.
Qed.

Lemma sample_screens_extents :
  (forall s v, In s sample_screens -> width s = Some v -> 0 <= v < 2 ^ 53)
  /\ (forall s v, In s sample_screens -> height s = Some v ->
                  0 <= v < 2 ^ 53).
Proof.
  split; intros s v [<-|[<-|[]]] [= <-]; split; (lia || reflexivity).
Qed.

Lemma arrange_window_inside_screen_witness :
  (forall s v, In s sample_screens -> width s = Some v -> 0 <= v < 2 ^ 53)
  /\ (forall s v, In s sample_screens -> height s = Some v ->
                  0 <= v < 2 ^ 53)
  /\ exists events,
       no_placement events
       /\ ((exists r, arrange_window rule_firefox sample_screens
                        sample_world []
                      = (r, [] ++ events))
           \/ exists window_id x_pos y_pos w h,
                (exists i s,
                    as_int (setting "screen" rule_firefox) = Some i
                    /\ list_item sample_screens i = Ok s
                    /\ inside_screen s x_pos y_pos w h)
                /\ arrange_window rule_firefox sample_screens sample_world []
                   = placement_outcome sample_world ([] ++ events) window_id
                       (setting "name" rule_firefox) x_pos y_pos w h
                       (setting "desktop" rule_firefox)).
Proof.
  split; [apply sample_screens_extents|].
  split; [apply sample_screens_extents|].
  apply (arrange_window_inside_screen rule_firefox sample_screens
           sample_world []); apply sample_screens_extents.
Defined.

Lemma is_word_inv (s : string) :
  is_word s = true -> none_of Str.is_space s = true /\ s <> "".
Proof.
  unfold is_word. intros [H N]%andb_true_iff.
  apply negb_true_iff, String.eqb_neq in N. auto.
Qed.

(** Stripping leaves a text alone that starts with a word and ends with a
    word, and removes one trailing character that is stripped. *)
Lemma strip_by_ends (p : ascii -> bool) (s a post pre b : string) :
  s = (a ++ post)%string -> s = (pre ++ b)%string ->
  none_of p a = true -> a <> "" -> none_of p b = true -> b <> "" ->
  Str.strip_by p s = s
  /\ forall c, p c = true -> Str.strip_by p (s ++ String c "") = s.
Proof.
  intros Ea Eb Ha Hane Hb Hbne.
  assert (Hl : forall u, Str.lstrip_by p (s ++ u) = (s ++ u)%string).
  { intros u. rewrite Ea. destruct a as [|c a]; [congruence|]. simpl in Ha.
    apply andb_true_iff in Ha as [Hc _]. apply negb_true_iff in Hc.
    cbn [String.append]. apply lstrip_by_head. exact Hc. }
  assert (Hr : Str.lstrip_by p (Str.rev s) = Str.rev s).
  { rewrite Eb, str_rev_app. rewrite <- (none_of_rev p b) in Hb.
    destruct (Str.rev b) as [|c r] eqn:E.
    - exfalso. apply Hbne. rewrite <- (str_rev_involutive b), E. reflexivity.
    - simpl in Hb. apply andb_true_iff in Hb as [Hc _].
      apply negb_true_iff in Hc. cbn [String.append].
      apply lstrip_by_head. exact Hc. }
  unfold Str.strip_by, Str.rstrip_by. split.
  - rewrite <- (str_append_nil s) at 1. rewrite Hl, str_append_nil, Hr.
    apply str_rev_involutive.
  - intros c Hc. rewrite Hl, str_rev_app.
    cbn [Str.rev Str.rev_onto String.append Str.lstrip_by].
    rewrite Hc. change (Str.rev_onto "" s) with (Str.rev s).
    rewrite Hr. apply str_rev_involutive.
Qed.

Lemma word_no_linesep (s : string) :
  none_of Str.is_space s = true -> Str.mem "010" s = false.
Proof.
  intros H. apply none_of_mem.
  apply (none_of_weaken Str.is_space); [|exact H].
  intros c Hc. destruct (Ascii.eqb_spec "010" c) as [<-|]; [|reflexivity].
  discriminate.
Qed.

Lemma join_cons (sep a b : string) (rest : list string) :
  Str.join sep (a :: b :: rest) = (a ++ sep ++ Str.join sep (b :: rest))%string.
Proof. reflexivity. Qed.

Lemma split_join_words (lines : list string) :
  lines <> [] -> all_words lines = true ->
  Str.split linesep (Str.join linesep lines) = lines.
Proof.
  induction lines as [|a [|b rest] IH]; intros Hne Hw; [congruence| |].
  - cbn in Hw. apply andb_true_iff in Hw as [[Ha _]%is_word_inv _].
    cbn [Str.join]. apply split_char_last, word_no_linesep, Ha.
  - cbn [all_words forallb] in Hw. apply andb_true_iff in Hw as [Ha Hw].
    apply is_word_inv in Ha as [Ha _].
    rewrite join_cons. unfold linesep at 2. cbn [String.append].
    unfold linesep at 1.
    rewrite split_char_cons by (apply word_no_linesep, Ha).
    f_equal. apply IH; [discriminate|exact Hw].
Qed.

Lemma join_words_ends (lines : list string) :
  lines <> [] -> all_words lines = true ->
  exists a post pre b,
    Str.join linesep lines = (a ++ post)%string
    /\ Str.join linesep lines = (pre ++ b)%string
    /\ is_word a = true /\ is_word b = true.
Proof.
  induction lines as [|a [|c rest] IH]; intros Hne Hw; [congruence| |].
  - cbn in Hw. apply andb_true_iff in Hw as [Ha _].
    exists a, "", "", a. cbn [Str.join String.append].
    rewrite str_append_nil. auto.
  - cbn [all_words forallb] in Hw. apply andb_true_iff in Hw as [Ha Hw].
    destruct (IH ltac:(discriminate) Hw)
      as (a' & post & pre & b & _ & E & _ & Hb).
    exists a, (linesep ++ Str.join linesep (c :: rest))%string,
      (a ++ linesep ++ pre)%string, b.
    rewrite join_cons. split; [reflexivity|]. split; [|auto].
    rewrite E, !str_append_assoc. reflexivity.
Qed.

Lemma split_lines_text (lines : list string) :
  lines <> [] -> all_words lines = true ->
  Str.split linesep (Str.strip (lines_text lines)) = lines.
Proof.
  intros Hne Hw.
  destruct (join_words_ends lines Hne Hw) as (a & post & pre & b & Ea & Eb
                                              & [Ha Na]%is_word_inv
                                              & [Hb Nb]%is_word_inv).
  unfold lines_text, Str.strip.
  change (Str.join linesep lines ++ linesep)%string
    with (Str.join linesep lines ++ String "010" "")%string.
  rewrite (proj2 (strip_by_ends Str.is_space _ a post pre b Ea Eb Ha Na Hb Nb))
    by reflexivity.
  apply split_join_words; assumption.
Qed.

Lemma last_word (lines : list string) :
  lines <> [] -> all_words lines = true ->
  last_or_none lines = Some (last lines "").
Proof.
  intros Hne Hw. unfold last_or_none.
  assert (Hin : In (last lines "") lines).
  { destruct lines as [|a l]; [congruence|].
    clear Hne. revert a Hw. induction l as [|b l IH]; intros a Hw.
    - left. reflexivity.
    - right. cbn [all_words forallb] in Hw.
      apply andb_true_iff in Hw as [_ Hw]. apply (IH b Hw). }
  unfold all_words in Hw. rewrite forallb_forall in Hw.
  apply Hw, is_word_inv in Hin as [_ Hn].
  destruct (last lines ""); [congruence|reflexivity].
Qed.

(** X6: searching by title alone, when the search prints several window
    ids, one per line, [get_window] returns the last one, after the one
    search command. *)
Theorem get_window_last
  (search_name : string) (search_process : value) (windows : list string)
  (W : world) (t : trace) :
  search_name <> "" -> truthy search_process = false ->
  windows <> [] -> all_words windows = true ->
  W t (xdotool_search None (Some search_name)) = Ok (lines_text windows) ->
  get_window (VStr search_name) search_process W t
  = (Ok (Some (last windows "")),
     t ++ [Call (xdotool_search None (Some search_name))]).
Proof.
  intros Hn Hp Hne Hw Hout.
  unfold get_window, get_window_try, except_called_process_error.
  rewrite !bind_run, Hp. cbn [ret]. cbn [truthy].
  apply String.eqb_neq in Hn. rewrite Hn. cbn [negb command_arg].
  rewrite !bind_run. cbn [ret]. rewrite bind_run.
  unfold check_output. rewrite Hout. cbn [ret].
  rewrite split_lines_text, last_word by assumption. reflexivity.
Qed.

Lemma get_window_last_witness :
  "Firefox" <> ""
  /\ truthy (VStr "") = false
  /\ ["41"; "42"; "43"] <> []
  /\ all_words ["41"; "42"; "43"] = true
  /\ three_windows_world [] (xdotool_search None (Some "Firefox"))
     = Ok (lines_text ["41"; "42"; "43"])
  /\ get_window (VStr "Firefox") (VStr "") three_windows_world []
     = (Ok (Some (last ["41"; "42"; "43"] "")),
        [] ++ [Call (xdotool_search None (Some "Firefox"))]).
Proof.
  split; [discriminate|]. split; [reflexivity|]. split; [discriminate|].
  split; [reflexivity|]. split; [reflexivity|].
  apply (get_window_last "Firefox" (VStr "") ["41"; "42"; "43"]
           three_windows_world []);
    (discriminate || reflexivity).
Defined.

(** X7: when the process search prints two or more process ids,
    [get_window] reports it and returns no window, without searching for
    windows. *)
Theorem get_window_ambiguous_process
  (search_name : value) (pattern : string) (pids : list string)
  (W : world) (t : trace) :
  pattern <> "" -> (2 <= List.length pids)%nat -> all_words pids = true ->
  W t (pgrep_f pattern) = Ok (lines_text pids) ->
  get_window search_name (VStr pattern) W t
  = (Ok None,
     t ++ [Call (pgrep_f pattern);
           Log "error" (msg_multiple_processes (VStr pattern))]).
Proof.
  intros Hn Hlen Hw Hout.
  assert (Hne : pids <> [])
    by (destruct pids; [simpl in Hlen; lia|discriminate]).
  unfold get_window, get_window_try, except_called_process_error.
  cbn [truthy]. apply String.eqb_neq in Hn. rewrite Hn.
  cbn [negb command_arg]. rewrite !bind_run. cbn [ret]. rewrite !bind_run.
  unfold check_output. rewrite Hout.
  rewrite split_lines_text by assumption.
  replace (1 <? Datatypes.length pids)%nat with true
    by (symmetry; apply Nat.ltb_lt; lia).
  unfold log, bind, ret. rewrite <- app_assoc. reflexivity.
Qed.

Lemma get_window_ambiguous_process_witness :
  "vim" <> ""
  /\ (2 <= List.length ["7"; "8"])%nat
  /\ all_words ["7"; "8"] = true
  /\ two_pids_world [] (pgrep_f "vim") = Ok (lines_text ["7"; "8"])
  /\ get_window (VStr "") (VStr "vim") two_pids_world []
     = (Ok None,
        [] ++ [Call (pgrep_f "vim");
               Log "error" (msg_multiple_processes (VStr "vim"))]).
Proof.
  split; [discriminate|]. split; [simpl; lia|]. split; [reflexivity|].
  split; [reflexivity|].
  apply (get_window_ambiguous_process (VStr "") "vim" ["7"; "8"]
           two_pids_world []);
    [discriminate|simpl; lia|reflexivity|reflexivity].
Defined.

(** X9: [get_window] never ends with [CalledProcessError]: a failing
    search command is caught. *)
Theorem get_window_never_called_process_error
  (search_name search_process : value) (W : world) (t : trace)
  (output : string) (t' : trace) :
  get_window search_name search_process W t
  <> (Raise (CalledProcessError output), t').
Proof.
  unfold get_window, except_called_process_error. rewrite bind_run.
  destruct (get_window_try search_name search_process W t) as [[[[]|out]|e] t1].
  - discriminate.
  - discriminate.
  - destruct e; try discriminate.
Qed.

(** X10: [set_desktops] issues the command that sets the number of
    desktops only with its own count, and only when the reported number
    of desktops is strictly below it. *)
Theorem set_desktops_only_grows
  (count : Z) (W : world) (t : trace) (r : result unit) (t' : trace) :
  set_desktops count W t = (r, t') ->
  exists events,
    t' = t ++ events
    /\ forall c,
         In (Call (xdotool_set_num_desktops c)) events ->
         c = count
         /\ exists output n,
              W t xdotool_get_num_desktops = Ok output
              /\ Str.to_int (Str.strip output) = Ok n
              /\ n < count.
Proof.
  unfold set_desktops, check_output. rewrite bind_run.
  destruct (W t xdotool_get_num_desktops) as [output|e] eqn:Ew.
  - unfold lift. rewrite bind_run.
    destruct (Str.to_int (Str.strip output)) as [n|e] eqn:En.
    + destruct (Z.leb_spec count n) as [Hle|Hlt].
      * intros [= <- <-].
        exists [Call xdotool_get_num_desktops;
                Log "info" (msg_enough_desktops count)].
        split; [rewrite <- app_assoc; reflexivity|].
        intros c [Hc|[Hc|[]]]; discriminate.
      * rewrite bind_run.
        assert (Hin : forall c,
                   In (Call (xdotool_set_num_desktops c))
                      [Call xdotool_get_num_desktops;
                       Call (xdotool_set_num_desktops count)] ->
                   c = count
                   /\ exists output0 n0,
                        Ok output = Ok output0
                        /\ Str.to_int (Str.strip output0) = Ok n0
                        /\ n0 < count).
        { intros c [Hc|[Hc|[]]]; [discriminate|].
          injection Hc as <-. split; [reflexivity|].
          exists output, n. auto. }
        destruct (W _ (xdotool_set_num_desktops count)) as [out|e];
          intros [= <- <-];
          exists [Call xdotool_get_num_desktops;
                  Call (xdotool_set_num_desktops count)];
          (split; [rewrite <- app_assoc; reflexivity|exact Hin]).
    + intros [= <- <-]. exists [Call xdotool_get_num_desktops].
      split; [reflexivity|]. intros c [Hc|[]]; discriminate.
  - intros [= <- <-]. exists [Call xdotool_get_num_desktops].
    split; [reflexivity|]. intros c [Hc|[]]; discriminate.
Qed.

Lemma set_desktops_only_grows_witness :
  set_desktops 3 sample_world []
  = (Ok tt, [Call xdotool_get_num_desktops; Call (xdotool_set_num_desktops 3)])
  /\ exists events,
       [Call xdotool_get_num_desktops; Call (xdotool_set_num_desktops 3)]
       = [] ++ events
       /\ forall c,
            In (Call (xdotool_set_num_desktops c)) events ->
            c = 3
            /\ exists output n,
                 sample_world [] xdotool_get_num_desktops = Ok output
                 /\ Str.to_int (Str.strip output) = Ok n
                 /\ n < 3.
Proof.
  split; [reflexivity|].
  apply (set_desktops_only_grows 3 sample_world [] (Ok tt)). reflexivity.
Defined.

(** The maximum of integer values. *)
Lemma max_from_int (rest : list value) (best : value) (b : Z) :
  as_int best = Some b ->
  (forall v, In v rest -> exists n, as_int v = Some n) ->
  exists v m,
    max_from best rest = Ok v /\ as_int v = Some m /\ b <= m
    /\ In v (best :: rest)
    /\ forall u n, In u rest -> as_int u = Some n -> n <= m.
Proof.
  revert best b. induction rest as [|v rest IH]; intros best b Hb Hall.
  - exists best, b. cbn [max_from]. split; [reflexivity|].
    split; [exact Hb|]. split; [lia|]. split; [left; reflexivity|].
    intros u n [].
  - destruct (Hall v (or_introl eq_refl)) as (n & Hn).
    cbn [max_from]. unfold py_gt. rewrite Hn, Hb. cbn [rbind].
    destruct (Z.ltb_spec b n) as [Hlt|Hge].
    + destruct (IH v n Hn (fun u Hu => Hall u (or_intror Hu)))
        as (r & m & E & Hm & Hle & Hin & Hmax).
      exists r, m. split; [exact E|]. split; [exact Hm|]. split; [lia|].
      split; [destruct Hin as [<-|Hin]; [right; left|right; right]; auto|].
      intros u k [<-|Hu] Hk; [rewrite Hn in Hk; injection Hk as <-; lia|].
      eapply Hmax; eassumption.
    + destruct (IH best b Hb (fun u Hu => Hall u (or_intror Hu)))
        as (r & m & E & Hm & Hle & Hin & Hmax).
      exists r, m. split; [exact E|]. split; [exact Hm|]. split; [lia|].
      split; [destruct Hin as [<-|Hin]; [left|right; right]; auto|].
      intros u k [<-|Hu] Hk; [rewrite Hn in Hk; injection Hk as <-; lia|].
      eapply Hmax; eassumption.
Qed.

(** The count that is ensured exceeds the desktop of every rule, a rule
    without desktop counting as 0, and is one more than one of them. *)
Lemma desktop_count_covers (config : list dict) :
  config <> [] ->
  (forall c, In c config -> exists n, as_int (counted_desktop c) = Some n) ->
  exists m,
    (let? v := py_max (map counted_desktop config) in plus_one v)
    = Ok (m + 1)
    /\ (forall c n, In c config -> as_int (counted_desktop c) = Some n ->
                    n < m + 1)
    /\ exists c, In c config /\ as_int (counted_desktop c) = Some m.
Proof.
  intros Hne Hall. destruct config as [|c0 config]; [congruence|].
  destruct (Hall c0 (or_introl eq_refl)) as (b & Hb).
  destruct (max_from_int (map counted_desktop config) (counted_desktop c0) b Hb)
    as (v & m & E & Hm & Hle & Hin & Hmax).
  { intros v (c & <- & Hc)%in_map_iff. apply Hall. right. exact Hc. }
  exists m. cbn [map py_max]. rewrite E. cbn [rbind].
  unfold plus_one. rewrite Hm. split; [reflexivity|]. split.
  - intros c n [<-|Hc] Hn.
    + rewrite Hb in Hn. injection Hn as <-. lia.
    + assert (n <= m); [|lia]. apply (Hmax (counted_desktop c));
        [apply in_map; exact Hc|exact Hn].
  - change (counted_desktop c0 :: map counted_desktop config)
      with (map counted_desktop (c0 :: config)) in Hin.
    apply in_map_iff in Hin as (c & <- & Hc). eauto.
Qed.

Lemma py_gt_raises (a b : value) (e : exn) :
  py_gt a b = Raise e -> e = TypeError.
Proof.
  unfold py_gt. destruct (as_int a), (as_int b), a, b; congruence.
Qed.

(** A comparison that returns is between two integers or between two
    values that are not integers. *)
Lemma py_gt_mixed (a b : value) (g : bool) :
  py_gt a b = Ok g ->
  (as_int a = None -> as_int b = None)
  /\ (as_int b = None -> as_int a = None).
Proof.
  destruct a, b; cbn; intros E; split; intros H;
    try discriminate; reflexivity.
Qed.

(** Null or a string among the values: the maximum fails with
    [TypeError], or is null or a string itself. *)
Lemma max_from_not_int (rest : list value) (best : value) :
  as_int best = None \/ (exists v, In v rest /\ as_int v = None) ->
  max_from best rest = Raise TypeError
  \/ exists v, max_from best rest = Ok v /\ as_int v = None.
Proof.
  revert best. induction rest as [|v rest IH]; intros best H.
  - destruct H as [H|(v & [] & _)]. right. exists best. auto.
  - cbn [max_from].
    destruct (py_gt v best) as [g|e] eqn:Eg;
      [|left; apply py_gt_raises in Eg; subst; reflexivity].
    cbn [rbind]. destruct (py_gt_mixed v best g Eg) as [H1 H2]. apply IH.
    destruct H as [Hb|(u & [<-|Hu] & Hn)].
    + left. destruct g; auto.
    + left. destruct g; auto.
    + right. eauto.
Qed.

Lemma desktop_not_int (config : list dict) :
  (exists c, In c config /\ as_int (counted_desktop c) = None) ->
  (let? v := py_max (map counted_desktop config) in plus_one v)
  = Raise TypeError.
Proof.
  intros (c & Hc & Hn). destruct config as [|c0 config]; [destruct Hc|].
  cbn [map py_max].
  assert (H : as_int (counted_desktop c0) = None
              \/ exists v, In v (map counted_desktop config)
                           /\ as_int v = None).
  { destruct Hc as [<-|Hc]; [left; exact Hn|right].
    exists (counted_desktop c). split; [apply in_map; exact Hc|exact Hn]. }
  destruct (max_from_not_int _ _ H) as [->|(v & -> & Hv)]; [reflexivity|].
  cbn [rbind]. unfold plus_one. rewrite Hv. reflexivity.
Qed.

Lemma get_active_screens_returns (W : world) (t : trace) (output : string) :
  W t xrandr_listactivemonitors = Ok output ->
  lines_parse (Str.split linesep (Str.strip output)) ->
  exists res,
    get_active_screens W t = (Ok res, t ++ [Call xrandr_listactivemonitors]).
Proof.
  intros Hw Hp. destruct (collect_screens_total _ Hp) as (collected & Ec).
  exists (sort_by sort_key collected).
  unfold get_active_screens, check_output. rewrite bind_run, Hw.
  unfold lift, screens_of_lines. rewrite Ec. reflexivity.
Qed.

(** X12: a rule whose [desktop] is null or a string ends the run with
    [TypeError] after the topology query, before any desktop or window
    command. *)
Theorem arrange_windows_desktop_not_int
  (config : list dict) (W : world) (t : trace) (output : string) :
  W t xrandr_listactivemonitors = Ok output ->
  lines_parse (Str.split linesep (Str.strip output)) ->
  (exists c, In c config
             /\ (counted_desktop c = VNone
                 \/ exists s, counted_desktop c = VStr s)) ->
  arrange_windows (Some config) W t
  = (Raise TypeError, t ++ [Call xrandr_listactivemonitors]).
Proof.
  intros Hw Hp Hnull.
  assert (Hc : exists c, In c config /\ as_int (counted_desktop c) = None).
  { destruct Hnull as (c & Hin & [Hn|(s & Hs)]); exists c;
      (split; [exact Hin|]); [rewrite Hn|rewrite Hs]; reflexivity. }
  destruct (get_active_screens_returns W t output Hw Hp) as (res & Es).
  pose proof (desktop_not_int config Hc) as Hd.
  unfold arrange_windows. rewrite bind_run, Es.
  destruct config as [|c0 config];
    [destruct Hc as (c & [] & _)|].
  rewrite bind_run.
  change (get_config (Some (c0 :: config)) W
            (t ++ [Call xrandr_listactivemonitors]))
    with (Ok (c0 :: config), t ++ [Call xrandr_listactivemonitors]).
  cbv beta iota. rewrite bind_run. unfold lift.
  change (map (dict_get "desktop" (VInt 0)) (c0 :: config))
    with (map counted_desktop (c0 :: config)).
  destruct (py_max (map counted_desktop (c0 :: config))) as [v|e] eqn:Em.
  - cbn [rbind] in Hd. rewrite bind_run, Hd. reflexivity.
  - cbn [rbind] in Hd. injection Hd as ->. reflexivity.
Qed.

Lemma arrange_windows_desktop_not_int_witness :
  sample_world [] xrandr_listactivemonitors = Ok sample_report
  /\ lines_parse (Str.split linesep (Str.strip sample_report))
  /\ (exists c, In c [rule_firefox; rule_desktop_text]
                /\ (counted_desktop c = VNone
                    \/ exists s, counted_desktop c = VStr s))
  /\ arrange_windows (Some [rule_firefox; rule_desktop_text]) sample_world []
     = (Raise TypeError, [] ++ [Call xrandr_listactivemonitors]).
Proof.
  assert (H : exists c, In c [rule_firefox; rule_desktop_text]
                        /\ (counted_desktop c = VNone
                            \/ exists s, counted_desktop c = VStr s)).
  { exists rule_desktop_text. split; [right; left; reflexivity|].
    right. exists "2". reflexivity. }
  split; [reflexivity|]. split; [exact sample_report_parses|].
  split; [exact H|].
  exact (arrange_windows_desktop_not_int [rule_firefox; rule_desktop_text]
           sample_world [] sample_report eq_refl sample_report_parses H).
Defined.

(** X13: without rules, the file unreadable or the list empty, the run
    ends with [AssertionError] after the topology query, before any
    desktop or window command. *)
Theorem arrange_windows_without_rules
  (loaded : option (list dict)) (W : world) (t : trace) (output : string) :
  W t xrandr_listactivemonitors = Ok output ->
  lines_parse (Str.split linesep (Str.strip output)) ->
  loaded = None \/ loaded = Some [] ->
  arrange_windows loaded W t
  = (Raise AssertionError, t ++ [Call xrandr_listactivemonitors]).
Proof.
  intros Hw Hp Hl.
  destruct (get_active_screens_returns W t output Hw Hp) as (res & Es).
  unfold arrange_windows. rewrite bind_run, Es.
  destruct Hl as [-> | ->]; reflexivity.
Qed.

Lemma arrange_windows_without_rules_witness :
  sample_world [] xrandr_listactivemonitors = Ok sample_report
  /\ lines_parse (Str.split linesep (Str.strip sample_report))
  /\ (@None (list dict) = None \/ @None (list dict) = Some [])
  /\ arrange_windows None sample_world []
     = (Raise AssertionError, [] ++ [Call xrandr_listactivemonitors]).
Proof.
  split; [reflexivity|]. split; [exact sample_report_parses|].
  split; [left; reflexivity|].
  exact (arrange_windows_without_rules None sample_world [] sample_report
           eq_refl sample_report_parses (or_introl eq_refl)).
Defined.

Lemma get_screen_data_well_formed_witness :
  is_literal "0" = true /\ is_word "+*DP-2" = true
  /\ is_literal "3440" = true /\ is_literal "820" = true
  /\ is_literal "1440" = true /\ is_literal "346" = true
  /\ is_literal "2560" = true /\ is_literal "0" = true
  /\ is_word "DP-2" = true
  /\ exists i pw pwmm ph phmm px py,
       Str.to_int "0" = Ok i
       /\ Str.to_int "3440" = Ok pw /\ Str.to_int "820" = Ok pwmm
       /\ Str.to_int "1440" = Ok ph /\ Str.to_int "346" = Ok phmm
       /\ Str.to_int "2560" = Ok px /\ Str.to_int "0" = Ok py
       /\ get_screen_data
            (monitor_line "0" "+*DP-2" "3440" "820" "1440" "346" "2560" "0"
               "DP-2")
          = Ok (Some (mk_screen (Some "DP-2") (Some i)
                        (Some (Str.contains "*" "+*DP-2")) (Some px) (Some py)
                        (Some pw) (Some pwmm) (Some ph) (Some phmm))).
Proof.
  repeat (split; [reflexivity|]).
  apply (get_screen_data_well_formed "0" "+*DP-2" "3440" "820" "1440" "346"
           "2560" "0" "DP-2"); reflexivity.
Defined.

(** X14: one line of the report on which the parser raises makes the
    collection of the screens, and with it the run, end with
    [ValueError] after the topology query. *)
Theorem malformed_line_ends_the_run
  (loaded : option (list dict)) (W : world) (t : trace) (output : string) :
  W t xrandr_listactivemonitors = Ok output ->
  (exists line e,
      In line (Str.split linesep (Str.strip output))
      /\ get_screen_data line = Raise e) ->
  get_active_screens W t
  = (Raise ValueError, t ++ [Call xrandr_listactivemonitors])
  /\ arrange_windows loaded W t
     = (Raise ValueError, t ++ [Call xrandr_listactivemonitors]).
Proof.
  intros Hw Hl.
  assert (Hs : get_active_screens W t
               = (Raise ValueError, t ++ [Call xrandr_listactivemonitors])).
  { unfold get_active_screens, check_output. rewrite bind_run, Hw.
    unfold lift, screens_of_lines.
    rewrite (collect_screens_raises _ Hl). reflexivity. }
  split; [exact Hs|].
  unfold arrange_windows. rewrite bind_run, Hs. reflexivity.
Qed.

Lemma broken_report_raises :
  exists line e,
    In line (Str.split linesep
               (Str.strip
                  (" 0: +*DP-2 3440/820x1440/346+2560+0  DP-2" ++ linesep
                   ++ " X: +DP-4 2560/345x1600/215+0+0  DP-4" ++ linesep)))
    /\ get_screen_data line = Raise e.
Proof.
  exists " X: +DP-4 2560/345x1600/215+0+0  DP-4", ValueError.
  split; vm_compute; auto.
Qed.

Lemma malformed_line_ends_the_run_witness :
  broken_report_world [] xrandr_listactivemonitors
  = Ok (" 0: +*DP-2 3440/820x1440/346+2560+0  DP-2" ++ linesep
        ++ " X: +DP-4 2560/345x1600/215+0+0  DP-4" ++ linesep)%string
  /\ get_active_screens broken_report_world []
     = (Raise ValueError, [] ++ [Call xrandr_listactivemonitors])
  /\ arrange_windows (Some [rule_firefox]) broken_report_world []
     = (Raise ValueError, [] ++ [Call xrandr_listactivemonitors]).
Proof.
  split; [reflexivity|].
  exact (malformed_line_ends_the_run (Some [rule_firefox])
           broken_report_world [] _ eq_refl broken_report_raises).
Defined.

Lemma list_item_below (A : Type) (l : list A) (i : Z) :
  i < - Z.of_nat (List.length l) -> list_item l i = Raise IndexError.
Proof.
  intros Hi. unfold list_item.
  replace (i <? 0) with true by (symmetry; apply Z.ltb_lt; lia).
  replace (0 <=? i + Z.of_nat (List.length l)) with false
    by (symmetry; apply Z.leb_gt; lia).
  reflexivity.
Qed.

(** X15: a screen index below minus the number of screens ends the rule,
    and the loop over the rules, with [IndexError], before any command. *)
Theorem arrange_window_index_below
  (window_config : dict) (screens : list screen) (W : world) (t : trace)
  (i : Z) :
  truthy (setting "search_name" window_config)
  || truthy (setting "search_process" window_config) = true ->
  as_int (setting "screen" window_config) = Some i ->
  i < - Z.of_nat (List.length screens) ->
  arrange_window window_config screens W t = (Raise IndexError, t)
  /\ forall rest,
       for_each (window_config :: rest)
         (fun c => arrange_window c screens) W t
       = (Raise IndexError, t).
Proof.
  intros Hs Hi Hlt.
  assert (Hw : arrange_window window_config screens W t
               = (Raise IndexError, t)).
  { settings. rewrite ?bind_lift_ok, Hs, Hi.
    rewrite bind_run. cbn [assert ret].
    replace (Z.of_nat (Datatypes.length screens) <=? i) with false
      by (symmetry; apply Z.leb_gt; lia).
    rewrite bind_run. unfold lift. rewrite list_item_below by exact Hlt.
    reflexivity. }
  split; [exact Hw|]. intros rest. cbn [for_each].
  rewrite bind_run, Hw. reflexivity.
Qed.

Lemma arrange_window_index_below_witness :
  truthy (setting "search_name" rule_screen_minus_3)
  || truthy (setting "search_process" rule_screen_minus_3) = true
  /\ as_int (setting "screen" rule_screen_minus_3) = Some (-3)
  /\ -3 < - Z.of_nat (List.length sample_screens)
  /\ arrange_window rule_screen_minus_3 sample_screens sample_world []
     = (Raise IndexError, [])
  /\ forall rest,
       for_each (rule_screen_minus_3 :: rest)
         (fun c => arrange_window c sample_screens) sample_world []
       = (Raise IndexError, []).
Proof.
  split; [reflexivity|]. split; [reflexivity|]. split; [reflexivity|].
  apply (arrange_window_index_below rule_screen_minus_3 sample_screens
           sample_world [] (-3)); reflexivity.
Defined.

Lemma list_item_lt (A : Type) (l : list A) (i : Z) (a : A) :
  list_item l i = Ok a -> i < Z.of_nat (List.length l).
Proof.
  unfold list_item.
  destruct (Z.ltb_spec i 0); [lia|].
  destruct (Z.leb_spec 0 i); cbn [andb]; [|discriminate].
  destruct (Z.ltb_spec i (Z.of_nat (List.length l))); [lia|discriminate].
Qed.

(** X16: when the selected screen has no width (a partial record) and a
    window was found, the rule ends with [KeyError] right after the
    search, before any placement. *)
Theorem arrange_window_partial_screen
  (window_config : dict) (screens : list screen) (W : world) (t : trace)
  (i : Z) (s : screen) (window_id : string) (t1 : trace) :
  truthy (setting "search_name" window_config)
  || truthy (setting "search_process" window_config) = true ->
  as_int (setting "screen" window_config) = Some i ->
  list_item screens i = Ok s ->
  width s = None ->
  get_window (setting "search_name" window_config)
    (setting "search_process" window_config) W t
  = (Ok (Some window_id), t1) ->
  arrange_window window_config screens W t = (Raise KeyError, t1).
Proof.
  intros Hs Hi Hitem Hwidth Hwin.
  pose proof (list_item_lt _ _ _ _ Hitem) as Hlt.
  settings. rewrite ?bind_lift_ok, Hs, Hi.
  rewrite bind_run. cbn [assert ret].
  replace (Z.of_nat (Datatypes.length screens) <=? i) with false
    by (symmetry; apply Z.leb_gt; lia).
  rewrite Hitem, ?bind_lift_ok, bind_run, Hwin, Hwidth. reflexivity.
Qed.

Lemma arrange_window_partial_screen_witness :
  truthy (setting "search_name" rule_firefox)
  || truthy (setting "search_process" rule_firefox) = true
  /\ as_int (setting "screen" rule_firefox) = Some 0
  /\ list_item partial_screens 0
     = Ok (mk_screen (Some "b") None None None None None None None None)
  /\ width (mk_screen (Some "b") None None None None None None None None)
     = None
  /\ get_window (setting "search_name" rule_firefox)
       (setting "search_process" rule_firefox) sample_world []
     = (Ok (Some "123"), [Call (xdotool_search None (Some "Firefox"))])
  /\ arrange_window rule_firefox partial_screens sample_world []
     = (Raise KeyError, [Call (xdotool_search None (Some "Firefox"))]).
Proof.
  repeat (split; [reflexivity|]).
  apply (arrange_window_partial_screen rule_firefox partial_screens
           sample_world [] 0
           (mk_screen (Some "b") None None None None None None None None)
           "123"); reflexivity.
Defined.

(** X11: when every rule counts with an integer desktop (0 without a
    [desktop] key), the run ensures [m + 1] desktops before the first
    rule, where [m] is the largest of them: more than the counted desktop
    of every rule. *)
Theorem arrange_windows_desktop_count
  (config : list dict) (W : world) (t : trace) (output : string) :
  W t xrandr_listactivemonitors = Ok output ->
  lines_parse (Str.split linesep (Str.strip output)) ->
  config <> [] ->
  (forall c, In c config -> exists n, as_int (counted_desktop c) = Some n) ->
  exists screens m,
    get_active_screens W t
    = (Ok screens, t ++ [Call xrandr_listactivemonitors])
    /\ arrange_windows (Some config) W t
       = (set_desktops (m + 1) ;;
          for_each config (fun c => arrange_window c screens))
           W (t ++ [Call xrandr_listactivemonitors])
    /\ (forall c n, In c config -> as_int (counted_desktop c) = Some n ->
                    n < m + 1)
    /\ exists c, In c config /\ as_int (counted_desktop c) = Some m.
Proof.
  intros Hw Hp Hne Hall.
  destruct (get_active_screens_returns W t output Hw Hp) as (screens & Es).
  destruct (desktop_count_covers config Hne Hall) as (m & Em & Hle & Hex).
  exists screens, m. split; [exact Es|]. split; [|split; assumption].
  unfold arrange_windows. rewrite bind_run, Es.
  destruct config as [|c0 config]; [congruence|].
  rewrite bind_run.
  change (get_config (Some (c0 :: config)) W
            (t ++ [Call xrandr_listactivemonitors]))
    with (Ok (c0 :: config), t ++ [Call xrandr_listactivemonitors]).
  cbv beta iota. rewrite bind_run. unfold lift at 1.
  change (map (dict_get "desktop" (VInt 0)) (c0 :: config))
    with (map counted_desktop (c0 :: config)).
  destruct (py_max (map counted_desktop (c0 :: config))) as [v|e];
    [|discriminate].
  cbn [rbind] in Em. rewrite Em, bind_lift_ok. reflexivity.
Qed.

Lemma arrange_windows_desktop_count_witness :
  sample_world [] xrandr_listactivemonitors = Ok sample_report
  /\ lines_parse (Str.split linesep (Str.strip sample_report))
  /\ [rule_firefox; rule_desktop_4] <> []
  /\ exists screens m,
       get_active_screens sample_world []
       = (Ok screens, [] ++ [Call xrandr_listactivemonitors])
       /\ arrange_windows (Some [rule_firefox; rule_desktop_4])
            sample_world []
          = (set_desktops (m + 1) ;;
             for_each [rule_firefox; rule_desktop_4]
               (fun c => arrange_window c screens))
              sample_world ([] ++ [Call xrandr_listactivemonitors])
       /\ (forall c n, In c [rule_firefox; rule_desktop_4] ->
                       as_int (counted_desktop c) = Some n -> n < m + 1)
       /\ exists c, In c [rule_firefox; rule_desktop_4]
                    /\ as_int (counted_desktop c) = Some m.
Proof.
  split; [reflexivity|]. split; [exact sample_report_parses|].
  split; [discriminate|].
  apply (arrange_windows_desktop_count [rule_firefox; rule_desktop_4]
           sample_world [] sample_report eq_refl sample_report_parses);
    [discriminate|].
  intros c [<-|[<-|[]]]; eexists; reflexivity.
Defined.

(** X3: a size written as one to four digits resolves as the integer it
    denotes. *)
Theorem calc_size_digit_text
  (d : string) (target : Z) (W : world) (t : trace) :
  is_number d = true -> (String.length d <= 4)%nat ->
  exists n,
    Str.to_int d = Ok n
    /\ calc_size (VStr d) target W t = calc_size (VInt n) target W t.
Proof.
  intros Hd Hlen.
  destruct (number_to_int d Hd ltac:(lia)) as (n & En & Hn).
  destruct (is_number_inv d Hd) as [Dd Nd].
  exists n. split; [exact En|].
  assert (Es : Str.strip d = d).
  { apply strip_by_word, (digits_none_of _ d is_digit_no_space Dd). }
  assert (Eb : Str.before_dollar d = d).
  { unfold Str.before_dollar.
    destruct (Str.rev d) as [|c r] eqn:E; [reflexivity|].
    assert (Hc : Str.is_digit c = true).
    { pose proof (all_digits_rev d) as Hr. rewrite E, Dd in Hr.
      cbn in Hr. apply andb_true_iff in Hr as [Hc _]. exact Hc. }
    rewrite (is_digit_not c "010" Hc eq_refl). reflexivity. }
  assert (Em : Str.match_digits 1 4 d = true).
  { unfold Str.match_digits. rewrite Eb, Dd. cbn [andb].
    apply andb_true_iff. split.
    - destruct d; [congruence|reflexivity].
    - apply Nat.leb_le. exact Hlen. }
  unfold calc_size at 1. cbn [as_integer]. rewrite Es, Em.
  unfold bind, lift, ret. rewrite En, calc_size_int, py_min_int.
  do 3 f_equal. destruct (Z.ltb_spec 0 n); lia.
Qed.

Lemma calc_size_digit_text_witness :
  is_number "800" = true /\ (String.length "800" <= 4)%nat
  /\ exists n,
       Str.to_int "800" = Ok n
       /\ calc_size (VStr "800") 1600 sample_world []
          = calc_size (VInt n) 1600 sample_world [].
Proof.
  split; [reflexivity|]. split; [simpl; lia|].
  apply (calc_size_digit_text "800" 1600 sample_world []);
    [reflexivity|simpl; lia].
Defined.

(** X8: when the process search prints one process id, the window search
    is restricted to that process (and to the title, when one is given),
    and the last window it prints is returned. *)
Theorem get_window_by_process
  (search_name pattern pid : string) (windows : list string)
  (W : world) (t : trace) :
  pattern <> "" -> is_word pid = true ->
  windows <> [] -> all_words windows = true ->
  W t (pgrep_f pattern) = Ok (lines_text [pid]) ->
  W (t ++ [Call (pgrep_f pattern)])
    (xdotool_search (Some pid)
       (if String.eqb search_name "" then None else Some search_name))
  = Ok (lines_text windows) ->
  get_window (VStr search_name) (VStr pattern) W t
  = (Ok (Some (last windows "")),
     t ++ [Call (pgrep_f pattern);
           Call (xdotool_search (Some pid)
                   (if String.eqb search_name "" then None
                    else Some search_name))]).
Proof.
  intros Hn Hpid Hne Hw Hpgrep Hsearch.
  destruct (is_word_inv pid Hpid) as [_ Npid].
  unfold get_window, get_window_try, except_called_process_error.
  cbn [truthy]. apply String.eqb_neq in Hn. rewrite Hn.
  cbn [negb command_arg]. rewrite !bind_run. cbn [ret]. rewrite !bind_run.
  unfold check_output at 1. rewrite Hpgrep.
  rewrite split_lines_text
    by (try discriminate; cbn; rewrite Hpid; reflexivity).
  cbn [List.length Nat.ltb Nat.leb ret item nth].
  apply String.eqb_neq in Npid. rewrite Npid.
  destruct (String.eqb search_name ""); cbn [negb ret command_arg];
    rewrite ?bind_run; cbn [ret]; rewrite ?bind_run;
    unfold check_output; rewrite Hsearch; cbn [ret];
    rewrite split_lines_text, last_word by assumption;
    rewrite <- app_assoc; reflexivity.
Qed.

Lemma get_window_by_process_witness :
  "vim" <> "" /\ is_word "77" = true
  /\ ["41"; "42"; "43"] <> [] /\ all_words ["41"; "42"; "43"] = true
  /\ process_world [] (pgrep_f "vim") = Ok (lines_text ["77"])
  /\ get_window (VStr "") (VStr "vim") process_world []
     = (Ok (Some (last ["41"; "42"; "43"] "")),
        [] ++ [Call (pgrep_f "vim"); Call (xdotool_search (Some "77") None)]).
Proof.
  split; [discriminate|]. split; [reflexivity|]. split; [discriminate|].
  split; [reflexivity|]. split; [reflexivity|].
  apply (get_window_by_process "" "vim" "77" ["41"; "42"; "43"]
           process_world []);
    (discriminate || reflexivity).
Defined.
